(** * Argument type converters of Robot Framework

  A shallow embedding of [robot/running/arguments/typeconverters.py]:
  the converter registry, the dispatch of [converter_for], the base
  conversion contract of [TypeConverter.convert] and the scalar,
  composite and resolution converters, followed by theorems about them.

  Text is modelled as [string] (a sequence of bytes); the case mappings
  below are those of Python on ASCII text and leave every other byte as
  it is. *)

From Stdlib Require Import String Ascii List ZArith Lia Bool Arith.
From Stdlib Require Import DecimalString DecimalPos.
Import ListNotations.
Open Scope string_scope.
Set Warnings "-register-all".

(* ===================================================================== *)
(** * Python text operations *)
(* ===================================================================== *)

Module PyStr.

Definition is_upper (c : ascii) : bool := (("A" <=? c) && (c <=? "Z"))%char.
Definition is_lower (c : ascii) : bool := (("a" <=? c) && (c <=? "z"))%char.
Definition is_cased (c : ascii) : bool := is_upper c || is_lower c.
Definition is_digit (c : ascii) : bool := (("0" <=? c) && (c <=? "9"))%char.

(** [str.isspace] on one ASCII character. *)
Definition is_space (c : ascii) : bool :=
  let n := nat_of_ascii c in
  ((n =? 32) || ((9 <=? n) && (n <=? 13)) || ((28 <=? n) && (n <=? 31)))%nat.

Definition to_lower (c : ascii) : ascii :=
  if is_upper c then ascii_of_nat (nat_of_ascii c + 32) else c.
Definition to_upper (c : ascii) : ascii :=
  if is_lower c then ascii_of_nat (nat_of_ascii c - 32) else c.

Fixpoint map (f : ascii -> ascii) (s : string) : string :=
  match s with
  | EmptyString => EmptyString
  | String c s' => String (f c) (map f s')
  end.

Fixpoint filter (p : ascii -> bool) (s : string) : string :=
  match s with
  | EmptyString => EmptyString
  | String c s' => if p c then String c (filter p s') else filter p s'
  end.

Fixpoint existsb (p : ascii -> bool) (s : string) : bool :=
  match s with
  | EmptyString => false
  | String c s' => p c || existsb p s'
  end.

(** [s.lower()], [s.upper()]. *)
Definition lower (s : string) : string := map to_lower s.
Definition upper (s : string) : string := map to_upper s.

(** [s.title()]: a cased character is upper-cased when the character
    before it is not cased and lower-cased otherwise. *)
Fixpoint title_from (previous_is_cased : bool) (s : string) : string :=
  match s with
  | EmptyString => EmptyString
  | String c s' =>
      String (if previous_is_cased then to_lower c else to_upper c)
             (title_from (is_cased c) s')
  end.
Definition title (s : string) : string := title_from false s.

(** [s.capitalize()]. *)
Definition capitalize (s : string) : string :=
  match s with
  | EmptyString => EmptyString
  | String c s' => String (to_upper c) (lower s')
  end.

(** [s.islower()]: no upper-case character and at least one cased one. *)
Definition islower (s : string) : bool :=
  negb (existsb is_upper s) && existsb is_lower s.

(** [sep in s] and [s.replace(sep, "")] for a one-character [sep]. *)
Definition contains_char (sep : ascii) (s : string) : bool :=
  existsb (Ascii.eqb sep) s.
Definition remove_char (sep : ascii) (s : string) : string :=
  filter (fun c => negb (Ascii.eqb sep c)) s.

Fixpoint drop (n : nat) (s : string) : string :=
  match n, s with
  | O, _ => s
  | S _, EmptyString => EmptyString
  | S k, String _ s' => drop k s'
  end.

(** [s.startswith(p)]. *)
Fixpoint startswith (p s : string) : bool :=
  match p with
  | EmptyString => true
  | String a p' =>
      match s with
      | EmptyString => false
      | String b s' => Ascii.eqb a b && startswith p' s'
      end
  end.

(** [s.partition(sep)] when [sep] occurs in [s]: the text before the
    first occurrence and the text after it. *)
Fixpoint partition (sep s : string) : option (string * string) :=
  if startswith sep s then Some (EmptyString, drop (String.length sep) s)
  else match s with
       | EmptyString => None
       | String c s' =>
           match partition sep s' with
           | Some (a, b) => Some (String c a, b)
           | None => None
           end
       end.

(** [sub in s]. *)
Definition contains (sub s : string) : bool :=
  match partition sub s with Some _ => true | None => false end.

(** [s.split(sep)] for a non-empty [sep]; every cut removes at least one
    character, so [length s] rounds are enough. *)
Fixpoint split_fuel (fuel : nat) (s sep : string) : list string :=
  match fuel with
  | O => [s]
  | S fuel' =>
      match partition sep s with
      | None => [s]
      | Some (a, b) => a :: split_fuel fuel' b sep
      end
  end.
Definition split (s sep : string) : list string :=
  split_fuel (String.length s) s sep.

(** ["".join(parts)] and [sep.join(parts)]. *)
Definition join (sep : string) (parts : list string) : string :=
  String.concat sep parts.

(** [s.strip()]. *)
Fixpoint lstrip (s : string) : string :=
  match s with
  | String c s' => if is_space c then lstrip s' else s
  | EmptyString => EmptyString
  end.
Fixpoint rstrip (s : string) : string :=
  match s with
  | EmptyString => EmptyString
  | String c s' =>
      match rstrip s' with
      | EmptyString => if is_space c then EmptyString else String c EmptyString
      | r => String c r
      end
  end.
Definition strip (s : string) : string := rstrip (lstrip s).

(** [str(n)] for an integer. *)
Definition of_nat (n : nat) : string := NilZero.string_of_uint (Nat.to_uint n).
Definition of_Z (z : Z) : string := NilZero.string_of_int (Z.to_int z).

(** [sorted(names)] on text: insertion sort by code points. *)
Fixpoint insert_sorted (x : string) (l : list string) : list string :=
  match l with
  | [] => [x]
  | y :: l' => if String.leb x y then x :: l else y :: insert_sorted x l'
  end.
Definition sorted (l : list string) : list string :=
  fold_right insert_sorted [] l.

(** [x in container] for text. *)
Definition mem (x : string) (l : list string) : bool :=
  List.existsb (String.eqb x) l.

End PyStr.

(* ===================================================================== *)
(** * Python objects: types, values, failures *)
(* ===================================================================== *)

(** The raw value behind an enumeration member. *)
Inductive enum_value : Type :=
| EInt (z : Z)
| EText (s : string).

(** A type object.  It is identified by its name; [mro] lists the names of
    the classes and abstract base classes it is a subclass of (itself
    included), [is_class] tells whether it is an instance of [type],
    [instance_checks] whether [isinstance(x, t)] is supported (typing
    constructs and record types raise [TypeError] there), and [members] is
    [__members__] of an enumeration: member name to the canonical name and
    the raw value of the member (an alias maps to another canonical name). *)
Record pytype : Type := mkType {
  tname : string;
  is_class : bool;
  instance_checks : bool;
  mro : list string;
  members : list (string * (string * enum_value))
}.

(** A float is a dyadic rational [m * 2^e], an infinity or a NaN. *)
Inductive pyfloat : Type :=
| Finite (m e : Z)
| Infinity (negative : bool)
| NaN.

Inductive object : Type :=
| VNone
| VEllipsis
| VBool (b : bool)
| VInt (z : Z)
| VFloat (f : pyfloat)
| VStr (s : string)
| VList (items : list object)
| VTuple (items : list object)
| VSet (items : list object)
| VFrozenSet (items : list object)
| VDict (items : list (object * object))
| VEnum (cls : pytype) (name : string) (val : enum_value)
| VType (t : pytype)
| VObject (cls : pytype) (repr : string).

(** Failures.  [ValueError None] is a bare [raise ValueError] (empty
    [args]); [ValueError (Some msg)] carries one argument. *)
Inductive exn : Type :=
| ValueError (args : option string)
| OtherError (cls : string) (msg : string).

Inductive result (A : Type) : Type :=
| Ok (a : A)
| Raise (e : exn).
Arguments Ok {A} a.
Arguments Raise {A} e.

Definition bind {A B : Type} (r : result A) (k : A -> result B) : result B :=
  match r with
  | Ok a => k a
  | Raise e => Raise e
  end.

Declare Scope result_scope.
Delimit Scope result_scope with result.
Notation "x <- r ;; k" := (bind r (fun x => k))
  (at level 100, r at next level, right associativity) : result_scope.
Open Scope result_scope.

(** A comprehension [[f(x) for x in l]]: items in order, the first failure
    ends the evaluation. *)
Fixpoint traverse {A B : Type} (f : A -> result B) (l : list A) : result (list B) :=
  match l with
  | [] => Ok []
  | x :: l' => y <- f x ;; ys <- traverse f l' ;; Ok (y :: ys)
  end.

(** [enumerate(l)] from [start]. *)
Fixpoint enumerate_from {A : Type} (start : nat) (l : list A) : list (nat * A) :=
  match l with
  | [] => []
  | x :: l' => (start, x) :: enumerate_from (S start) l'
  end.
Definition enumerate {A : Type} (l : list A) : list (nat * A) := enumerate_from 0 l.

(** [zip(a, b)]. *)
Definition zip {A B : Type} (a : list A) (b : list B) : list (A * B) := combine a b.

Module Py.

Definition class (n : string) (bases : list string) : pytype :=
  mkType n true true (n :: bases) [].

Definition special_form (n : string) : pytype := mkType n false false [] [].

Definition type_ : pytype := class "type" [].
Definition NoneType : pytype := class "NoneType" [].
Definition ellipsis : pytype := class "ellipsis" [].
Definition Container : pytype := class "Container" [].
Definition Sequence : pytype := class "Sequence" ["Container"].
Definition Mapping : pytype := class "Mapping" ["Container"].
Definition Set_ : pytype := class "Set" ["Container"].
Definition Real : pytype := class "Real" [].
Definition Integral : pytype := class "Integral" ["Real"].
Definition PathLike : pytype := class "PathLike" [].
Definition PurePath : pytype := class "PurePath" ["PathLike"].
Definition Path : pytype := class "Path" ["PurePath"; "PathLike"].
Definition str : pytype := class "str" ["Sequence"; "Container"].
Definition int : pytype := class "int" ["Integral"; "Real"].
Definition bool_ : pytype := class "bool" ["int"; "Integral"; "Real"].
Definition float : pytype := class "float" ["Real"].
Definition Decimal : pytype := class "Decimal" [].
Definition bytes : pytype := class "bytes" ["Sequence"; "Container"].
Definition bytearray : pytype := class "bytearray" ["Sequence"; "Container"].
Definition date : pytype := class "date" [].
Definition datetime : pytype := class "datetime" ["date"].
Definition timedelta : pytype := class "timedelta" [].
Definition list_ : pytype := class "list" ["Sequence"; "Container"].
Definition tuple : pytype := class "tuple" ["Sequence"; "Container"].
Definition dict : pytype := class "dict" ["Mapping"; "Container"].
Definition set_ : pytype := class "set" ["Set"; "Container"].
Definition frozenset : pytype := class "frozenset" ["Set"; "Container"].
Definition Enum : pytype := class "Enum" [].
Definition Any : pytype := special_form "Any".
Definition Union : pytype := special_form "Union".
Definition Literal : pytype := special_form "Literal".

(** [a is b] on type objects. *)
Definition type_is (a b : pytype) : bool := String.eqb (tname a) (tname b).

(** [issubclass(a, b)] for a class [a]. *)
Definition issubclass (a b : pytype) : bool :=
  String.eqb (tname b) "object" || List.existsb (String.eqb (tname b)) (mro a).

(** [type(v)]. *)
Definition type_of (v : object) : pytype :=
  match v with
  | VNone => NoneType
  | VEllipsis => ellipsis
  | VBool _ => bool_
  | VInt _ => int
  | VFloat _ => float
  | VStr _ => str
  | VList _ => list_
  | VTuple _ => tuple
  | VSet _ => set_
  | VFrozenSet _ => frozenset
  | VDict _ => dict
  | VEnum cls _ _ => cls
  | VType _ => type_
  | VObject cls _ => cls
  end.

(** [isinstance(v, t)] for a type object [t]; [None] stands for the
    [TypeError] raised when [t] does not support instance checks. *)
Definition isinstance_type (v : object) (t : pytype) : option bool :=
  if is_class t && instance_checks t then Some (issubclass (type_of v) t)
  else None.

(** [isinstance(v, T)] for any second argument. *)
Definition isinstance (v T : object) : option bool :=
  match T with
  | VType t => isinstance_type v t
  | _ => None
  end.

(** [isinstance(v, (t1, ..., tn))] for a tuple of classes. *)
Definition isinstance_any (v : object) (ts : list pytype) : bool :=
  List.existsb (fun t => issubclass (type_of v) t) ts.

Definition is_str (v : object) : bool :=
  match v with VStr _ => true | _ => issubclass (type_of v) str end.

(** Exact comparison of two floats. *)
Definition float_eqb (x y : pyfloat) : bool :=
  match x, y with
  | Finite m1 e1, Finite m2 e2 =>
      let e := Z.min e1 e2 in
      (m1 * 2 ^ (e1 - e) =? m2 * 2 ^ (e2 - e))%Z
  | Infinity a, Infinity b => Bool.eqb a b
  | _, _ => false
  end.

Definition enum_value_eqb (a b : enum_value) : bool :=
  match a, b with
  | EInt x, EInt y => (x =? y)%Z
  | EText s, EText t => String.eqb s t
  | _, _ => false
  end.

(** The number a value stands for in a comparison: booleans and members
    of int-backed enumerations compare as integers. *)
Definition as_number (v : object) : option pyfloat :=
  match v with
  | VBool b => Some (Finite (if b then 1 else 0) 0)
  | VInt z => Some (Finite z 0)
  | VFloat f => Some f
  | VEnum cls _ (EInt z) => if issubclass cls int then Some (Finite z 0) else None
  | _ => None
  end.

(** [a == b]. *)
Fixpoint eq (a b : object) {struct a} : bool :=
  match as_number a, as_number b with
  | Some x, Some y => float_eqb x y
  | _, _ =>
      match a, b with
      | VNone, VNone => true
      | VEllipsis, VEllipsis => true
      | VStr s, VStr t => String.eqb s t
      | VList l, VList m | VTuple l, VTuple m =>
          (fix all2 (l m : list object) : bool :=
             match l, m with
             | [], [] => true
             | x :: l', y :: m' => eq x y && all2 l' m'
             | _, _ => false
             end) l m
      | VSet l, VSet m | VSet l, VFrozenSet m
      | VFrozenSet l, VSet m | VFrozenSet l, VFrozenSet m =>
          List.forallb (fun x => List.existsb (fun y => eq x y) m) l
          && List.forallb (fun y => List.existsb (fun x => eq x y) l) m
      | VDict l, VDict m =>
          (List.length l =? List.length m)%nat
          && List.forallb
               (fun kv => List.existsb
                            (fun kv' => eq (fst kv) (fst kv') && eq (snd kv) (snd kv')) m)
               l
      | VEnum c n _, VEnum c' n' _ => type_is c c' && String.eqb n n'
      | VType t, VType t' => type_is t t'
      | VObject c r, VObject c' r' => type_is c c' && String.eqb r r'
      | _, _ => false
      end
  end.

(** [hash(v)] succeeds. *)
Fixpoint hashable (v : object) : bool :=
  match v with
  | VList _ | VSet _ | VDict _ => false
  | VTuple l => List.forallb hashable l
  | _ => true
  end.

(** [x in container] and [d[k]] by [==]. *)
Definition mem (x : object) (l : list object) : bool := List.existsb (eq x) l.

Fixpoint lookup {A : Type} (k : object) (d : list (object * A)) : option A :=
  match d with
  | [] => None
  | (k', a) :: d' => if eq k k' then Some a else lookup k d'
  end.

(** [d[k] = v]: an existing key keeps its place. *)
Fixpoint setitem {A : Type} (k : object) (a : A) (d : list (object * A)) : list (object * A) :=
  match d with
  | [] => [(k, a)]
  | (k', a') :: d' => if eq k k' then (k', a) :: d' else (k', a') :: setitem k a d'
  end.

(** The items a value yields when iterated; an opaque object has none. *)
Definition chars (s : string) : list object :=
  List.map (fun c => VStr (String c EmptyString)) (list_ascii_of_string s).
Definition items (v : object) : list object :=
  match v with
  | VList l | VTuple l | VSet l | VFrozenSet l => l
  | VDict d => List.map fst d
  | VStr s => chars s
  | _ => []
  end.

(** The entries of a mapping. *)
Definition entries (v : object) : list (object * object) :=
  match v with VDict d => d | _ => [] end.

(** [set(items)] with the items in their order of insertion. *)
Definition set_of (items : list object) : list object :=
  List.fold_left (fun acc x => if mem x acc then acc else (acc ++ [x])%list) items [].

(** [dict(pairs)]. *)
Definition dict_of (pairs : list (object * object)) : list (object * object) :=
  List.fold_left (fun acc kv => setitem (fst kv) (snd kv) acc) pairs [].

End Py.

(* ===================================================================== *)
(** * Collaborators of the converters *)
(* ===================================================================== *)

(** The type descriptor ([TypeInfo], [TypedDictInfo]): display name,
    primary type ([None] when unknown; the constant itself below a
    [Literal]), nested descriptors (empty when there are none), the union
    and record flags, and for a record type the fields in declaration order
    and the names of the required ones. *)
Inductive TypeInfo : Type :=
| mkTypeInfo (name : string) (type : object) (nested : list TypeInfo)
    (is_union is_typed_dict : bool)
    (annotations : list (string * TypeInfo)) (required : list string).

Definition info_name (i : TypeInfo) : string :=
  match i with mkTypeInfo n _ _ _ _ _ _ => n end.
Definition info_type (i : TypeInfo) : object :=
  match i with mkTypeInfo _ t _ _ _ _ _ => t end.
Definition info_nested (i : TypeInfo) : list TypeInfo :=
  match i with mkTypeInfo _ _ n _ _ _ _ => n end.
Definition is_union (i : TypeInfo) : bool :=
  match i with mkTypeInfo _ _ _ u _ _ _ => u end.
Definition is_typed_dict (i : TypeInfo) : bool :=
  match i with mkTypeInfo _ _ _ _ d _ _ => d end.
Definition annotations (i : TypeInfo) : list (string * TypeInfo) :=
  match i with mkTypeInfo _ _ _ _ _ a _ => a end.
Definition required (i : TypeInfo) : list string :=
  match i with mkTypeInfo _ _ _ _ _ _ r => r end.

(** Modelled from the spec: the constructor call [TypeInfo(name, type)] of
    the descriptor class, which is not part of this module: a descriptor
    with that display name and primary type and nothing nested. *)
Definition TypeInfo_new (name : string) (type : object) : TypeInfo :=
  mkTypeInfo name type [] false false [] [].

(** The vocabulary provider ([robot.conf.Languages]). *)
Record Languages : Type := mkLanguages {
  true_strings : list string;
  false_strings : list string
}.

(** [ConverterInfo] of a custom converter: target type, display name,
    accepted value types and the conversion function. *)
Record ConverterInfo : Type := mkConverterInfo {
  ci_type : object;
  ci_name : string;
  ci_value_types : list pytype;
  ci_convert : object -> result object
}.

(** Modelled from the spec: [CustomArgumentConverters], the registry of
    custom converters, is not part of this module.  It holds the converter
    infos, is false when it holds none, and [get_converter_info] finds the
    entry for the exact primary type. *)
Record CustomArgumentConverters : Type := mkCustomArgumentConverters {
  registered_infos : list ConverterInfo
}.

Definition get_converter_info (reg : CustomArgumentConverters) (type_ : object)
  : option ConverterInfo :=
  List.find (fun info => Py.eq type_ (ci_type info)) (registered_infos reg).

Definition registry_bool (reg : option CustomArgumentConverters) : bool :=
  match reg with
  | Some r => negb (Nat.eqb (List.length (registered_infos r)) 0)
  | None => false
  end.

(** What the module takes from Python and from the rest of Robot
    Framework without defining it. *)
Record Runtime : Type := mkRuntime {
  (** [robot.utils.safe_str(value)] and [robot.utils.type_name(value)]. *)
  rt_safe_str : object -> string;
  rt_type_name : object -> string;
  (** [str(value)], and the text of a value that is not text inside an
      f-string. *)
  py_str : object -> result object;
  py_format : object -> string;
  (** [str(type_info)]. *)
  type_info_str : TypeInfo -> string;
  (** [ast.literal_eval(text)]. *)
  literal_eval : string -> result object;
  (** [Decimal(text).as_integer_ratio()]; [None] when it raises
      [InvalidOperation], [ValueError] or [OverflowError]. *)
  decimal_as_integer_ratio : string -> option (Z * Z);
  (** [float(value)], [Decimal(value)], [bytes(value)], [bytearray(value)],
      [Path(value)]. *)
  py_float : object -> result object;
  py_Decimal : object -> result object;
  py_bytes : object -> result object;
  py_bytearray : object -> result object;
  py_Path : object -> result object;
  (** [text.encode("latin-1")]: the bytes, or the index of the first
      character that cannot be encoded. *)
  encode_latin1 : string -> object + nat;
  (** [convert_date(value, result_format="datetime")] and
      [convert_time(value, result_format="timedelta")] of
      [robot.libraries.DateTime]; whether a datetime has a time of day, and
      its [date()]. *)
  convert_date : object -> result object;
  convert_time : object -> result object;
  has_time_of_day : object -> bool;
  date_of : object -> object;
  (** [sorted(values)]. *)
  py_sorted : list object -> result (list object);
  (** [robot.utils.get_error_message()] for the failure being handled. *)
  get_error_message : exn -> string;
  (** [Languages()]. *)
  default_languages : Languages
}.

(* ===================================================================== *)
(** * Helpers from [robot.utils] *)
(* ===================================================================== *)

(** Modelled from the spec: [robot.utils.normalize], used by [eq]: the text
    without white space, in lower case, without the ignored characters. *)
Definition normalize (s : string) (ignore : string) : string :=
  let s := PyStr.filter (fun c => negb (PyStr.is_space c)) s in
  let s := PyStr.lower s in
  let ignore := PyStr.lower ignore in
  PyStr.filter (fun c => negb (PyStr.contains_char c ignore)) s.

(** Modelled from the spec: [robot.utils.eq(str1, str2, ignore)], the
    case- and separator-insensitive comparison of two texts. *)
Definition eq (str1 str2 : string) (ignore : string) : bool :=
  String.eqb (normalize str1 ignore) (normalize str2 ignore).

(** Modelled from the spec: [robot.utils.plural_or_not], the plural ending
    for a count. *)
Definition plural_or_not (count : nat) : string :=
  if Nat.eqb count 1 then "" else "s".

(** Modelled from the spec: [robot.utils.seq2str(sequence, quote, sep=", ",
    lastsep)] on items already turned to text: each item quoted, the last
    two joined by [lastsep], the others by a comma. *)
Definition seq2str_with (quote lastsep : string) (sequence : list string) : string :=
  let quoted := List.map (fun item => quote ++ item ++ quote) sequence in
  match List.rev quoted with
  | [] => ""
  | [x] => x
  | last :: before :: others =>
      PyStr.join ", " (List.app (List.rev others) [before ++ lastsep ++ last])
  end.
Definition seq2str (sequence : list string) : string :=
  seq2str_with "'" " and " sequence.

(* ===================================================================== *)
(** * The converter classes and the registry *)
(* ===================================================================== *)

Inductive conv_class : Type :=
| EnumConverter | AnyConverter | StringConverter | BooleanConverter
| IntegerConverter | FloatConverter | DecimalConverter | BytesConverter
| ByteArrayConverter | DateTimeConverter | DateConverter | TimeDeltaConverter
| PathConverter | NoneConverter | ListConverter | TupleConverter
| TypedDictConverter | DictionaryConverter | SetConverter | FrozenSetConverter
| UnionConverter | LiteralConverter
| CustomConverter | UnknownConverter.

Definition conv_class_eqb (a b : conv_class) : bool :=
  match a, b with
  | EnumConverter, EnumConverter | AnyConverter, AnyConverter
  | StringConverter, StringConverter | BooleanConverter, BooleanConverter
  | IntegerConverter, IntegerConverter | FloatConverter, FloatConverter
  | DecimalConverter, DecimalConverter | BytesConverter, BytesConverter
  | ByteArrayConverter, ByteArrayConverter | DateTimeConverter, DateTimeConverter
  | DateConverter, DateConverter | TimeDeltaConverter, TimeDeltaConverter
  | PathConverter, PathConverter | NoneConverter, NoneConverter
  | ListConverter, ListConverter | TupleConverter, TupleConverter
  | TypedDictConverter, TypedDictConverter
  | DictionaryConverter, DictionaryConverter | SetConverter, SetConverter
  | FrozenSetConverter, FrozenSetConverter | UnionConverter, UnionConverter
  | LiteralConverter, LiteralConverter | CustomConverter, CustomConverter
  | UnknownConverter, UnknownConverter => true
  | _, _ => false
  end.

(** The class attribute [type]. *)
Definition class_type (cls : conv_class) : object :=
  match cls with
  | EnumConverter => VType Py.Enum
  | AnyConverter => VType Py.Any
  | StringConverter => VType Py.str
  | BooleanConverter => VType Py.bool_
  | IntegerConverter => VType Py.int
  | FloatConverter => VType Py.float
  | DecimalConverter => VType Py.Decimal
  | BytesConverter => VType Py.bytes
  | ByteArrayConverter => VType Py.bytearray
  | DateTimeConverter => VType Py.datetime
  | DateConverter => VType Py.date
  | TimeDeltaConverter => VType Py.timedelta
  | PathConverter => VType Py.Path
  | NoneConverter => VType Py.NoneType
  | ListConverter => VType Py.list_
  | TupleConverter => VType Py.tuple
  | TypedDictConverter => VStr "TypedDict"
  | DictionaryConverter => VType Py.dict
  | SetConverter => VType Py.set_
  | FrozenSetConverter => VType Py.frozenset
  | UnionConverter => VType Py.Union
  | LiteralConverter => VType Py.Literal
  | CustomConverter | UnknownConverter => VNone
  end.

(** The class attribute [abc]. *)
Definition class_abc (cls : conv_class) : option pytype :=
  match cls with
  | IntegerConverter => Some Py.Integral
  | FloatConverter => Some Py.Real
  | PathConverter => Some Py.PathLike
  | ListConverter => Some Py.Sequence
  | DictionaryConverter => Some Py.Mapping
  | SetConverter | FrozenSetConverter => Some Py.Set_
  | _ => None
  end.

(** The class attribute [type_name]. *)
Definition class_type_name (cls : conv_class) : option string :=
  match cls with
  | AnyConverter => Some "Any"
  | StringConverter => Some "string"
  | BooleanConverter => Some "boolean"
  | IntegerConverter => Some "integer"
  | FloatConverter => Some "float"
  | DecimalConverter => Some "decimal"
  | BytesConverter => Some "bytes"
  | ByteArrayConverter => Some "bytearray"
  | DateTimeConverter => Some "datetime"
  | DateConverter => Some "date"
  | TimeDeltaConverter => Some "timedelta"
  | PathConverter => Some "Path"
  | NoneConverter => Some "None"
  | ListConverter => Some "list"
  | TupleConverter => Some "tuple"
  | DictionaryConverter => Some "dictionary"
  | SetConverter => Some "set"
  | FrozenSetConverter => Some "frozenset"
  | LiteralConverter => Some "Literal"
  | EnumConverter | TypedDictConverter | UnionConverter
  | CustomConverter | UnknownConverter => None
  end.

(** [TypeConverter.register], applied by the decorators in the order of
    the class definitions: [_converters[converter.type] = converter]. *)
Definition register (table : list (object * conv_class)) (converter : conv_class)
  : list (object * conv_class) :=
  Py.setitem (class_type converter) converter table.

Definition registered_classes : list conv_class :=
  [ EnumConverter; AnyConverter; StringConverter; BooleanConverter;
    IntegerConverter; FloatConverter; DecimalConverter; BytesConverter;
    ByteArrayConverter; DateTimeConverter; DateConverter; TimeDeltaConverter;
    PathConverter; NoneConverter; ListConverter; TupleConverter;
    TypedDictConverter; DictionaryConverter; SetConverter; FrozenSetConverter;
    UnionConverter; LiteralConverter ].

Definition _converters : list (object * conv_class) :=
  List.fold_left register registered_classes [].

(** [x is None]. *)
Definition is_None (v : object) : bool :=
  match v with VNone => true | _ => false end.

(** [x is t] for a type object [t]. *)
Definition is_type (v : object) (t : pytype) : bool :=
  match v with VType t' => Py.type_is t' t | _ => false end.

(** The class method [handles] with its overrides. *)
Definition handles (cls : conv_class) (type_info : TypeInfo) : bool :=
  match cls with
  | AnyConverter => is_type (info_type type_info) Py.Any
  | NoneConverter =>
      Py.eq (info_type type_info) (VType Py.NoneType)
      || Py.eq (info_type type_info) VNone
  | TypedDictConverter => is_typed_dict type_info
  | UnionConverter => is_union type_info
  | LiteralConverter => is_type (info_type type_info) Py.Literal
  | CustomConverter | UnknownConverter => false
  | _ =>
      match info_type type_info, class_type cls with
      | VType t, VType own =>
          is_class t
          && (Py.issubclass t own
              || match class_abc cls with
                 | Some abc => Py.issubclass t abc
                 | None => false
                 end)
      | _, _ => false
      end
  end.

(** The nested converters of a converter: none, a list (generic
    parameters) or a mapping by field name (record types). *)
Inductive nested_of (A : Type) : Type :=
| NoNested
| NestedList (l : list A)
| NestedDict (d : list (string * A)).
Arguments NoNested {A}.
Arguments NestedList {A} l.
Arguments NestedDict {A} d.

(** A converter instance: its class and the attributes set by
    [__init__]. *)
Inductive TypeConverter : Type :=
| Converter (cls : conv_class) (type_info : TypeInfo)
    (custom_converters : option CustomArgumentConverters)
    (languages : option Languages)
    (converter_info : option ConverterInfo)
    (nested : nested_of TypeConverter).

Definition converter_class (c : TypeConverter) : conv_class :=
  match c with Converter cls _ _ _ _ _ => cls end.
Definition converter_type_info (c : TypeConverter) : TypeInfo :=
  match c with Converter _ ti _ _ _ _ => ti end.
Definition converter_custom_converters (c : TypeConverter) : option CustomArgumentConverters :=
  match c with Converter _ _ cc _ _ _ => cc end.
Definition converter_languages (c : TypeConverter) : option Languages :=
  match c with Converter _ _ _ l _ _ => l end.
Definition converter_info_of (c : TypeConverter) : option ConverterInfo :=
  match c with Converter _ _ _ _ i _ => i end.
Definition converter_nested (c : TypeConverter) : nested_of TypeConverter :=
  match c with Converter _ _ _ _ _ n => n end.

(** The outcome of the lookup in [converter_for], before the instance is
    built. *)
Inductive resolution : Type :=
| ToUnknown
| ToCustom (info : ConverterInfo)
| ToBuiltin (cls : conv_class).

(** The lookup of [TypeConverter.converter_for]. *)
Definition resolve (type_info : TypeInfo)
    (custom_converters : option CustomArgumentConverters) : resolution :=
  if is_None (info_type type_info) then ToUnknown
  else
    match (if registry_bool custom_converters
           then match custom_converters with
                | Some reg => get_converter_info reg (info_type type_info)
                | None => None
                end
           else None) with
    | Some info => ToCustom info
    | None =>
        match Py.lookup (info_type type_info) _converters with
        | Some conv_class => ToBuiltin conv_class
        | None =>
            match List.find (fun converter => handles converter type_info)
                            (List.map snd _converters) with
            | Some converter => ToBuiltin converter
            | None => ToUnknown
            end
        end
    end.

(** The instance built for a resolution, given the nested converters made
    by [_get_nested]: [UnknownConverter(type_info)],
    [CustomConverter(type_info, info, languages)] or
    [conv_class(type_info, custom_converters, languages)]. *)
Definition instantiate (r : resolution) (type_info : TypeInfo)
    (custom_converters : option CustomArgumentConverters)
    (languages : option Languages)
    (get_nested : conv_class -> option CustomArgumentConverters ->
                  option Languages -> nested_of TypeConverter)
  : TypeConverter :=
  match r with
  | ToUnknown =>
      Converter UnknownConverter type_info None None None
                (get_nested UnknownConverter None None)
  | ToCustom info =>
      Converter CustomConverter type_info None languages (Some info)
                (get_nested CustomConverter None languages)
  | ToBuiltin cls =>
      Converter cls type_info custom_converters languages None
                (get_nested cls custom_converters languages)
  end.

(** [LiteralConverter.converter_for]: the converter for the type of the
    constant, through [TypeConverter.converter_for]; the descriptor made
    here has nothing nested. *)
Definition LiteralConverter_converter_for (type_info : TypeInfo)
    (custom_converters : option CustomArgumentConverters)
    (languages : option Languages) : TypeConverter :=
  let info := TypeInfo_new (info_name type_info)
                           (VType (Py.type_of (info_type type_info))) in
  instantiate (resolve info custom_converters) info custom_converters languages
    (fun cls _ _ =>
       match cls with TypedDictConverter => NestedDict [] | _ => NoNested end).

(** [TypeConverter.converter_for], with [__init__] and [_get_nested] (and
    its override in [TypedDictConverter]) building the nested converters. *)
Fixpoint converter_for (type_info : TypeInfo)
    (custom_converters : option CustomArgumentConverters)
    (languages : option Languages) {struct type_info} : TypeConverter :=
  instantiate (resolve type_info custom_converters) type_info
    custom_converters languages
    (fun cls custom_converters languages =>
       match type_info with
       | mkTypeInfo _ _ nested _ _ annotations _ =>
           match cls with
           | TypedDictConverter =>
               NestedDict
                 (List.map (fun item =>
                              (fst item,
                               converter_for (snd item) custom_converters languages))
                           annotations)
           | LiteralConverter =>
               match nested with
               | [] => NoNested
               | _ => NestedList
                        (List.map (fun info =>
                                     LiteralConverter_converter_for
                                       info custom_converters languages)
                                  nested)
               end
           | _ =>
               match nested with
               | [] => NoNested
               | _ => NestedList
                        (List.map (fun info =>
                                     converter_for info custom_converters languages)
                                  nested)
               end
           end
       end).

(* ===================================================================== *)
(** * Numbers read from text and from floats *)
(* ===================================================================== *)

Module PyNum.

(** The value of a character as a digit in bases up to 36. *)
Definition digit_value (c : ascii) : option Z :=
  let n := Z.of_nat (nat_of_ascii c) in
  if PyStr.is_digit c then Some (n - 48)%Z
  else if PyStr.is_lower c then Some (n - 87)%Z
  else if PyStr.is_upper c then Some (n - 55)%Z
  else None.

(** Where the reading of digits stands: nothing read yet, just after a
    base prefix, after a digit or after an underscore. *)
Inductive digits_state : Type := AtStart | AfterPrefix | AfterDigit | AfterUnderscore.

Fixpoint digits (base : Z) (st : digits_state) (acc : Z) (s : string) : option Z :=
  match s with
  | EmptyString => match st with AfterDigit => Some acc | _ => None end
  | String c s' =>
      if Ascii.eqb c "_" then
        match st with
        | AfterDigit | AfterPrefix => digits base AfterUnderscore acc s'
        | _ => None
        end
      else
        match digit_value c with
        | Some d => if (d <? base)%Z then digits base AfterDigit (acc * base + d)%Z s'
                    else None
        | None => None
        end
  end.

(** The prefix that [int(text, base)] accepts before the digits. *)
Definition base_prefix (base : Z) : option string :=
  if (base =? 16)%Z then Some "0x"
  else if (base =? 8)%Z then Some "0o"
  else if (base =? 2)%Z then Some "0b"
  else None.

Definition unsigned (base : Z) (s : string) : option Z :=
  match base_prefix base with
  | Some p =>
      if PyStr.startswith p (PyStr.lower s)
      then digits base AfterPrefix 0 (PyStr.drop 2 s)
      else digits base AtStart 0 s
  | None => digits base AtStart 0 s
  end.

(** [int(text, base)] for a base from 2 to 36; [None] stands for its
    [ValueError]. *)
Definition int_of_text (s : string) (base : Z) : option Z :=
  match PyStr.strip s with
  | String "-" s' => option_map Z.opp (unsigned base s')
  | String "+" s' => unsigned base s'
  | s' => unsigned base s'
  end.

(** [f.is_integer()] and [int(f)] for an integral float. *)
Definition is_integer (f : pyfloat) : bool :=
  match f with
  | Finite m e => if (0 <=? e)%Z then true else (m mod 2 ^ (- e) =? 0)%Z
  | _ => false
  end.

Definition int_of_float (f : pyfloat) : Z :=
  match f with
  | Finite m e => if (0 <=? e)%Z then (m * 2 ^ e)%Z else Z.quot m (2 ^ (- e))
  | _ => 0%Z
  end.

End PyNum.

(* ===================================================================== *)
(** * The conversion methods *)
(* ===================================================================== *)

(** What a converter sees of a nested converter: its [convert], its
    [no_conversion_needed], its truth value and its [type_name]. *)
Record Methods : Type := mkMethods {
  m_convert : object -> object -> string -> result object;
  m_no_conversion_needed : object -> bool;
  m_bool : bool;
  m_type_name : string
}.

Definition nested_map {A B : Type} (f : A -> B) (n : nested_of A) : nested_of B :=
  match n with
  | NoNested => NoNested
  | NestedList l => NestedList (List.map f l)
  | NestedDict d => NestedDict (List.map (fun item => (fst item, f (snd item))) d)
  end.

(** [not self.nested]. *)
Definition nested_is_empty {A : Type} (n : nested_of A) : bool :=
  match n with
  | NoNested | NestedList [] | NestedDict [] => true
  | _ => false
  end.

(** [self.nested] as a list, and [self.nested[i]]. *)
Definition nested_list {A : Type} (n : nested_of A) : list A :=
  match n with
  | NestedList l => l
  | NestedDict d => List.map snd d
  | NoNested => []
  end.

(** [self.nested[key]] of a record converter: [None] stands for
    [KeyError]. *)
Definition nested_getitem {A : Type} (n : nested_of A) (key : object) : option A :=
  match n, key with
  | NestedDict d, VStr k =>
      option_map snd (List.find (fun item => String.eqb k (fst item)) d)
  | _, _ => None
  end.

Section Conversion.

Variable rt : Runtime.

(** Modelled from the spec: [robot.utils.safe_str]: text is itself, any
    other value is rendered by the runtime. *)
Definition safe_str (v : object) : string :=
  match v with
  | VStr s => s
  | _ => rt_safe_str rt v
  end.

(** The text of [name] inside an f-string. *)
Definition format_name (name : object) : string :=
  match name with
  | VStr s => s
  | _ => py_format rt name
  end.

(** [self.languages]. *)
Definition languages_of (languages : option Languages) : Languages :=
  match languages with
  | Some l => l
  | None => default_languages rt
  end.

(** ** [TypeConverter]: the base class *)

(** [TypeConverter._get_type_name]. *)
Definition TypeConverter_get_type_name (cls : conv_class) (type_info : TypeInfo)
    (nested : nested_of Methods) : string :=
  match class_type_name cls with
  | Some n => if nested_is_empty nested then n else type_info_str rt type_info
  | None => type_info_str rt type_info
  end.

(** [TypeConverter.no_conversion_needed]. *)
Definition TypeConverter_no_conversion_needed (cls : conv_class)
    (type_info : TypeInfo) (value : object) : bool :=
  match Py.isinstance value (info_type type_info) with
  | Some b => b
  | None =>
      (* Used type wasn't a class. Compare to generic type instead. *)
      if negb (is_None (class_type cls))
         && negb (Py.eq (class_type cls) (info_type type_info))
      then match Py.isinstance value (class_type cls) with
           | Some b => b
           | None => false
           end
      else false
  end.

(** [TypeConverter._handle_error]: the message of the [ValueError] it
    raises.  [error] is the failure being handled, if any, given by its
    [args]. *)
Definition _handle_error (type_name : string) (value name : object) (kind : string)
    (error : option (option string)) : string :=
  let typ := if Py.is_str value then "" else " (" ++ rt_type_name rt value ++ ")" in
  let value := safe_str value in
  let kind := if PyStr.islower kind then PyStr.capitalize kind else kind in
  let ending := match error with
                | Some (Some message) => ": " ++ message
                | _ => "."
                end in
  let cannot_be_converted := "cannot be converted to " ++ type_name ++ ending in
  if is_None name
  then kind ++ " '" ++ value ++ "'" ++ typ ++ " " ++ cannot_be_converted
  else kind ++ " '" ++ format_name name ++ "' got value '" ++ value ++ "'" ++ typ
       ++ " that " ++ cannot_be_converted.

(** [TypeConverter.convert], over the methods it dispatches to. *)
Definition TypeConverter_convert
    (no_conversion_needed : object -> bool)
    (_handles_value : object -> result bool)
    (_non_string_convert _convert : object -> result object)
    (type_name : string)
    (value name : object) (kind : string) : result object :=
  if no_conversion_needed value then Ok value
  else
    handled <- _handles_value value ;;
    if negb handled
    then Raise (ValueError (Some (_handle_error type_name value name kind None)))
    else
      match (if negb (Py.is_str value) then _non_string_convert value
             else _convert value) with
      | Ok converted => Ok converted
      | Raise (ValueError error) =>
          Raise (ValueError
                   (Some (_handle_error type_name value name kind (Some error))))
      | Raise e => Raise e
      end.

(** [TypeConverter._literal_eval]. *)
Definition _literal_eval (value : string) (expected : pytype) : result object :=
  if Py.type_is expected Py.set_ && String.eqb value "set()"
  then Ok (VSet [])
  else
    match literal_eval rt value with
    | Raise (ValueError _) => Raise (ValueError (Some "Invalid expression."))
    | Raise (OtherError cls err) =>
        if String.eqb cls "SyntaxError"
        then Raise (ValueError (Some "Invalid expression."))
        else if String.eqb cls "TypeError"
        then Raise (ValueError (Some ("Evaluating expression failed: " ++ err)))
        else Raise (OtherError cls err)
    | Ok v =>
        if Py.issubclass (Py.type_of v) expected then Ok v
        else Raise (ValueError (Some ("Value is " ++ rt_type_name rt v ++ ", not "
                                      ++ tname expected ++ ".")))
    end.

(** [TypeConverter._remove_number_separators]. *)
Definition remove_separators_text (value : string) : string :=
  List.fold_left
    (fun value sep =>
       if PyStr.contains_char sep value then PyStr.remove_char sep value else value)
    [" "%char; "_"%char] value.

Definition _remove_number_separators (value : object) : object :=
  match value with
  | VStr s => VStr (remove_separators_text s)
  | _ => value
  end.

(** The text behind a value on which a text method is called. *)
Definition as_text (value : object) : result string :=
  match value with
  | VStr s => Ok s
  | _ => Raise (OtherError "AttributeError" "not a text")
  end.

(** [int(value)]. *)
Definition py_int (value : object) : result Z :=
  match value with
  | VInt z => Ok z
  | VBool b => Ok (if b then 1 else 0)%Z
  | VEnum cls _ (EInt z) =>
      if Py.issubclass cls Py.int then Ok z
      else Raise (OtherError "TypeError" "int() argument must be a number")
  | VFloat (Finite m e) => Ok (PyNum.int_of_float (Finite m e))
  | VFloat (Infinity _) => Raise (OtherError "OverflowError" "cannot convert float infinity to integer")
  | VFloat NaN => Raise (ValueError (Some "cannot convert float NaN to integer"))
  | VStr s =>
      match PyNum.int_of_text s 10 with
      | Some z => Ok z
      | None => Raise (ValueError (Some ("invalid literal for int() with base 10: '"
                                         ++ s ++ "'")))
      end
  | _ => Raise (OtherError "TypeError" "int() argument must be a number")
  end.

(** ** [EnumConverter] *)

Definition int_backed (enum : pytype) : bool := Py.issubclass enum Py.int.

(** [getattr(enum, name)] and [enum[name]] for a member name. *)
Definition enum_member (enum : pytype) (name : string) : option object :=
  match List.find (fun item => String.eqb name (fst item)) (members enum) with
  | Some (_, (canonical, val)) => Some (VEnum enum canonical val)
  | None => None
  end.

(** Iteration over an enumeration: its members without the aliases. *)
Definition enum_iter (enum : pytype) : list (string * enum_value) :=
  List.map snd
    (List.filter (fun item => String.eqb (fst item) (fst (snd item))) (members enum)).

(** The text of a member in an f-string: its value. *)
Definition format_member (enum : pytype) (name : string) : string :=
  match enum_member enum name with
  | Some (VEnum _ _ (EInt z)) => PyStr.of_Z z
  | Some (VEnum _ _ (EText t)) => t
  | _ => name
  end.

Fixpoint insert_Z (x : Z) (l : list Z) : list Z :=
  match l with
  | [] => [x]
  | y :: l' => if (x <=? y)%Z then x :: l else y :: insert_Z x l'
  end.
Definition sorted_Z (l : list Z) : list Z := List.fold_right insert_Z [] l.

Definition int_values (enum : pytype) : list Z :=
  List.flat_map (fun m => match snd m with EInt z => [z] | EText _ => [] end)
                (enum_iter enum).

(** [EnumConverter.value_types] inside [_handles_value]. *)
Definition EnumConverter_handles_value (type_info : TypeInfo) (value : object)
  : result bool :=
  match info_type type_info with
  | VType enum =>
      if is_class enum
      then Ok (Py.isinstance_any value
                 (if int_backed enum then [Py.str; Py.int] else [Py.str]))
      else Raise (OtherError "TypeError" "issubclass() arg 1 must be a class")
  | _ => Raise (OtherError "TypeError" "issubclass() arg 1 must be a class")
  end.

(** [EnumConverter._find_by_int_value]. *)
Definition _find_by_int_value (type_name : string) (enum : pytype) (value : object)
  : result object :=
  value <- py_int value ;;
  match List.find (fun member => Py.enum_value_eqb (snd member) (EInt value))
                  (enum_iter enum) with
  | Some member => Ok (VEnum enum (fst member) (snd member))
  | None =>
      let values := sorted_Z (int_values enum) in
      Raise (ValueError (Some (type_name ++ " does not have value '"
                               ++ PyStr.of_Z value ++ "'. Available: "
                               ++ seq2str (List.map PyStr.of_Z values))))
  end.

(** [EnumConverter._find_by_normalized_name_or_int_value]. *)
Definition _find_by_normalized_name_or_int_value (type_name : string)
    (enum : pytype) (value : string) : result object :=
  let members := PyStr.sorted (List.map fst (members enum)) in
  let matches := List.filter (fun m => eq m value "_-") members in
  match matches with
  | [m] =>
      match enum_member enum m with
      | Some member => Ok member
      | None => Raise (OtherError "AttributeError" m)
      end
  | _ :: _ :: _ =>
      Raise (ValueError (Some (type_name ++ " has multiple members matching '"
                               ++ value ++ "'. Available: " ++ seq2str matches)))
  | [] =>
      let no_member members :=
        Raise (ValueError (Some (type_name ++ " does not have member '" ++ value
                                 ++ "'. Available: " ++ seq2str members))) in
      if int_backed enum then
        match _find_by_int_value type_name enum (VStr value) with
        | Ok member => Ok member
        | Raise (ValueError _) =>
            no_member
              (List.map (fun m => m ++ " (" ++ format_member enum m ++ ")") members)
        | Raise e => Raise e
        end
      else no_member members
  end.

(** [EnumConverter._convert]. *)
Definition EnumConverter_convert (type_name : string) (type_info : TypeInfo)
    (value : object) : result object :=
  match info_type type_info with
  | VType enum =>
      if Py.issubclass (Py.type_of value) Py.int
      then _find_by_int_value type_name enum value
      else
        value <- as_text value ;;
        match enum_member enum value with
        | Some member => Ok member
        | None => _find_by_normalized_name_or_int_value type_name enum value
        end
  | _ => Raise (OtherError "TypeError" "not an enumeration")
  end.

(** ** [StringConverter] *)

Definition StringConverter_convert (value : object) : result object :=
  match py_str rt value with
  | Ok s => Ok s
  | Raise e => Raise (ValueError (Some (get_error_message rt e)))
  end.

(** ** [BooleanConverter] *)

Definition BooleanConverter_non_string_convert (value : object) : result object :=
  Ok value.

Definition BooleanConverter_convert (languages : option Languages) (value : object)
  : result object :=
  text <- as_text value ;;
  let normalized := PyStr.title text in
  if String.eqb normalized "None" then Ok VNone
  else if PyStr.mem normalized (true_strings (languages_of languages)) then Ok (VBool true)
  else if PyStr.mem normalized (false_strings (languages_of languages)) then Ok (VBool false)
  else Ok value.

(** ** [IntegerConverter] *)

Definition IntegerConverter_non_string_convert (value : object) : result object :=
  match value with
  | VFloat f =>
      if PyNum.is_integer f then Ok (VInt (PyNum.int_of_float f))
      else Raise (ValueError (Some "Conversion would lose precision."))
  | _ => Raise (OtherError "AttributeError" "is_integer")
  end.

(** [IntegerConverter._get_base]. *)
Definition _get_base (value : string) : string * Z :=
  let value := PyStr.lower value in
  (fix loop (prefixes : list (string * Z)) : string * Z :=
     match prefixes with
     | [] => (value, 10%Z)
     | (prefix, base) :: prefixes' =>
         if PyStr.contains prefix value
         then
           let parts := PyStr.split value prefix in
           if Nat.eqb (List.length parts) 2
              && PyStr.mem (List.hd "" parts) [""; "-"; "+"]
           then (PyStr.join "" parts, base)
           else loop prefixes'
         else loop prefixes'
     end) [("0x", 16%Z); ("0o", 8%Z); ("0b", 2%Z)].

Definition IntegerConverter_convert (value : object) : result object :=
  value <- as_text value ;;
  let value := remove_separators_text value in
  let '(value, base) := _get_base value in
  match PyNum.int_of_text value base with
  | Some n => Ok (VInt n)
  | None =>
      if (base =? 10)%Z
      then
        match decimal_as_integer_ratio rt value with
        | Some (value, denominator) =>
            if negb (denominator =? 1)%Z
            then Raise (ValueError (Some "Conversion would lose precision."))
            else Ok (VInt value)
        | None => Raise (ValueError None)
        end
      else Raise (ValueError None)
  end.

(** ** [FloatConverter], [DecimalConverter] *)

Definition FloatConverter_convert (value : object) : result object :=
  match py_float rt (_remove_number_separators value) with
  | Raise (ValueError _) => Raise (ValueError None)
  | r => r
  end.

Definition DecimalConverter_convert (value : object) : result object :=
  match py_Decimal rt (_remove_number_separators value) with
  | Raise (OtherError cls msg) =>
      if String.eqb cls "InvalidOperation" then Raise (ValueError None)
      else Raise (OtherError cls msg)
  | r => r
  end.

(** ** [BytesConverter], [ByteArrayConverter] *)

Definition cannot_be_mapped (value : string) (start : nat) : exn :=
  let invalid := substring start 1 value in
  ValueError (Some ("Character '" ++ invalid ++ "' cannot be mapped to a byte.")).

Definition BytesConverter_convert (value : object) : result object :=
  value <- as_text value ;;
  match encode_latin1 rt value with
  | inl encoded => Ok encoded
  | inr start => Raise (cannot_be_mapped value start)
  end.

Definition ByteArrayConverter_convert (value : object) : result object :=
  value <- as_text value ;;
  match encode_latin1 rt value with
  | inl encoded => py_bytearray rt encoded
  | inr start => Raise (cannot_be_mapped value start)
  end.

(** ** [DateConverter], [NoneConverter] *)

Definition DateConverter_convert (value : object) : result object :=
  dt <- convert_date rt value ;;
  if has_time_of_day rt dt
  then Raise (ValueError (Some "Value is datetime, not date."))
  else Ok (date_of rt dt).

Definition NoneConverter_convert (value : object) : result object :=
  value <- as_text value ;;
  if String.eqb (PyStr.upper value) "NONE" then Ok VNone
  else Raise (ValueError None).

(** ** [ListConverter] *)

(** [all(converter.no_conversion_needed(v) for v in value)] with
    [converter = self.nested[0]]. *)
Definition all_items_need_no_conversion (nested : nested_of Methods) (value : object)
  : bool :=
  match nested_list nested with
  | converter :: _ => List.forallb (m_no_conversion_needed converter) (Py.items value)
  | [] => true
  end.

Definition ListConverter_no_conversion_needed (cls : conv_class)
    (type_info : TypeInfo) (nested : nested_of Methods) (value : object) : bool :=
  if Py.is_str value || negb (TypeConverter_no_conversion_needed cls type_info value)
  then false
  else if nested_is_empty nested then true
  else all_items_need_no_conversion nested value.

(** The call [converter.convert(v, name=str(i), kind="Item")] made for one
    enumerated item. *)
Definition convert_item (converter : Methods) (item : nat * object) : result object :=
  m_convert converter (snd item) (VStr (PyStr.of_nat (fst item))) "Item".

(** [ListConverter._convert_items]. *)
Definition ListConverter_convert_items (nested : nested_of Methods) (value : object)
  : result object :=
  if nested_is_empty nested then Ok value
  else
    match nested_list nested with
    | converter :: _ =>
        items <- traverse (convert_item converter) (enumerate (Py.items value)) ;;
        Ok (VList items)
    | [] => Ok value
    end.

Definition ListConverter_non_string_convert (nested : nested_of Methods)
    (value : object) : result object :=
  ListConverter_convert_items nested (VList (Py.items value)).

Definition ListConverter_convert (nested : nested_of Methods) (value : object)
  : result object :=
  text <- as_text value ;;
  value <- _literal_eval text Py.list_ ;;
  ListConverter_convert_items nested value.

(** ** [TupleConverter] *)

(** [TupleConverter.homogenous]. *)
Definition homogenous (type_info : TypeInfo) : bool :=
  match List.rev (info_nested type_info) with
  | last :: _ => Py.eq (info_type last) VEllipsis
  | [] => false
  end.

Definition TupleConverter_no_conversion_needed (cls : conv_class)
    (type_info : TypeInfo) (nested : nested_of Methods) (value : object) : bool :=
  if Py.is_str value || negb (TypeConverter_no_conversion_needed cls type_info value)
  then false
  else if nested_is_empty nested then true
  else if homogenous type_info then all_items_need_no_conversion nested value
  else if negb (Nat.eqb (List.length (Py.items value))
                        (List.length (nested_list nested)))
  then false
  else List.forallb (fun cv => m_no_conversion_needed (fst cv) (snd cv))
                    (zip (nested_list nested) (Py.items value)).

(** The call [c.convert(v, name=str(i), kind="Item")] made for one
    enumerated pair of a converter and an item. *)
Definition convert_pair (item : nat * (Methods * object)) : result object :=
  m_convert (fst (snd item)) (snd (snd item)) (VStr (PyStr.of_nat (fst item))) "Item".

(** [TupleConverter._convert_items]. *)
Definition TupleConverter_convert_items (type_info : TypeInfo)
    (nested : nested_of Methods) (value : object) : result object :=
  if nested_is_empty nested then Ok value
  else if homogenous type_info then
    match nested_list nested with
    | converter :: _ =>
        items <- traverse (convert_item converter) (enumerate (Py.items value)) ;;
        Ok (VTuple items)
    | [] => Ok value
    end
  else if negb (Nat.eqb (List.length (Py.items value))
                        (List.length (nested_list nested)))
  then Raise (ValueError
                (Some ("Expected " ++ PyStr.of_nat (List.length (nested_list nested))
                       ++ " item" ++ plural_or_not (List.length (nested_list nested))
                       ++ ", got " ++ PyStr.of_nat (List.length (Py.items value))
                       ++ ".")))
  else
    items <- traverse convert_pair
                      (enumerate (zip (nested_list nested) (Py.items value))) ;;
    Ok (VTuple items).

Definition TupleConverter_non_string_convert (type_info : TypeInfo)
    (nested : nested_of Methods) (value : object) : result object :=
  TupleConverter_convert_items type_info nested (VTuple (Py.items value)).

Definition TupleConverter_convert (type_info : TypeInfo)
    (nested : nested_of Methods) (value : object) : result object :=
  text <- as_text value ;;
  value <- _literal_eval text Py.tuple ;;
  TupleConverter_convert_items type_info nested value.

(** ** [TypedDictConverter] *)

Definition TypedDictConverter_no_conversion_needed (type_info : TypeInfo)
    (nested : nested_of Methods) (value : object) : bool :=
  if negb (Py.issubclass (Py.type_of value) Py.Mapping) then false
  else
    List.forallb
      (fun kv => match nested_getitem nested (fst kv) with
                 | None => false
                 | Some converter => m_no_conversion_needed converter (snd kv)
                 end)
      (Py.entries value)
    && List.forallb (fun r => Py.mem (VStr r) (Py.items value)) (required type_info).

(** The loop of [TypedDictConverter._convert_items] over the keys that are
    left, on the entries of [value] as they stand: the entries when the
    loop ends or fails, and the keys that are not allowed or the failure. *)
Fixpoint convert_fields (nested : nested_of Methods) (keys : list object)
    (entries : list (object * object)) (not_allowed : list object)
  : list (object * object) * result (list object) :=
  match keys with
  | [] => (entries, Ok not_allowed)
  | key :: keys' =>
      match nested_getitem nested key with
      | None => convert_fields nested keys' entries (List.app not_allowed [key])
      | Some converter =>
          if m_bool converter then
            match Py.lookup key entries with
            | Some item =>
                match m_convert converter item key "Item" with
                | Ok converted =>
                    convert_fields nested keys' (Py.setitem key converted entries)
                                   not_allowed
                | Raise e => (entries, Raise e)
                end
            | None => (entries, Raise (OtherError "KeyError" (safe_str key)))
            end
          else convert_fields nested keys' entries not_allowed
      end
  end.

(** The keys of [self.nested]. *)
Definition nested_keys {A : Type} (n : nested_of A) : list string :=
  match n with NestedDict d => List.map fst d | _ => [] end.

(** [TypedDictConverter._convert_items]: the entries the mapping [value]
    is left with, and the outcome. *)
Definition TypedDictConverter_convert_items (type_info : TypeInfo)
    (nested : nested_of Methods) (value : object)
  : list (object * object) * result object :=
  match convert_fields nested (Py.items value) (Py.entries value) [] with
  | (entries, Raise e) => (entries, Raise e)
  | (entries, Ok not_allowed) =>
      let present key := Py.mem (VStr key) (List.map fst entries) in
      (entries,
       match not_allowed with
       | _ :: _ =>
           sorted_keys <- py_sorted rt not_allowed ;;
           let error := "Item" ++ plural_or_not (List.length not_allowed) ++ " "
                        ++ seq2str (List.map safe_str sorted_keys) ++ " not allowed." in
           let available :=
             List.filter (fun key => negb (present key)) (nested_keys nested) in
           Raise (ValueError
                    (Some (match available with
                           | _ :: _ =>
                               error ++ " Available item"
                               ++ plural_or_not (List.length available) ++ ": "
                               ++ seq2str (PyStr.sorted available)
                           | [] => error
                           end)))
       | [] =>
           let missing :=
             List.filter (fun key => negb (present key)) (required type_info) in
           match missing with
           | _ :: _ =>
               Raise (ValueError
                        (Some ("Required item" ++ plural_or_not (List.length missing)
                               ++ " " ++ seq2str (PyStr.sorted missing) ++ " missing.")))
           | [] => Ok (match value with VDict _ => VDict entries | _ => value end)
           end
       end)
  end.

Definition TypedDictConverter_non_string_convert (type_info : TypeInfo)
    (nested : nested_of Methods) (value : object) : result object :=
  snd (TypedDictConverter_convert_items type_info nested value).

Definition TypedDictConverter_convert (type_info : TypeInfo)
    (nested : nested_of Methods) (value : object) : result object :=
  text <- as_text value ;;
  value <- _literal_eval text Py.dict ;;
  snd (TypedDictConverter_convert_items type_info nested value).

(** ** [DictionaryConverter] *)

Definition DictionaryConverter_no_conversion_needed (cls : conv_class)
    (type_info : TypeInfo) (nested : nested_of Methods) (value : object) : bool :=
  if Py.is_str value || negb (TypeConverter_no_conversion_needed cls type_info value)
  then false
  else if nested_is_empty nested then true
  else
    match nested_list nested with
    | key_converter :: value_converter :: _ =>
        List.forallb (fun kv => m_no_conversion_needed key_converter (fst kv)
                                && m_no_conversion_needed value_converter (snd kv))
                     (Py.entries value)
    | _ => false
    end.

(** A set or dictionary comprehension: every element is computed and then
    stored, which needs it (its key) to be hashable. *)
Fixpoint set_comprehension {A : Type} (f : A -> result object) (l : list A)
    (acc : list object) : result (list object) :=
  match l with
  | [] => Ok acc
  | x :: l' =>
      y <- f x ;;
      if Py.hashable y
      then set_comprehension f l' (if Py.mem y acc then acc else List.app acc [y])
      else Raise (OtherError "TypeError" "unhashable type")
  end.

Fixpoint dict_comprehension {A : Type} (f : A -> result (object * object))
    (l : list A) (acc : list (object * object)) : result (list (object * object)) :=
  match l with
  | [] => Ok acc
  | x :: l' =>
      kv <- f x ;;
      if Py.hashable (fst kv)
      then dict_comprehension f l' (Py.setitem (fst kv) (snd kv) acc)
      else Raise (OtherError "TypeError" "unhashable type")
  end.

(** The element [convert_key(None, k): convert_value(k, v)]: the key is
    converted first. *)
Definition convert_entry (key_converter value_converter : Methods)
    (kv : object * object) : result (object * object) :=
  k <- m_convert key_converter (fst kv) VNone "Key" ;;
  v <- m_convert value_converter (snd kv) (fst kv) "Item" ;;
  Ok (k, v).

(** [DictionaryConverter._convert_items]. *)
Definition DictionaryConverter_convert_items (nested : nested_of Methods)
    (value : object) : result object :=
  if nested_is_empty nested then Ok value
  else
    match nested_list nested with
    | key_converter :: value_converter :: _ =>
        entries <- dict_comprehension (convert_entry key_converter value_converter)
                                      (Py.entries value) [] ;;
        Ok (VDict entries)
    | _ => Raise (OtherError "IndexError" "list index out of range")
    end.

Definition _used_type_is_dict (type_info : TypeInfo) : bool :=
  match info_type type_info with
  | VType t => Py.issubclass t Py.dict
  | _ => false
  end.

Definition DictionaryConverter_non_string_convert (type_info : TypeInfo)
    (nested : nested_of Methods) (value : object) : result object :=
  let value :=
    if _used_type_is_dict type_info && negb (Py.issubclass (Py.type_of value) Py.dict)
    then VDict (Py.dict_of (Py.entries value))
    else value in
  DictionaryConverter_convert_items nested value.

Definition DictionaryConverter_convert (nested : nested_of Methods) (value : object)
  : result object :=
  text <- as_text value ;;
  value <- _literal_eval text Py.dict ;;
  DictionaryConverter_convert_items nested value.

(** ** [SetConverter], [FrozenSetConverter] *)

(** The call [converter.convert(v, kind="Item")] made for one element. *)
Definition convert_element (converter : Methods) (v : object) : result object :=
  m_convert converter v VNone "Item".

(** [SetConverter._convert_items]. *)
Definition SetConverter_convert_items (nested : nested_of Methods) (value : object)
  : result object :=
  if nested_is_empty nested then Ok value
  else
    match nested_list nested with
    | converter :: _ =>
        items <- set_comprehension (convert_element converter) (Py.items value) [] ;;
        Ok (VSet items)
    | [] => Ok value
    end.

(** [set(value)]. *)
Definition py_set (value : object) : result object :=
  if List.forallb Py.hashable (Py.items value)
  then Ok (VSet (Py.set_of (Py.items value)))
  else Raise (OtherError "TypeError" "unhashable type").

(** [frozenset(value)]. *)
Definition py_frozenset (value : object) : object :=
  match value with
  | VFrozenSet l => VFrozenSet l
  | _ => VFrozenSet (Py.set_of (Py.items value))
  end.

Definition SetConverter_non_string_convert (nested : nested_of Methods)
    (value : object) : result object :=
  value <- py_set value ;;
  SetConverter_convert_items nested value.

Definition SetConverter_convert (nested : nested_of Methods) (value : object)
  : result object :=
  text <- as_text value ;;
  value <- _literal_eval text Py.set_ ;;
  SetConverter_convert_items nested value.

Definition FrozenSetConverter_non_string_convert (nested : nested_of Methods)
    (value : object) : result object :=
  converted <- SetConverter_non_string_convert nested value ;;
  Ok (py_frozenset converted).

Definition FrozenSetConverter_convert (nested : nested_of Methods) (value : object)
  : result object :=
  (* There are issues w/ literal_eval. See self._literal_eval for details. *)
  if Py.eq value (VStr "frozenset()") then Ok (VFrozenSet [])
  else
    converted <- SetConverter_convert nested value ;;
    Ok (py_frozenset converted).

(** ** [UnionConverter] *)

Definition UnionConverter_get_type_name (nested : nested_of Methods) : string :=
  seq2str_with "" " or " (List.map m_type_name (nested_list nested)).

Definition UnionConverter_no_conversion_needed (nested : nested_of Methods)
    (value : object) : bool :=
  List.existsb (fun converter => m_no_conversion_needed converter value)
               (nested_list nested).

(** The loop of [UnionConverter._convert] over the converters that are
    left, and what follows it. *)
Fixpoint union_loop (converters : list Methods) (value : object)
    (unknown_types : bool) : result object :=
  match converters with
  | [] => if unknown_types then Ok value else Raise (ValueError None)
  | converter :: converters' =>
      if m_bool converter then
        match m_convert converter value VNone "Argument" with
        | Ok converted => Ok converted
        | Raise (ValueError _) => union_loop converters' value unknown_types
        | Raise e => Raise e
        end
      else union_loop converters' value true
  end.

(** [UnionConverter._convert]. *)
Definition UnionConverter_convert (nested : nested_of Methods) (value : object)
  : result object :=
  match nested with
  | NoNested => Raise (OtherError "TypeError" "'NoneType' object is not iterable")
  | _ => union_loop (nested_list nested) value false
  end.

(** ** [LiteralConverter] *)

Definition LiteralConverter_get_type_name (type_info : TypeInfo) : string :=
  seq2str_with "" " or " (List.map info_name (info_nested type_info)).

(** [value == expected and type(value) is type(expected)]. *)
Definition same_value_and_type (value expected : object) : bool :=
  Py.eq value expected && Py.type_is (Py.type_of value) (Py.type_of expected).

Definition LiteralConverter_no_conversion_needed (type_info : TypeInfo)
    (value : object) : bool :=
  List.existsb (fun info => same_value_and_type value (info_type info))
               (info_nested type_info).

(** The test made on a converted value:
    [isinstance(expected, str) and eq(converted, expected, ignore="_-")
     or converted == expected]. *)
Definition literal_matches (converted expected : object) : result bool :=
  if Py.is_str expected then
    c <- as_text converted ;;
    e <- as_text expected ;;
    Ok (eq c e "_-" || Py.eq converted expected)
  else Ok (Py.eq converted expected).

(** The loop of [LiteralConverter._convert] over the pairs that are left,
    and what follows it. *)
Fixpoint literal_loop (pairs : list (TypeInfo * Methods)) (value : object)
    (matches : list object) : result object :=
  match pairs with
  | [] =>
      match matches with
      | [m] => Ok m
      | _ :: _ => Raise (ValueError (Some "No unique match found."))
      | [] => Raise (ValueError None)
      end
  | (info, converter) :: pairs' =>
      let expected := info_type info in
      if same_value_and_type value expected then Ok expected
      else
        match m_convert converter value VNone "Argument" with
        | Raise (ValueError _) => literal_loop pairs' value matches
        | Raise e => Raise e
        | Ok converted =>
            matched <- literal_matches converted expected ;;
            literal_loop pairs' value
              (if matched then List.app matches [expected] else matches)
        end
  end.

(** [LiteralConverter._convert]. *)
Definition LiteralConverter_convert (type_info : TypeInfo)
    (nested : nested_of Methods) (value : object) : result object :=
  match nested with
  | NoNested => Raise (OtherError "TypeError" "zip argument #2 must support iteration")
  | _ => literal_loop (zip (info_nested type_info) (nested_list nested)) value []
  end.

(** ** [CustomConverter] *)

Definition CustomConverter_handles_value (converter_info : option ConverterInfo)
    (value : object) : result bool :=
  match converter_info with
  | Some info =>
      Ok (match ci_value_types info with
          | [] => true
          | value_types => Py.isinstance_any value value_types
          end)
  | None => Raise (OtherError "AttributeError" "converter_info")
  end.

Definition CustomConverter_convert (converter_info : option ConverterInfo)
    (value : object) : result object :=
  match converter_info with
  | Some info =>
      match ci_convert info value with
      | Ok converted => Ok converted
      | Raise (ValueError args) => Raise (ValueError args)
      | Raise e => Raise (ValueError (Some (get_error_message rt e)))
      end
  | None => Raise (OtherError "AttributeError" "converter_info")
  end.

(** ** Method resolution *)

(** The class attribute [value_types] of the classes that use the
    inherited [_handles_value]. *)
Definition class_value_types (cls : conv_class) : list pytype :=
  match cls with
  | BooleanConverter => [Py.str; Py.int; Py.float; Py.NoneType]
  | IntegerConverter => [Py.str; Py.float]
  | FloatConverter => [Py.str; Py.Real]
  | DecimalConverter | DateTimeConverter | TimeDeltaConverter =>
      [Py.str; Py.int; Py.float]
  | BytesConverter => [Py.str; Py.bytearray]
  | ByteArrayConverter => [Py.str; Py.bytes]
  | PathConverter => [Py.str; Py.PurePath]
  | ListConverter | TupleConverter => [Py.str; Py.Sequence]
  | TypedDictConverter | DictionaryConverter => [Py.str; Py.Mapping]
  | SetConverter | FrozenSetConverter => [Py.str; Py.Container]
  | _ => [Py.str]
  end.

(** [self._get_type_name()]. *)
Definition get_type_name (cls : conv_class) (type_info : TypeInfo)
    (converter_info : option ConverterInfo) (nested : nested_of Methods) : string :=
  match cls with
  | UnionConverter => UnionConverter_get_type_name nested
  | LiteralConverter => LiteralConverter_get_type_name type_info
  | CustomConverter =>
      match converter_info with Some info => ci_name info | None => "" end
  | _ => TypeConverter_get_type_name cls type_info nested
  end.

(** [self.no_conversion_needed(value)]. *)
Definition no_conversion_needed_of (cls : conv_class) (type_info : TypeInfo)
    (nested : nested_of Methods) (value : object) : bool :=
  match cls with
  | AnyConverter => true
  | ListConverter | SetConverter | FrozenSetConverter =>
      ListConverter_no_conversion_needed cls type_info nested value
  | TupleConverter => TupleConverter_no_conversion_needed cls type_info nested value
  | TypedDictConverter => TypedDictConverter_no_conversion_needed type_info nested value
  | DictionaryConverter =>
      DictionaryConverter_no_conversion_needed cls type_info nested value
  | UnionConverter => UnionConverter_no_conversion_needed nested value
  | LiteralConverter => LiteralConverter_no_conversion_needed type_info value
  | _ => TypeConverter_no_conversion_needed cls type_info value
  end.

(** [self._handles_value(value)]. *)
Definition handles_value_of (cls : conv_class) (type_info : TypeInfo)
    (converter_info : option ConverterInfo) (value : object) : result bool :=
  match cls with
  | EnumConverter => EnumConverter_handles_value type_info value
  | AnyConverter | StringConverter | UnionConverter | LiteralConverter => Ok true
  | CustomConverter => CustomConverter_handles_value converter_info value
  | _ => Ok (Py.isinstance_any value (class_value_types cls))
  end.

(** [self._convert(value)]. *)
Definition _convert_of (cls : conv_class) (type_info : TypeInfo)
    (languages : option Languages) (converter_info : option ConverterInfo)
    (nested : nested_of Methods) (type_name : string) (value : object)
  : result object :=
  match cls with
  | EnumConverter => EnumConverter_convert type_name type_info value
  | AnyConverter => Ok value
  | StringConverter => StringConverter_convert value
  | BooleanConverter => BooleanConverter_convert languages value
  | IntegerConverter => IntegerConverter_convert value
  | FloatConverter => FloatConverter_convert value
  | DecimalConverter => DecimalConverter_convert value
  | BytesConverter => BytesConverter_convert value
  | ByteArrayConverter => ByteArrayConverter_convert value
  | DateTimeConverter => convert_date rt value
  | DateConverter => DateConverter_convert value
  | TimeDeltaConverter => convert_time rt value
  | PathConverter => py_Path rt value
  | NoneConverter => NoneConverter_convert value
  | ListConverter => ListConverter_convert nested value
  | TupleConverter => TupleConverter_convert type_info nested value
  | TypedDictConverter => TypedDictConverter_convert type_info nested value
  | DictionaryConverter => DictionaryConverter_convert nested value
  | SetConverter => SetConverter_convert nested value
  | FrozenSetConverter => FrozenSetConverter_convert nested value
  | UnionConverter => UnionConverter_convert nested value
  | LiteralConverter => LiteralConverter_convert type_info nested value
  | CustomConverter => CustomConverter_convert converter_info value
  | UnknownConverter => Raise (OtherError "NotImplementedError" "")
  end.

(** [self._non_string_convert(value)]. *)
Definition _non_string_convert_of (cls : conv_class) (type_info : TypeInfo)
    (languages : option Languages) (converter_info : option ConverterInfo)
    (nested : nested_of Methods) (type_name : string) (value : object)
  : result object :=
  match cls with
  | BooleanConverter => BooleanConverter_non_string_convert value
  | IntegerConverter => IntegerConverter_non_string_convert value
  | BytesConverter => py_bytes rt value
  | ByteArrayConverter => py_bytearray rt value
  | ListConverter => ListConverter_non_string_convert nested value
  | TupleConverter => TupleConverter_non_string_convert type_info nested value
  | TypedDictConverter => TypedDictConverter_non_string_convert type_info nested value
  | DictionaryConverter => DictionaryConverter_non_string_convert type_info nested value
  | SetConverter => SetConverter_non_string_convert nested value
  | FrozenSetConverter => FrozenSetConverter_non_string_convert nested value
  | _ => _convert_of cls type_info languages converter_info nested type_name value
  end.

(** [self.convert(value, name, kind)]: [UnknownConverter] overrides it. *)
Definition convert_of (cls : conv_class) (type_info : TypeInfo)
    (languages : option Languages) (converter_info : option ConverterInfo)
    (nested : nested_of Methods) (type_name : string)
    (value name : object) (kind : string) : result object :=
  match cls with
  | UnknownConverter => Ok value
  | _ =>
      TypeConverter_convert
        (no_conversion_needed_of cls type_info nested)
        (handles_value_of cls type_info converter_info)
        (_non_string_convert_of cls type_info languages converter_info nested type_name)
        (_convert_of cls type_info languages converter_info nested type_name)
        type_name value name kind
  end.

(** The methods of a converter instance; [bool(converter)] is false for
    [UnknownConverter] only. *)
Fixpoint methods (c : TypeConverter) : Methods :=
  match c with
  | Converter cls type_info _ languages converter_info nested =>
      let nested := nested_map methods nested in
      let type_name := get_type_name cls type_info converter_info nested in
      mkMethods
        (convert_of cls type_info languages converter_info nested type_name)
        (no_conversion_needed_of cls type_info nested)
        (negb (conv_class_eqb cls UnknownConverter))
        type_name
  end.

(** [converter.convert(value, name, kind)]; [name] defaults to [None] and
    [kind] to ["Argument"]. *)
Definition convert (c : TypeConverter) (value name : object) (kind : string)
  : result object :=
  m_convert (methods c) value name kind.

Definition no_conversion_needed (c : TypeConverter) (value : object) : bool :=
  m_no_conversion_needed (methods c) value.

Definition type_name (c : TypeConverter) : string := m_type_name (methods c).

(** [converter._convert(value)] and [converter._non_string_convert(value)]. *)
Definition _convert (c : TypeConverter) (value : object) : result object :=
  match c with
  | Converter cls type_info _ languages converter_info nested =>
      _convert_of cls type_info languages converter_info (nested_map methods nested)
                  (type_name c) value
  end.

Definition _non_string_convert (c : TypeConverter) (value : object) : result object :=
  match c with
  | Converter cls type_info _ languages converter_info nested =>
      _non_string_convert_of cls type_info languages converter_info
                             (nested_map methods nested) (type_name c) value
  end.

(** [bool(converter)]. *)
Definition converter_bool (c : TypeConverter) : bool := m_bool (methods c).

End Conversion.

(* ===================================================================== *)
(** * Validation *)
(* ===================================================================== *)

(** [TypeConverter._validate]: [converter.validate()] for every nested
    converter in turn, given by its outcome; the first failure ends the
    loop. *)
Fixpoint TypeConverter_validate (nested : list (result unit)) : result unit :=
  match nested with
  | [] => Ok tt
  | converter_validate :: nested' =>
      _ <- converter_validate ;; TypeConverter_validate nested'
  end.

(** [TupleConverter._validate]: the last nested converter of a homogenous
    tuple, the one made for the ellipsis, is left out. *)
Definition TupleConverter_validate (type_info : TypeInfo)
    (nested : list (result unit)) : result unit :=
  let nested := if homogenous type_info then List.removelast nested else nested in
  TypeConverter_validate nested.

Section Validation.

Variable rt : Runtime.

(** [converter.validate()], with the overrides of [_validate] in
    [TupleConverter] and [TypedDictConverter] (the values of the mapping)
    and of [validate] in [UnknownConverter]. *)
Fixpoint validate (c : TypeConverter) : result unit :=
  match c with
  | Converter cls type_info _ _ _ nested =>
      let validated := nested_map validate nested in
      match cls with
      | UnknownConverter =>
          Raise (OtherError "TypeError"
                            ("Unrecognized type '" ++ type_name rt c ++ "'."))
      | TupleConverter =>
          if nested_is_empty nested then Ok tt
          else TupleConverter_validate type_info (nested_list validated)
      | _ =>
          if nested_is_empty nested then Ok tt
          else TypeConverter_validate (nested_list validated)
      end
  end.

End Validation.

(* ===================================================================== *)
(** * Notions used in the statements *)
(* ===================================================================== *)

(** The entry a supplied registry has for a type. *)
Definition custom_entry (custom_converters : option CustomArgumentConverters)
    (type_ : object) : option ConverterInfo :=
  match custom_converters with
  | Some reg => get_converter_info reg type_
  | None => None
  end.

(** A nested converter that stands for an unresolvable type: the
    unknown-type sentinel. *)
Definition unresolvable (c : TypeConverter) : bool :=
  conv_class_eqb (converter_class c) UnknownConverter.

(** A conversion fails: it raises [ValueError]. *)
Definition fails {A : Type} (r : result A) : Prop :=
  exists args, r = Raise (ValueError args).

(** The error raised by [convert] for a failure of [_convert] or
    [_non_string_convert] with the given [args]. *)
Definition conversion_error (rt : Runtime) (c : TypeConverter)
    (value name : object) (kind : string) (args : option string) : exn :=
  ValueError (Some (_handle_error rt (type_name rt c) value name kind (Some args))).








(** [_convert_items] of the composite converters, on a converter
    instance. *)
Definition list_convert_items (rt : Runtime) (c : TypeConverter) (value : object)
  : result object :=
  ListConverter_convert_items (nested_map (methods rt) (converter_nested c)) value.

Definition tuple_convert_items (rt : Runtime) (c : TypeConverter) (value : object)
  : result object :=
  TupleConverter_convert_items (converter_type_info c)
                               (nested_map (methods rt) (converter_nested c)) value.

Definition set_convert_items (rt : Runtime) (c : TypeConverter) (value : object)
  : result object :=
  SetConverter_convert_items (nested_map (methods rt) (converter_nested c)) value.

Definition dict_convert_items (rt : Runtime) (c : TypeConverter) (value : object)
  : result object :=
  DictionaryConverter_convert_items (nested_map (methods rt) (converter_nested c)) value.

Definition typed_dict_convert_items (rt : Runtime) (c : TypeConverter) (value : object)
  : list (object * object) * result object :=
  TypedDictConverter_convert_items rt (converter_type_info c)
                                   (nested_map (methods rt) (converter_nested c)) value.

(** The conversion of the item at a position by a converter, under the
    position as its name. *)
Definition convert_at (rt : Runtime) (c : TypeConverter) (p : nat * object)
  : result object :=
  convert rt c (snd p) (VStr (PyStr.of_nat (fst p))) "Item".

(** The conversion of the item at a position by the converter of that
    position. *)
Definition convert_position (rt : Runtime) (p : nat * (TypeConverter * object))
  : result object :=
  convert_at rt (fst (snd p)) (fst p, snd (snd p)).

(** The first failure among the outcomes of a sequence of calls, if the
    calls before it succeed. *)
Inductive first_failure {A B : Type} (f : A -> result B) : list A -> A -> exn -> Prop :=
| first_failure_intro : forall before x after e,
    (forall y, In y before -> exists r, f y = Ok r) ->
    f x = Raise e ->
    first_failure f (before ++ x :: after)%list x e.

(** The inputs of the boolean converter that are not text and not
    booleans: an integer, a float or [None]. *)
Definition number_or_none (value : object) : Prop :=
  match value with
  | VInt _ | VFloat _ | VNone => True
  | _ => False
  end.

(** [converter._handles_value(value)]. *)
Definition _handles_value (c : TypeConverter) (value : object) : result bool :=
  handles_value_of (converter_class c) (converter_type_info c) (converter_info_of c) value.

(** The kind and the message of a conversion error in the words of the
    specification: the kind is capitalized unless the caller capitalized
    it already, and the detail follows the declared type name exactly when
    the message of the inner failure is not empty; a period ends the
    message otherwise. *)
Definition claimed_kind (kind : string) : string :=
  match kind with
  | String c _ => if PyStr.is_upper c then kind else PyStr.capitalize kind
  | EmptyString => kind
  end.

Definition claimed_message (rt : Runtime) (type_name : string)
    (value name : object) (kind : string) (detail : string) : string :=
  let typ := if Py.is_str value then "" else " (" ++ rt_type_name rt value ++ ")" in
  let ending := if String.eqb detail "" then "." else ": " ++ detail in
  if is_None name
  then claimed_kind kind ++ " '" ++ safe_str rt value ++ "'" ++ typ
       ++ " cannot be converted to " ++ type_name ++ ending
  else claimed_kind kind ++ " '" ++ format_name rt name ++ "' got value '"
       ++ safe_str rt value ++ "'" ++ typ
       ++ " that cannot be converted to " ++ type_name ++ ending.

(** An entry of a dictionary is converted: its key and its value are,
    and the converted key can be stored. *)
Definition entry_converted (rt : Runtime) (key_converter value_converter : TypeConverter)
    (kv : object * object) : Prop :=
  exists k v,
    convert rt key_converter (fst kv) VNone "Key" = Ok k
    /\ convert rt value_converter (snd kv) (fst kv) "Item" = Ok v
    /\ Py.hashable k = true.

(** An element of a set is converted and can be stored. *)
Definition element_converted (rt : Runtime) (converter : TypeConverter) (v : object)
  : Prop :=
  exists r, convert rt converter v VNone "Item" = Ok r /\ Py.hashable r = true.

(** The failure of a child converted under a name that is not [None]. *)
Definition named_child_failure (rt : Runtime) (child : TypeConverter) (v : object)
    (kind : string) (e : exn) : Prop :=
  exists name, name <> VNone /\ convert rt child v name kind = Raise e.

(** The nested converters that the validation of a converter goes
    through, and the converters it reaches: the converter itself and what
    the validation of a nested converter reaches. *)
Definition validated_nested (c : TypeConverter) : list TypeConverter :=
  match converter_class c with
  | UnknownConverter => []
  | TupleConverter =>
      if homogenous (converter_type_info c)
      then List.removelast (nested_list (converter_nested c))
      else nested_list (converter_nested c)
  | _ => nested_list (converter_nested c)
  end.

Inductive validation_reaches : TypeConverter -> TypeConverter -> Prop :=
| reaches_self : forall c, validation_reaches c c
| reaches_nested : forall c n d,
    In n (validated_nested c) -> validation_reaches n d -> validation_reaches c d.

(** The failure of the validation at an unresolvable converter. *)
Definition unrecognized (rt : Runtime) (c : TypeConverter) : exn :=
  OtherError "TypeError" ("Unrecognized type '" ++ type_name rt c ++ "'.").

(** The container classes whose [_convert] evaluates a literal. *)
Definition evaluates_literals (cls : conv_class) : bool :=
  match cls with
  | ListConverter | TupleConverter | TypedDictConverter | DictionaryConverter
  | SetConverter | FrozenSetConverter => true
  | _ => false
  end.

(** The container that the converters of a class build for a value that
    is not text, if they build one. *)
Definition built_container (cls : conv_class) (r : object) : Prop :=
  match cls with
  | ListConverter => exists items, r = VList items
  | TupleConverter => exists items, r = VTuple items
  | SetConverter => exists items, r = VSet items
  | FrozenSetConverter => exists items, r = VFrozenSet items
  | _ => True
  end.

(** The characters of the decimal numeral of an integer: the digits and
    the minus sign. *)
Definition is_numeral_char (c : ascii) : bool := PyStr.is_digit c || Ascii.eqb c "-".

Definition is_numeral (s : string) : bool :=
  negb (PyStr.existsb (fun c => negb (is_numeral_char c)) s).

(** The container type that the text given to a container converter is
    to evaluate to. *)
Definition declared_container (cls : conv_class) : option pytype :=
  match cls with
  | ListConverter => Some Py.list_
  | TupleConverter => Some Py.tuple
  | TypedDictConverter | DictionaryConverter => Some Py.dict
  | SetConverter => Some Py.set_
  | FrozenSetConverter => Some Py.frozenset
  | _ => None
  end.

(** [list(value)] and [tuple(value)] for the list and the tuple
    converter. *)
Definition own_sequence (cls : conv_class) (value : object) : object :=
  match cls with
  | TupleConverter => VTuple (Py.items value)
  | _ => VList (Py.items value)
  end.

(** A text without its spaces and underscores. *)
Definition without_separators (s : string) : string :=
  PyStr.filter (fun c => negb (Ascii.eqb c " " || Ascii.eqb c "_")) s.

(** The converters of numbers that remove separators from text. *)
Definition removes_separators (cls : conv_class) : bool :=
  match cls with
  | IntegerConverter | FloatConverter | DecimalConverter => true
  | _ => false
  end.

(* ===================================================================== *)
(** * A runtime and descriptors for the examples *)
(* ===================================================================== *)

Module Example.

(** [robot.utils.type_name] on the values of the examples. *)
Definition type_name (v : object) : string :=
  let t := tname (Py.type_of v) in
  if String.eqb t "str" then "string"
  else if String.eqb t "bool" then "boolean"
  else if String.eqb t "int" then "integer"
  else if String.eqb t "NoneType" then "None"
  else if String.eqb t "dict" then "dictionary"
  else if String.eqb t "type" then "class"
  else t.

(** The decimal expansion of the dyadic rational [m / 2^k]: it has at most
    [k] decimals. *)
Fixpoint zeros (n : nat) : string :=
  match n with O => "" | S n' => "0" ++ zeros n' end.

Fixpoint strip_zeros (s : string) : string :=
  match s with
  | EmptyString => EmptyString
  | String c s' =>
      match strip_zeros s' with
      | EmptyString => if Ascii.eqb c "0" then EmptyString else String c EmptyString
      | r => String c r
      end
  end.

Definition float_repr (f : pyfloat) : string :=
  match f with
  | NaN => "nan"
  | Infinity negative => if negative then "-inf" else "inf"
  | Finite m e =>
      if (0 <=? e)%Z then PyStr.of_Z (m * 2 ^ e) ++ ".0"
      else
        let k := Z.to_nat (- e) in
        let n := (Z.abs m * 5 ^ (- e))%Z in
        let whole := (n / 10 ^ (- e))%Z in
        let part := PyStr.of_Z (n mod 10 ^ (- e)) in
        let decimals := strip_zeros (zeros (k - String.length part) ++ part) in
        (if (m <? 0)%Z then "-" else "") ++ PyStr.of_Z whole ++ "."
        ++ (if String.eqb decimals "" then "0" else decimals)
  end.

(** [repr(value)] and [str(value)]; quotes inside text are not escaped. *)
Fixpoint repr (v : object) : string :=
  let commas := fun l => PyStr.join ", " (List.map repr l) in
  match v with
  | VNone => "None"
  | VEllipsis => "Ellipsis"
  | VBool b => if b then "True" else "False"
  | VInt z => PyStr.of_Z z
  | VFloat f => float_repr f
  | VStr s => "'" ++ s ++ "'"
  | VList l => "[" ++ commas l ++ "]"
  | VTuple [x] => "(" ++ repr x ++ ",)"
  | VTuple l => "(" ++ commas l ++ ")"
  | VSet [] => "set()"
  | VSet l => "{" ++ commas l ++ "}"
  | VFrozenSet [] => "frozenset()"
  | VFrozenSet l => "frozenset({" ++ commas l ++ "})"
  | VDict d =>
      "{" ++ PyStr.join ", "
               (List.map (fun kv => repr (fst kv) ++ ": " ++ repr (snd kv)) d) ++ "}"
  | VEnum cls n (EInt z) => "<" ++ tname cls ++ "." ++ n ++ ": " ++ PyStr.of_Z z ++ ">"
  | VEnum cls n (EText t) => "<" ++ tname cls ++ "." ++ n ++ ": '" ++ t ++ "'>"
  | VType t => "<class '" ++ tname t ++ "'>"
  | VObject _ r => r
  end.

Definition str (v : object) : string :=
  match v with
  | VStr s => s
  | VEnum cls n _ => tname cls ++ "." ++ n
  | _ => repr v
  end.

(** [str(type_info)]: the name, with the nested descriptors in brackets,
    or the members of a union separated by bars. *)
Fixpoint type_info_str (i : TypeInfo) : string :=
  match i with
  | mkTypeInfo name _ nested is_union _ _ _ =>
      if is_union then PyStr.join " | " (List.map type_info_str nested)
      else
        match nested with
        | [] => name
        | _ => name ++ "[" ++ PyStr.join ", " (List.map type_info_str nested) ++ "]"
        end
  end.

(** The digits of a decimal numeral, [None] when there is none or a
    character is not a digit. *)
Definition decimal_digits (s : string) : option Z := PyNum.digits 10 PyNum.AtStart 0 s.

(** [Decimal(text).as_integer_ratio()] for numerals of the form
    [sign digits . digits]: the ratio in lowest terms. *)
Definition decimal_as_integer_ratio (text : string) : option (Z * Z) :=
  let text := PyStr.strip text in
  let '(negative, text) :=
    match text with
    | String "-" t => (true, t)
    | String "+" t => (false, t)
    | _ => (false, text)
    end in
  let '(whole, decimals) :=
    match PyStr.partition "." text with
    | Some (a, b) => (a, b)
    | None => (text, "")
    end in
  if String.eqb (whole ++ decimals) "" then None
  else
    match decimal_digits ("0" ++ whole ++ decimals) with
    | Some n =>
        let d := (10 ^ Z.of_nat (String.length decimals))%Z in
        let g := Z.gcd n d in
        Some ((if negative then - (n / g) else n / g)%Z, (d / g)%Z)
    | None => None
    end.

Definition unavailable {A : Type} (what : string) : result A :=
  Raise (OtherError "NotImplementedError" what).

(** The runtime of the examples.  The collaborators that no example
    calls answer with a failure. *)
Definition runtime : Runtime :=
  mkRuntime
    str type_name
    (fun v => Ok (VStr (str v))) str
    type_info_str
    (fun _ => unavailable "literal_eval")
    decimal_as_integer_ratio
    (fun _ => unavailable "float") (fun _ => unavailable "Decimal")
    (fun _ => unavailable "bytes") (fun _ => unavailable "bytearray")
    (fun _ => unavailable "Path")
    (fun _ => inr 0)
    (fun _ => unavailable "convert_date") (fun _ => unavailable "convert_time")
    (fun _ => false) (fun v => v)
    (fun l => Ok l)
    (fun e => match e with ValueError (Some m) => m | ValueError None => "" | OtherError c m => c ++ ": " ++ m end)
    (mkLanguages ["True"; "Yes"; "On"; "1"] ["False"; "No"; "Off"; "0"; "None"; ""]).

Definition info (name : string) (t : pytype) : TypeInfo := TypeInfo_new name (VType t).

Definition generic (name : string) (t : pytype) (nested : list TypeInfo) : TypeInfo :=
  mkTypeInfo name (VType t) nested false false [] [].

Definition int_info : TypeInfo := info "int" Py.int.
Definition bool_info : TypeInfo := info "bool" Py.bool_.
Definition unknown_info : TypeInfo := TypeInfo_new "Unknown" VNone.

Definition none_info : TypeInfo := info "None" Py.NoneType.

Definition union (nested : list TypeInfo) : TypeInfo :=
  mkTypeInfo "Union" (VType Py.Union) nested true false [] [].



(** Enumerations: [Color] with [RED], [GREEN] and [BLUE]; [Mode] with two
    names that differ by an underscore; the int-backed [Level]. *)
Definition enumeration (name : string) (bases : list string)
    (values : list (string * Z)) : pytype :=
  mkType name true true (name :: bases)
         (List.map (fun m => (fst m, (fst m, EInt (snd m)))) values).

Definition Color : pytype :=
  enumeration "Color" ["Enum"] [("RED", 1%Z); ("GREEN", 2%Z); ("BLUE", 3%Z)].
Definition Level : pytype :=
  enumeration "Level" ["int"; "Integral"; "Real"; "Enum"] [("LOW", 1%Z); ("HIGH", 2%Z)].

Definition color : TypeConverter := converter_for (info "Color" Color) None None.
Definition level : TypeConverter := converter_for (info "Level" Level) None None.

Definition int_pair_info : TypeInfo := generic "tuple" Py.tuple [int_info; int_info].
Definition int_pair : TypeConverter := converter_for int_pair_info None None.

(** A class of the application, a subclass of [list], and a registry with
    a custom converter for [int]. *)
Definition Money : pytype := Py.class "Money" [].
Definition MyList : pytype := Py.class "MyList" ["list"; "Sequence"; "Container"].
Definition my_int : ConverterInfo :=
  mkConverterInfo (VType Py.int) "MyInt" [] (fun v => Ok v).
Definition registry : CustomArgumentConverters := mkCustomArgumentConverters [my_int].

(** A custom converter for [Money] that fails with an empty message. *)
Definition silent : ConverterInfo :=
  mkConverterInfo (VType Money) "Money" [] (fun _ => Raise (ValueError (Some ""))).
Definition money : TypeConverter :=
  converter_for (info "Money" Money) (Some (mkCustomArgumentConverters [silent])) None.

(** Composite types over [int], and a record type [Point] with the
    required field [x] and the optional field [y]. *)
Definition int_list : TypeConverter :=
  converter_for (generic "list" Py.list_ [int_info]) None None.
Definition int_set : TypeConverter :=
  converter_for (generic "set" Py.set_ [int_info]) None None.
Definition int_dict : TypeConverter :=
  converter_for (generic "dict" Py.dict [int_info; int_info]) None None.
Definition Point : pytype :=
  mkType "Point" true false ["Point"; "dict"; "Mapping"; "Container"] [].
Definition point_info : TypeInfo :=
  mkTypeInfo "Point" (VType Point) [] false true
             [("x", int_info); ("y", int_info)] ["x"].
Definition point : TypeConverter := converter_for point_info None None.

(** A registry with custom converters for [MyList] and for [int]. *)
Definition my_list : ConverterInfo :=
  mkConverterInfo (VType MyList) "MyList" [] (fun v => Ok v).
Definition lists_and_ints : CustomArgumentConverters :=
  mkCustomArgumentConverters [my_list; my_int].

(** The homogenous tuple [tuple[int, ...]]. *)
Definition ellipsis_info : TypeInfo := TypeInfo_new "..." VEllipsis.
Definition int_tuple : TypeConverter :=
  converter_for (generic "tuple" Py.tuple [int_info; ellipsis_info]) None None.

Definition integer : TypeConverter := converter_for int_info None None.
Definition boolean : TypeConverter := converter_for bool_info None None.
Definition none : TypeConverter := converter_for none_info None None.
Definition unknown : TypeConverter := converter_for unknown_info None None.
Definition int_or_none : TypeConverter :=
  converter_for (union [int_info; none_info]) None None.
Definition int_or_unknown : TypeConverter :=
  converter_for (union [int_info; unknown_info]) None None.

End Example.

(* ===================================================================== *)
(** * Dispatch: [converter_for] *)
(* ===================================================================== *)

Lemma converter_for_class type_info custom_converters languages :
  converter_class (converter_for type_info custom_converters languages)
  = match resolve type_info custom_converters with
    | ToUnknown => UnknownConverter
    | ToCustom _ => CustomConverter
    | ToBuiltin cls => cls
    end.
Proof.
  destruct type_info; simpl.
  destruct (resolve _ _); reflexivity.
Qed.

Lemma converter_for_attributes type_info custom_converters languages :
  let c := converter_for type_info custom_converters languages in
  converter_type_info c = type_info
  /\ match resolve type_info custom_converters with
     | ToUnknown =>
         converter_custom_converters c = None /\ converter_languages c = None
         /\ converter_info_of c = None
     | ToCustom info =>
         converter_custom_converters c = None /\ converter_languages c = languages
         /\ converter_info_of c = Some info
     | ToBuiltin _ =>
         converter_custom_converters c = custom_converters
         /\ converter_languages c = languages /\ converter_info_of c = None
     end.
Proof.
  destruct type_info; simpl.
  destruct (resolve _ _); simpl; auto.
Qed.

Lemma is_None_false v : v <> VNone -> is_None v = false.
Proof. destruct v; simpl; intros H; auto. contradiction H; reflexivity. Qed.

Lemma registry_entry_bool custom_converters type_ info :
  custom_entry custom_converters type_ = Some info ->
  registry_bool custom_converters = true.
Proof.
  destruct custom_converters as [[l]|]; simpl; [|discriminate].
  unfold get_converter_info; simpl.
  destruct l; simpl; [discriminate | reflexivity].
Qed.

Lemma registry_lookup custom_converters type_ :
  (if registry_bool custom_converters
   then match custom_converters with
        | Some reg => get_converter_info reg type_
        | None => None
        end
   else None) = custom_entry custom_converters type_.
Proof.
  destruct (registry_bool custom_converters) eqn:E; [reflexivity|].
  destruct (custom_entry custom_converters type_) eqn:F; [|reflexivity].
  apply registry_entry_bool in F. congruence.
Qed.

Lemma find_first {A : Type} (p : A -> bool) (pre post : list A) (x : A) :
  (forall y, In y pre -> p y = false) -> p x = true ->
  List.find p (pre ++ x :: post)%list = Some x.
Proof.
  induction pre as [|y pre IH]; simpl; intros Hpre Hx.
  - now rewrite Hx.
  - rewrite (Hpre y (or_introl eq_refl)). apply IH; auto.
Qed.

Lemma find_all_false {A : Type} (p : A -> bool) (l : list A) :
  (forall y, In y l -> p y = false) -> List.find p l = None.
Proof.
  induction l as [|y l IH]; simpl; intros H; [reflexivity|].
  rewrite (H y (or_introl eq_refl)). apply IH; auto.
Qed.

(** The built-in table holds the classes in the order of their
    registration, each under its own [type]. *)
Lemma _converters_registered :
  _converters = List.map (fun cls => (class_type cls, cls)) registered_classes.
Proof. reflexivity. Qed.

(** C1.  [converter_for] resolves a type descriptor with the first match
    winning: an absent primary type gives the unknown-type sentinel;
    otherwise an entry of a supplied custom-converter registry for the
    primary type gives a custom converter adapter wrapping it; otherwise an
    entry of the built-in table for the primary type gives that built-in
    converter; otherwise the first registered built-in whose [handles]
    accepts the descriptor is used; otherwise the sentinel is returned. *)
Theorem converter_for_resolution_order
    (type_info : TypeInfo) (custom_converters : option CustomArgumentConverters)
    (languages : option Languages) :
  let type_ := info_type type_info in
  let c := converter_for type_info custom_converters languages in
  converter_type_info c = type_info
  /\ (type_ = VNone -> converter_class c = UnknownConverter)
  /\ (forall info,
        type_ <> VNone ->
        custom_entry custom_converters type_ = Some info ->
        converter_class c = CustomConverter
        /\ converter_info_of c = Some info
        /\ converter_languages c = languages)
  /\ (forall cls,
        type_ <> VNone ->
        custom_entry custom_converters type_ = None ->
        Py.lookup type_ _converters = Some cls ->
        converter_class c = cls
        /\ converter_custom_converters c = custom_converters
        /\ converter_languages c = languages)
  /\ (forall cls,
        In cls registered_classes ->
        type_ = class_type cls ->
        custom_entry custom_converters type_ = None ->
        converter_class c = cls)
  /\ (forall earlier cls later,
        type_ <> VNone ->
        custom_entry custom_converters type_ = None ->
        Py.lookup type_ _converters = None ->
        registered_classes = (earlier ++ cls :: later)%list ->
        (forall other, In other earlier -> handles other type_info = false) ->
        handles cls type_info = true ->
        converter_class c = cls
        /\ converter_custom_converters c = custom_converters
        /\ converter_languages c = languages)
  /\ (type_ <> VNone ->
      custom_entry custom_converters type_ = None ->
      Py.lookup type_ _converters = None ->
      (forall cls, In cls registered_classes -> handles cls type_info = false) ->
      converter_class c = UnknownConverter).
Proof.
  cbv zeta.
  pose proof (converter_for_attributes type_info custom_converters languages) as [Hti Hattr].
  pose proof (converter_for_class type_info custom_converters languages) as Hcls.
  set (c := converter_for type_info custom_converters languages) in *.
  unfold resolve in Hattr, Hcls. rewrite registry_lookup in Hattr, Hcls.
  split; [exact Hti|].
  split.
  { intros H. rewrite H in Hcls. exact Hcls. }
  split.
  { intros info Hn Hc. rewrite (is_None_false _ Hn), Hc in Hattr, Hcls.
    destruct Hattr as (_ & Hl & Hi). auto. }
  split.
  { intros cls Hn Hc Hl. rewrite (is_None_false _ Hn), Hc, Hl in Hattr, Hcls.
    destruct Hattr as (Hcc & Hlang & _). auto. }
  split.
  { intros cls Hin Ht Hc.
    assert (Hlookup : Py.lookup (class_type cls) _converters = Some cls).
    { simpl in Hin.
      repeat (destruct Hin as [<- | Hin]; [reflexivity|]). contradiction. }
    assert (Hn : is_None (info_type type_info) = false).
    { rewrite Ht. simpl in Hin.
      repeat (destruct Hin as [<- | Hin]; [reflexivity|]). contradiction. }
    rewrite Hn, Hc, Ht, Hlookup in Hcls. exact Hcls. }
  split.
  { intros earlier cls later Hn Hc Hl Hreg Hpre Hcls'.
    assert (Hfind : List.find (fun converter => handles converter type_info)
                              (List.map snd _converters) = Some cls).
    { change (List.map snd _converters) with registered_classes.
      rewrite Hreg. apply find_first; auto. }
    rewrite (is_None_false _ Hn), Hc, Hl, Hfind in Hattr, Hcls.
    destruct Hattr as (Hcc & Hlang & _). auto. }
  { intros Hn Hc Hl Hall.
    assert (Hfind : List.find (fun converter => handles converter type_info)
                              (List.map snd _converters) = None).
    { change (List.map snd _converters) with registered_classes.
      apply find_all_false; auto. }
    rewrite (is_None_false _ Hn), Hc, Hl, Hfind in Hcls. exact Hcls. }
Qed.

Lemma converter_for_resolution_order_witness :
  converter_class (converter_for Example.unknown_info (Some Example.registry) None)
  = UnknownConverter
  /\ converter_class (converter_for Example.int_info (Some Example.registry) None)
     = CustomConverter
  /\ converter_class (converter_for Example.int_info None None) = IntegerConverter
  /\ converter_class (converter_for (Example.info "MyList" Example.MyList) None None)
     = ListConverter
  /\ converter_class (converter_for (Example.info "Money" Example.Money) None None)
     = UnknownConverter.
Proof.
  split; [|split; [|split; [|split]]].
  - destruct (converter_for_resolution_order
                Example.unknown_info (Some Example.registry) None)
      as (_ & H & _).
    apply H. reflexivity.
  - destruct (converter_for_resolution_order
                Example.int_info (Some Example.registry) None)
      as (_ & _ & H & _).
    apply (H Example.my_int); [discriminate | reflexivity].
  - destruct (converter_for_resolution_order Example.int_info None None)
      as (_ & _ & _ & H & _).
    apply H; [discriminate | reflexivity | reflexivity].
  - destruct (converter_for_resolution_order
                (Example.info "MyList" Example.MyList) None None)
      as (_ & _ & _ & _ & _ & H & _).
    apply (H [ EnumConverter; AnyConverter; StringConverter; BooleanConverter;
               IntegerConverter; FloatConverter; DecimalConverter; BytesConverter;
               ByteArrayConverter; DateTimeConverter; DateConverter;
               TimeDeltaConverter; PathConverter; NoneConverter ]
             ListConverter
             [ TupleConverter; TypedDictConverter; DictionaryConverter;
               SetConverter; FrozenSetConverter; UnionConverter; LiteralConverter ]);
      try reflexivity; try discriminate.
    intros other Hin. simpl in Hin.
    repeat (destruct Hin as [<- | Hin]; [reflexivity|]). contradiction.
  - destruct (converter_for_resolution_order
                (Example.info "Money" Example.Money) None None)
      as (_ & _ & _ & _ & _ & _ & H).
    apply H; try reflexivity; try discriminate.
    intros cls Hin. simpl in Hin.
    repeat (destruct Hin as [<- | Hin]; [reflexivity|]). contradiction.
Defined.

(* ===================================================================== *)
(** * The base conversion contract *)
(* ===================================================================== *)

Lemma methods_convert rt c : m_convert (methods rt c) = convert rt c.
Proof. reflexivity. Qed.

Lemma methods_bool rt c : m_bool (methods rt c) = negb (unresolvable c).
Proof. destruct c; reflexivity. Qed.

Lemma methods_no_conversion_needed rt c :
  m_no_conversion_needed (methods rt c) = no_conversion_needed rt c.
Proof. reflexivity. Qed.

(** [convert] of a converter that accepts every value and has no special
    path for values that are not text: the value when no conversion is
    needed, else the outcome of [_convert] with a [ValueError] re-raised
    through [_handle_error]. *)
Lemma convert_through_convert rt cls type_info cc languages ci nested value name kind :
  let c := Converter cls type_info cc languages ci nested in
  (cls = UnionConverter \/ cls = LiteralConverter) ->
  no_conversion_needed rt c value = false ->
  convert rt c value name kind
  = match _convert rt c value with
    | Ok converted => Ok converted
    | Raise (ValueError args) => Raise (conversion_error rt c value name kind args)
    | Raise e => Raise e
    end.
Proof.
  intros c Hcls Hno.
  unfold convert, no_conversion_needed in *. unfold c in *. simpl in *.
  destruct Hcls as [-> | ->]; unfold convert_of, TypeConverter_convert;
    rewrite Hno; simpl; destruct (Py.is_str value); reflexivity.
Qed.

(* ===================================================================== *)
(** * The union resolver *)
(* ===================================================================== *)

Lemma union_loop_first_success rt value converted c later :
  unresolvable c = false ->
  convert rt c value VNone "Argument" = Ok converted ->
  forall earlier unknown_types,
    (forall c', In c' earlier ->
                unresolvable c' = true \/ fails (convert rt c' value VNone "Argument")) ->
    union_loop (List.map (methods rt) (earlier ++ c :: later)) value unknown_types
    = Ok converted.
Proof.
  intros Hc Hok earlier.
  induction earlier as [|c' earlier IH]; intros unknown_types Hearlier; simpl.
  - rewrite methods_bool, Hc, methods_convert, Hok. reflexivity.
  - rewrite methods_bool, methods_convert.
    destruct (Hearlier c' (or_introl eq_refl)) as [Hu | [args Hf]].
    + rewrite Hu. simpl. apply IH. intros; apply Hearlier; now right.
    + destruct (unresolvable c'); simpl.
      * apply IH. intros; apply Hearlier; now right.
      * rewrite Hf. apply IH. intros; apply Hearlier; now right.
Qed.

Lemma union_loop_no_success rt value :
  forall converters unknown_types,
    (forall c, In c converters ->
               unresolvable c = true \/ fails (convert rt c value VNone "Argument")) ->
    union_loop (List.map (methods rt) converters) value unknown_types
    = if unknown_types || List.existsb unresolvable converters
      then Ok value else Raise (ValueError None).
Proof.
  induction converters as [|c converters IH]; intros unknown_types Hall; simpl.
  - rewrite orb_false_r. reflexivity.
  - rewrite methods_bool, methods_convert.
    assert (Hrest : forall c0, In c0 converters ->
              unresolvable c0 = true \/ fails (convert rt c0 value VNone "Argument"))
      by (intros; apply Hall; now right).
    destruct (unresolvable c) eqn:Hu; simpl.
    + rewrite (IH true Hrest). simpl. rewrite orb_true_r. reflexivity.
    + destruct (Hall c (or_introl eq_refl)) as [Hu' | [args Hf]]; [congruence|].
      rewrite Hf. apply IH, Hrest.
Qed.

(** C2.  [_convert] of the union converter tries the nested converters in
    their declared order and returns the first conversion that succeeds;
    when no concrete nested converter succeeds and one nested slot is the
    unknown-type sentinel the value is returned unchanged; when all nested
    converters are concrete and fail the conversion fails.  [convert]
    reaches [_convert] for every value that needs a conversion. *)
Theorem union_convert
    (rt : Runtime) (type_info : TypeInfo) (cc : option CustomArgumentConverters)
    (languages : option Languages) (ci : option ConverterInfo)
    (converters : list TypeConverter) (value : object) :
  let union := Converter UnionConverter type_info cc languages ci (NestedList converters) in
  let attempt := fun c => convert rt c value VNone "Argument" in
  (forall earlier c later converted,
      converters = (earlier ++ c :: later)%list ->
      (forall c', In c' earlier -> unresolvable c' = true \/ fails (attempt c')) ->
      unresolvable c = false ->
      attempt c = Ok converted ->
      _convert rt union value = Ok converted)
  /\ ((forall c, In c converters -> unresolvable c = true \/ fails (attempt c)) ->
      (exists c, In c converters /\ unresolvable c = true) ->
      _convert rt union value = Ok value)
  /\ ((forall c, In c converters -> unresolvable c = false /\ fails (attempt c)) ->
      _convert rt union value = Raise (ValueError None))
  /\ (forall name kind,
        no_conversion_needed rt union value = false ->
        convert rt union value name kind
        = match _convert rt union value with
          | Ok converted => Ok converted
          | Raise (ValueError args) =>
              Raise (conversion_error rt union value name kind args)
          | Raise e => Raise e
          end).
Proof.
  cbv zeta. split; [|split; [|split]].
  - intros earlier c later converted -> Hearlier Hc Hok.
    simpl. unfold UnionConverter_convert. simpl.
    apply union_loop_first_success; assumption.
  - intros Hall [c [Hin Hu]].
    simpl. unfold UnionConverter_convert. simpl.
    rewrite union_loop_no_success by assumption. simpl.
    replace (List.existsb unresolvable converters) with true; [reflexivity|].
    symmetry. apply existsb_exists. exists c. auto.
  - intros Hall.
    simpl. unfold UnionConverter_convert. simpl.
    rewrite union_loop_no_success by (intros c Hin; right; apply Hall, Hin). simpl.
    replace (List.existsb unresolvable converters) with false; [reflexivity|].
    symmetry. apply not_true_is_false. intros H.
    apply existsb_exists in H. destruct H as [c [Hin Hu]].
    destruct (Hall c Hin) as [Hu' _]. congruence.
  - intros name kind Hno.
    apply (convert_through_convert rt UnionConverter type_info cc languages ci
             (NestedList converters) value name kind); auto.
Qed.

Lemma union_convert_witness :
  _convert Example.runtime Example.int_or_none (VStr "5") = Ok (VInt 5)
  /\ _convert Example.runtime Example.int_or_none (VStr "None") = Ok VNone
  /\ _convert Example.runtime Example.int_or_none (VStr "abc") = Raise (ValueError None)
  /\ _convert Example.runtime Example.int_or_unknown (VStr "abc") = Ok (VStr "abc").
Proof.
  split; [|split; [|split]].
  - destruct (union_convert Example.runtime
                (Example.union [Example.int_info; Example.none_info]) None None None
                [Example.integer; Example.none] (VStr "5")) as (H & _).
    apply (H [] Example.integer [Example.none]); try reflexivity.
    intros c' [].
  - destruct (union_convert Example.runtime
                (Example.union [Example.int_info; Example.none_info]) None None None
                [Example.integer; Example.none] (VStr "None")) as (H & _).
    apply (H [Example.integer] Example.none []); try reflexivity.
    intros c' [<- | []]. right. eexists. vm_compute. reflexivity.
  - destruct (union_convert Example.runtime
                (Example.union [Example.int_info; Example.none_info]) None None None
                [Example.integer; Example.none] (VStr "abc")) as (_ & _ & H & _).
    apply H.
    intros c [<- | [<- | []]]; (split; [reflexivity|]);
      eexists; vm_compute; reflexivity.
  - destruct (union_convert Example.runtime
                (Example.union [Example.int_info; Example.unknown_info]) None None None
                [Example.integer; Example.unknown] (VStr "abc")) as (_ & H & _).
    apply H.
    + intros c [<- | [<- | []]].
      * right. eexists. vm_compute. reflexivity.
      * left. reflexivity.
    + exists Example.unknown. split; [right; left; reflexivity | reflexivity].
Defined.

(* ===================================================================== *)
(** * The literal matcher *)
(* ===================================================================== *)








(* ===================================================================== *)
(** * The enumeration matcher *)
(* ===================================================================== *)

Lemma filter_ext p q s :
  (forall c, p c = q c) -> PyStr.filter p s = PyStr.filter q s.
Proof.
  intros H. induction s as [|c s IH]; simpl; [reflexivity|].
  now rewrite H, IH.
Qed.

Lemma filter_filter p q s :
  PyStr.filter p (PyStr.filter q s) = PyStr.filter (fun c => q c && p c) s.
Proof.
  induction s as [|c s IH]; simpl; [reflexivity|].
  destruct (q c); simpl; [destruct (p c)|]; now rewrite IH.
Qed.










(* ===================================================================== *)
(** * The integer converter *)
(* ===================================================================== *)

Lemma remove_char_absent sep s :
  PyStr.contains_char sep s = false -> PyStr.remove_char sep s = s.
Proof.
  unfold PyStr.contains_char, PyStr.remove_char.
  induction s as [|c s IH]; simpl; [reflexivity|].
  intros H. apply orb_false_iff in H. destruct H as [H1 H2].
  rewrite H1. simpl. now rewrite IH.
Qed.

Lemma remove_separators_filter s :
  remove_separators_text s
  = PyStr.filter (fun c => negb (Ascii.eqb c " " || Ascii.eqb c "_")) s.
Proof.
  unfold remove_separators_text. simpl.
  assert (H : forall sep t,
             (if PyStr.contains_char sep t then PyStr.remove_char sep t else t)
             = PyStr.remove_char sep t).
  { intros sep t. destruct (PyStr.contains_char sep t) eqn:E; [reflexivity|].
    symmetry. now apply remove_char_absent. }
  rewrite !H. unfold PyStr.remove_char. rewrite filter_filter.
  apply filter_ext. intros c.
  rewrite (Ascii.eqb_sym c " "), (Ascii.eqb_sym c "_").
  destruct (Ascii.eqb " " c), (Ascii.eqb "_" c); reflexivity.
Qed.


Lemma split_fuel_absent fuel s sep :
  PyStr.contains sep s = false -> PyStr.split_fuel fuel s sep = [s].
Proof.
  unfold PyStr.contains. destruct fuel; simpl; [reflexivity|].
  destruct (PyStr.partition sep s); [discriminate | reflexivity].
Qed.

Lemma split_once s sep before after :
  PyStr.partition sep s = Some (before, after) ->
  PyStr.contains sep after = false ->
  s <> "" ->
  PyStr.split s sep = [before; after].
Proof.
  intros Hp Ha Hs. unfold PyStr.split.
  destruct s as [|c s]; [contradiction Hs; reflexivity|].
  cbn [String.length PyStr.split_fuel]. rewrite Hp.
  now rewrite split_fuel_absent.
Qed.



Lemma get_base_decimal text :
  PyStr.contains "0x" (PyStr.lower text) = false ->
  PyStr.contains "0o" (PyStr.lower text) = false ->
  PyStr.contains "0b" (PyStr.lower text) = false ->
  _get_base text = (PyStr.lower text, 10%Z).
Proof.
  intros Hx Ho Hb. unfold _get_base. now rewrite Hx, Ho, Hb.
Qed.





(* ===================================================================== *)
(** * Comprehensions *)
(* ===================================================================== *)

Lemma traverse_ext {A B : Type} (f g : A -> result B) l :
  (forall x, In x l -> f x = g x) -> traverse f l = traverse g l.
Proof.
  induction l as [|x l IH]; simpl; intros H; [reflexivity|].
  rewrite (H x (or_introl eq_refl)), IH; auto.
Qed.

Lemma traverse_map {A B C : Type} (g : A -> B) (f : B -> result C) l :
  traverse f (List.map g l) = traverse (fun x => f (g x)) l.
Proof.
  induction l as [|x l IH]; simpl; [reflexivity|]. now rewrite IH.
Qed.

Lemma traverse_ok {A B : Type} (f : A -> result B) l rs :
  traverse f l = Ok rs <-> Forall2 (fun x r => f x = Ok r) l rs.
Proof.
  revert rs. induction l as [|x l IH]; intros rs; simpl.
  - split.
    + intros H. injection H as <-. constructor.
    + intros H. inversion H. reflexivity.
  - split.
    + destruct (f x) as [y|e] eqn:Hx; simpl; [|discriminate].
      destruct (traverse f l) as [ys|e] eqn:Hl; simpl; [|discriminate].
      intros H. injection H as <-. constructor; [assumption | now apply IH].
    + intros H. inversion H as [|x' r l' rs' Hx Hrest]; subst.
      rewrite Hx. simpl. apply IH in Hrest. rewrite Hrest. reflexivity.
Qed.

Lemma traverse_raise {A B : Type} (f : A -> result B) l e :
  traverse f l = Raise e <-> exists x, first_failure f l x e.
Proof.
  induction l as [|x l IH]; simpl.
  - split; [discriminate|]. intros [x H]. inversion H as [before ? ? ? ? ? Heq].
    destruct before; discriminate.
  - split.
    + destruct (f x) as [y|e'] eqn:Hx; simpl.
      * destruct (traverse f l) as [ys|e'] eqn:Hl; simpl; [discriminate|].
        intros H. injection H as ->.
        destruct (proj1 IH eq_refl) as [x' Hff].
        exists x'. inversion Hff as [before ? after ? Hbefore Hfail Heq]; subst.
        apply (first_failure_intro f (x :: before) x' after e); [|assumption].
        intros z [<- | Hin]; [eauto | auto].
      * intros H. injection H as ->. exists x.
        apply (first_failure_intro f [] x l e); [intros y []|assumption].
    + intros [x' Hff].
      inversion Hff as [before x0 after e0 Hbefore Hfail Heq Hx He]. subst x0 e0.
      destruct before as [|b before]; simpl in Heq; injection Heq as Hb Hl.
      * subst x'. rewrite Hfail. reflexivity.
      * subst b. destruct (Hbefore x (or_introl eq_refl)) as [r Hr]. rewrite Hr. simpl.
        assert (Hrest : traverse f l = Raise e).
        { apply IH. exists x'. rewrite <- Hl. constructor; [|assumption].
          intros y Hy. apply Hbefore. now right. }
        rewrite Hrest. reflexivity.
Qed.

Lemma enumerate_from_zip_map {A B C : Type} (g : A -> B) (l : list A) (m : list C) n :
  enumerate_from n (zip (List.map g l) m)
  = List.map (fun p => (fst p, (g (fst (snd p)), snd (snd p))))
             (enumerate_from n (zip l m)).
Proof.
  unfold zip. revert m n.
  induction l as [|x l IH]; intros [|y m] n; simpl; try reflexivity.
  now rewrite IH.
Qed.

(* ===================================================================== *)
(** * The tuple converter *)
(* ===================================================================== *)

Lemma tuple_items_positions rt (converters : list TypeConverter) (items : list object) :
  traverse convert_pair (enumerate (zip (List.map (methods rt) converters) items))
  = traverse (convert_position rt) (enumerate (zip converters items)).
Proof.
  unfold enumerate. rewrite enumerate_from_zip_map, traverse_map.
  apply traverse_ext. intros [i [c v]] _. reflexivity.
Qed.

Lemma tuple_fixed_items rt type_info cc languages ci converters value :
  homogenous type_info = false ->
  converters <> [] ->
  tuple_convert_items rt
    (Converter TupleConverter type_info cc languages ci (NestedList converters)) value
  = if Nat.eqb (List.length (Py.items value)) (List.length converters)
    then items <- traverse (convert_position rt)
                           (enumerate (zip converters (Py.items value))) ;;
         Ok (VTuple items)
    else Raise (ValueError
                  (Some ("Expected " ++ PyStr.of_nat (List.length converters)
                         ++ " item" ++ plural_or_not (List.length converters)
                         ++ ", got " ++ PyStr.of_nat (List.length (Py.items value))
                         ++ "."))).
Proof.
  intros Hfixed Hnested.
  unfold tuple_convert_items, TupleConverter_convert_items. simpl.
  rewrite Hfixed, length_map.
  destruct converters as [|c converters]; [contradiction Hnested; reflexivity|].
  cbn [List.map nested_is_empty].
  destruct (Nat.eqb (List.length (Py.items value)) (List.length (c :: converters)));
    [|reflexivity].
  cbn [negb].
  change (methods rt c :: List.map (methods rt) converters)
    with (List.map (methods rt) (c :: converters)).
  now rewrite tuple_items_positions.
Qed.

(** C6.  A tuple converter with [N] positional nested converters and no
    ellipsis converts only sequences of exactly [N] items, each by the
    converter of its position and in order; a sequence of another length
    fails with a message that names the expected and the actual number of
    items, such as "Expected 2 items, got 3.". *)
Theorem tuple_fixed_arity
    (rt : Runtime) (type_info : TypeInfo) (cc : option CustomArgumentConverters)
    (languages : option Languages) (ci : option ConverterInfo)
    (converters : list TypeConverter) (value : object)
    (Hfixed : homogenous type_info = false) (Hnested : converters <> []) :
  let tuple := Converter TupleConverter type_info cc languages ci (NestedList converters) in
  let N := List.length converters in
  let items := Py.items value in
  (List.length items <> N ->
   tuple_convert_items rt tuple value
   = Raise (ValueError (Some ("Expected " ++ PyStr.of_nat N ++ " item" ++ plural_or_not N
                              ++ ", got " ++ PyStr.of_nat (List.length items) ++ "."))))
  /\ (forall converted,
        tuple_convert_items rt tuple value = Ok converted <->
        List.length items = N
        /\ exists results,
             converted = VTuple results
             /\ Forall2 (fun p r => convert_position rt p = Ok r)
                        (enumerate (zip converters items)) results)
  /\ (forall c1 c2 v1 v2 v3,
        converters = [c1; c2] -> items = [v1; v2; v3] ->
        tuple_convert_items rt tuple value
        = Raise (ValueError (Some "Expected 2 items, got 3.")))
  /\ (forall name kind,
        Py.is_str value = false ->
        Py.isinstance_any value [Py.str; Py.Sequence] = true ->
        List.length items <> N ->
        _non_string_convert rt tuple value = tuple_convert_items rt tuple value
        /\ convert rt tuple value name kind
           = Raise (conversion_error rt tuple value name kind
                      (Some ("Expected " ++ PyStr.of_nat N ++ " item" ++ plural_or_not N
                             ++ ", got " ++ PyStr.of_nat (List.length items) ++ "."))))
  /\ (forall text parsed,
        literal_eval rt text = Ok parsed ->
        Py.issubclass (Py.type_of parsed) Py.tuple = true ->
        _convert rt tuple (VStr text) = tuple_convert_items rt tuple parsed).
Proof.
  cbv zeta.
  pose proof (tuple_fixed_items rt type_info cc languages ci converters value
                Hfixed Hnested) as Hitems.
  assert (Hwrong : List.length (Py.items value) <> List.length converters ->
            tuple_convert_items rt
              (Converter TupleConverter type_info cc languages ci (NestedList converters))
              value
            = Raise (ValueError
                       (Some ("Expected " ++ PyStr.of_nat (List.length converters)
                              ++ " item" ++ plural_or_not (List.length converters)
                              ++ ", got " ++ PyStr.of_nat (List.length (Py.items value))
                              ++ ".")))).
  { intros Hlen. rewrite Hitems.
    apply Nat.eqb_neq in Hlen. now rewrite Hlen. }
  split; [exact Hwrong|].
  split; [|split; [|split]].
  - intros converted. rewrite Hitems.
    destruct (Nat.eqb (List.length (Py.items value)) (List.length converters)) eqn:Hlen.
    + apply Nat.eqb_eq in Hlen. split.
      * intros H. split; [assumption|].
        destruct (traverse (convert_position rt)
                    (enumerate (zip converters (Py.items value)))) as [rs|e] eqn:Ht;
          simpl in H; [|discriminate].
        injection H as <-. exists rs. split; [reflexivity|]. now apply traverse_ok.
      * intros [_ [results [-> Hall]]]. apply traverse_ok in Hall.
        now rewrite Hall.
    + apply Nat.eqb_neq in Hlen. split; [discriminate|]. intros [H _]. contradiction.
  - intros c1 c2 v1 v2 v3 Hc Hi. rewrite Hwrong; rewrite Hc, Hi; [reflexivity|].
    simpl. discriminate.
  - intros name kind Hstr Hseq Hlen.
    assert (Hns : _non_string_convert rt
                    (Converter TupleConverter type_info cc languages ci
                               (NestedList converters)) value
                  = tuple_convert_items rt
                      (Converter TupleConverter type_info cc languages ci
                                 (NestedList converters)) value).
    { destruct converters as [|c converters]; [contradiction Hnested; reflexivity|].
      reflexivity. }
    split; [exact Hns|].
    unfold convert.
    assert (Hno : no_conversion_needed_of TupleConverter type_info
                    (NestedList (List.map (methods rt) converters)) value = false).
    { simpl. unfold TupleConverter_no_conversion_needed.
      destruct (Py.is_str value || negb (TypeConverter_no_conversion_needed
                                            TupleConverter type_info value));
        [reflexivity|].
      destruct converters as [|c converters]; [contradiction Hnested; reflexivity|].
      cbn [nested_is_empty List.map]. rewrite Hfixed.
      change (methods rt c :: List.map (methods rt) converters)
        with (List.map (methods rt) (c :: converters)).
      cbn [nested_list]. rewrite length_map.
      apply Nat.eqb_neq in Hlen. now rewrite Hlen. }
    cbn [methods m_convert nested_map]. unfold convert_of, TypeConverter_convert.
    rewrite Hno. unfold handles_value_of. cbn [class_value_types].
    rewrite Hseq. cbn [bind negb]. rewrite Hstr. cbn [negb].
    unfold _non_string_convert, type_name in Hns.
    cbn [methods m_type_name nested_map] in Hns.
    rewrite Hns, (Hwrong Hlen). reflexivity.
  - intros text parsed Heval Htuple. simpl.
    unfold TupleConverter_convert, _literal_eval. simpl.
    rewrite Heval, Htuple. reflexivity.
Qed.

Lemma tuple_fixed_arity_witness :
  convert Example.runtime Example.int_pair (VTuple [VStr "1"; VStr "2"; VStr "3"])
          VNone "Argument"
  = Raise (ValueError
             (Some "Argument '('1', '2', '3')' (tuple) cannot be converted to tuple[int, int]: Expected 2 items, got 3."))
  /\ tuple_convert_items Example.runtime Example.int_pair (VList [VStr "1"; VStr "2"])
     = Ok (VTuple [VInt 1; VInt 2]).
Proof.
  assert (Hnested : [Example.integer; Example.integer] <> []) by discriminate.
  split.
  - destruct (tuple_fixed_arity Example.runtime Example.int_pair_info None None None
                [Example.integer; Example.integer]
                (VTuple [VStr "1"; VStr "2"; VStr "3"]) eq_refl Hnested)
      as (_ & _ & _ & H & _).
    assert (Hlen : List.length (Py.items (VTuple [VStr "1"; VStr "2"; VStr "3"]))
                   <> List.length [Example.integer; Example.integer])
      by (simpl; discriminate).
    destruct (H VNone "Argument" eq_refl eq_refl Hlen) as [_ Hconv].
    refine (eq_trans Hconv _). reflexivity.
  - destruct (tuple_fixed_arity Example.runtime Example.int_pair_info None None None
                [Example.integer; Example.integer]
                (VList [VStr "1"; VStr "2"]) eq_refl Hnested)
      as (_ & H & _).
    apply H. split; [reflexivity|].
    exists [VInt 1; VInt 2]. split; [reflexivity|].
    repeat constructor.
Defined.

(* ===================================================================== *)
(** * The boolean converter *)
(* ===================================================================== *)

Lemma to_upper_N c : PyStr.to_upper c = "N"%char -> c = "n"%char \/ c = "N"%char.
Proof. destruct c as [[] [] [] [] [] [] [] []]; intros H; try discriminate H; auto. Qed.

Lemma to_lower_n c : PyStr.to_lower c = "n"%char -> c = "n"%char \/ c = "N"%char.
Proof. destruct c as [[] [] [] [] [] [] [] []]; intros H; try discriminate H; auto. Qed.

Lemma to_lower_o c : PyStr.to_lower c = "o"%char -> c = "o"%char \/ c = "O"%char.
Proof. destruct c as [[] [] [] [] [] [] [] []]; intros H; try discriminate H; auto. Qed.

Lemma to_lower_e c : PyStr.to_lower c = "e"%char -> c = "e"%char \/ c = "E"%char.
Proof. destruct c as [[] [] [] [] [] [] [] []]; intros H; try discriminate H; auto. Qed.




(** C10.  For every input that the boolean converter accepts and that is
    not text (an integer, a float or [None] among them) [convert] returns the
    input itself: the path for values that are not text coerces nothing, so
    the integer 1 stays the integer 1 and does not become the boolean
    true. *)
Theorem boolean_convert_non_text
    (rt : Runtime) (type_info : TypeInfo) (cc : option CustomArgumentConverters)
    (languages : option Languages) (ci : option ConverterInfo)
    (nested : nested_of TypeConverter) (value name : object) (kind : string)
    (Hnot_text : Py.is_str value = false)
    (Haccepted : Py.isinstance_any value (class_value_types BooleanConverter) = true) :
  let boolean := Converter BooleanConverter type_info cc languages ci nested in
  convert rt boolean value name kind = Ok value
  /\ _non_string_convert rt boolean value = Ok value
  /\ (forall v, number_or_none v ->
                Py.is_str v = false
                /\ Py.isinstance_any v (class_value_types BooleanConverter) = true)
  /\ VInt 1 <> VBool true.
Proof.
  cbv zeta. split; [|split; [reflexivity | split; [|discriminate]]].
  - unfold convert. simpl. unfold TypeConverter_convert.
    destruct (no_conversion_needed_of BooleanConverter type_info
                (nested_map (methods rt) nested) value);
      [reflexivity|].
    unfold handles_value_of. rewrite Haccepted. cbn [bind negb].
    rewrite Hnot_text. reflexivity.
  - intros v Hv. destruct v; try contradiction; split; reflexivity.
Qed.


Lemma boolean_convert_non_text_witness :
  convert Example.runtime Example.boolean (VInt 1) VNone "Argument" = Ok (VInt 1)
  /\ convert Example.runtime Example.boolean (VFloat (Finite 1 0)) VNone "Argument"
     = Ok (VFloat (Finite 1 0))
  /\ convert Example.runtime Example.boolean VNone VNone "Argument" = Ok VNone.
Proof.
  split; [|split].
  - apply (boolean_convert_non_text Example.runtime Example.bool_info None None None
             NoNested (VInt 1) VNone "Argument" eq_refl eq_refl).
  - apply (boolean_convert_non_text Example.runtime Example.bool_info None None None
             NoNested (VFloat (Finite 1 0)) VNone "Argument" eq_refl eq_refl).
  - apply (boolean_convert_non_text Example.runtime Example.bool_info None None None
             NoNested VNone VNone "Argument" eq_refl eq_refl).
Defined.

(* ===================================================================== *)
(** * Conversion errors *)
(* ===================================================================== *)

Lemma convert_unfold rt c value name kind :
  converter_class c <> UnknownConverter ->
  convert rt c value name kind
  = TypeConverter_convert rt (no_conversion_needed rt c) (_handles_value c)
      (_non_string_convert rt c) (_convert rt c) (type_name rt c) value name kind.
Proof.
  destruct c as [cls type_info cc languages ci nested]. simpl.
  intros Hcls. destruct cls; try reflexivity. contradiction Hcls; reflexivity.
Qed.

Lemma if_negb {A : Type} (b : bool) (x y : A) :
  (if negb b then x else y) = (if b then y else x).
Proof. destruct b; reflexivity. Qed.

Lemma islower_capitalized c s :
  PyStr.is_upper c = true -> PyStr.islower (String c s) = false.
Proof. intros H. unfold PyStr.islower. simpl. now rewrite H. Qed.

(** C8, as the code has it.  A [ValueError] raised by the conversion of a
    value is re-raised by [convert] as one [ValueError] whose message is
    "<Kind> '<name>' got value '<value>' (<type>) that cannot be converted
    to <type name>" followed by the ending; without a name the message is
    "<Kind> '<value>' (<type>) cannot be converted to <type name>" followed
    by the ending; the type in parentheses is left out for text; the kind is
    capitalized when it is all lower case and used as given otherwise (so
    also when the caller capitalized it); the ending is ": " and the message
    of the inner failure when that failure was raised with a message, and a
    period when it was raised without one or when the kind of the input is
    not accepted. *)
Theorem convert_error_message
    (rt : Runtime) (c : TypeConverter) (value name : object) (kind : string)
    (Hclass : converter_class c <> UnknownConverter)
    (Hneeded : no_conversion_needed rt c value = false) :
  let attempt :=
    if Py.is_str value then _convert rt c value else _non_string_convert rt c value in
  let typ := if Py.is_str value then "" else " (" ++ rt_type_name rt value ++ ")" in
  let Kind := if PyStr.islower kind then PyStr.capitalize kind else kind in
  let message := fun ending =>
    if is_None name
    then Kind ++ " '" ++ safe_str rt value ++ "'" ++ typ
         ++ " cannot be converted to " ++ type_name rt c ++ ending
    else Kind ++ " '" ++ format_name rt name ++ "' got value '" ++ safe_str rt value
         ++ "'" ++ typ ++ " that cannot be converted to " ++ type_name rt c ++ ending in
  (_handles_value c value = Ok false ->
   convert rt c value name kind = Raise (ValueError (Some (message "."))))
  /\ (forall converted,
        _handles_value c value = Ok true -> attempt = Ok converted ->
        convert rt c value name kind = Ok converted)
  /\ (_handles_value c value = Ok true -> attempt = Raise (ValueError None) ->
      convert rt c value name kind = Raise (ValueError (Some (message "."))))
  /\ (forall detail,
        _handles_value c value = Ok true ->
        attempt = Raise (ValueError (Some detail)) ->
        convert rt c value name kind
        = Raise (ValueError (Some (message (": " ++ detail)))))
  /\ (PyStr.islower kind = true -> Kind = PyStr.capitalize kind)
  /\ (forall first rest,
        kind = String first rest -> PyStr.is_upper first = true -> Kind = kind).
Proof.
  cbv zeta. rewrite (convert_unfold rt c value name kind Hclass).
  unfold TypeConverter_convert. rewrite Hneeded.
  split; [|split; [|split; [|split; [|split]]]].
  - intros ->. reflexivity.
  - intros converted -> Hok. cbn [bind negb].
    rewrite if_negb, Hok. reflexivity.
  - intros -> Hfail. cbn [bind negb].
    rewrite if_negb, Hfail. reflexivity.
  - intros detail -> Hfail. cbn [bind negb].
    rewrite if_negb, Hfail. reflexivity.
  - intros ->. reflexivity.
  - intros first rest -> Hup. now rewrite (islower_capitalized _ _ Hup).
Qed.

Lemma convert_error_message_witness :
  convert Example.runtime Example.integer (VStr "abc") (VStr "count") "argument"
  = Raise (ValueError
             (Some "Argument 'count' got value 'abc' that cannot be converted to integer."))
  /\ convert Example.runtime Example.integer (VFloat (Finite 7 (-1))) VNone "Item"
     = Raise (ValueError
                (Some "Item '3.5' (float) cannot be converted to integer: Conversion would lose precision."))
  /\ convert Example.runtime Example.integer (VList []) VNone "Argument"
     = Raise (ValueError (Some "Argument '[]' (list) cannot be converted to integer.")).
Proof.
  split; [|split].
  - destruct (convert_error_message Example.runtime Example.integer (VStr "abc")
                (VStr "count") "argument") as (_ & _ & H & _);
      [discriminate | reflexivity |].
    refine (eq_trans (H eq_refl eq_refl) _). reflexivity.
  - destruct (convert_error_message Example.runtime Example.integer
                (VFloat (Finite 7 (-1))) VNone "Item") as (_ & _ & _ & H & _);
      [discriminate | reflexivity |].
    refine (eq_trans (H "Conversion would lose precision." eq_refl eq_refl) _).
    reflexivity.
  - destruct (convert_error_message Example.runtime Example.integer (VList [])
                VNone "Argument") as (H & _);
      [discriminate | reflexivity |].
    refine (eq_trans (H eq_refl) _). reflexivity.
Defined.

(** C8 as the specification words it fails: a custom converter that
    raises a [ValueError] with an empty message gives a message that ends
    with ": " and not with a period, and a kind in mixed case is not
    capitalized. *)
Lemma convert_error_message_counterexample :
  (ci_convert Example.silent (VStr "x") = Raise (ValueError (Some ""))
   /\ convert Example.runtime Example.money (VStr "x") VNone "Argument"
      = Raise (ValueError (Some "Argument 'x' cannot be converted to Money: "))
   /\ convert Example.runtime Example.money (VStr "x") VNone "Argument"
      <> Raise (ValueError
                  (Some (claimed_message Example.runtime
                           (type_name Example.runtime Example.money)
                           (VStr "x") VNone "Argument" ""))))
  /\ (convert Example.runtime Example.integer (VStr "x") VNone "fooBar"
      = Raise (ValueError (Some "fooBar 'x' cannot be converted to integer."))
      /\ convert Example.runtime Example.integer (VStr "x") VNone "fooBar"
         <> Raise (ValueError
                     (Some (claimed_message Example.runtime
                              (type_name Example.runtime Example.integer)
                              (VStr "x") VNone "fooBar" "")))).
Proof.
  split; [split; [|split]|split]; try reflexivity.
  - intros H. vm_compute in H. discriminate H.
  - intros H. vm_compute in H. discriminate H.
Qed.

(* ===================================================================== *)
(** * Failures inside composite converters *)
(* ===================================================================== *)

Lemma traverse_enumerate_fail {A B : Type} (f : nat * A -> result B)
    (v : A) (after : list A) (e : exn) :
  forall (before : list A) (n : nat),
    (forall i y, nth_error before i = Some y -> exists r, f (n + i, y) = Ok r) ->
    f (n + List.length before, v) = Raise e ->
    traverse f (enumerate_from n (before ++ v :: after)) = Raise e.
Proof.
  induction before as [|b before IH]; intros n Hbefore Hfail; simpl.
  - rewrite Nat.add_0_r in Hfail. now rewrite Hfail.
  - destruct (Hbefore 0 b eq_refl) as [r Hr]. rewrite Nat.add_0_r in Hr.
    rewrite Hr. simpl. rewrite IH; [reflexivity| |].
    + intros i y Hi. rewrite Nat.add_succ_l, <- Nat.add_succ_r.
      apply Hbefore. exact Hi.
    + simpl in Hfail. now rewrite Nat.add_succ_l, <- Nat.add_succ_r.
Qed.

Lemma traverse_zip_fail {A B C : Type} (f : nat * (A * B) -> result C)
    (c : A) (v : B) (cs2 : list A) (after : list B) (e : exn) :
  forall (cs1 : list A) (before : list B) (n : nat),
    List.length cs1 = List.length before ->
    (forall i cj vj, nth_error cs1 i = Some cj -> nth_error before i = Some vj ->
                     exists r, f (n + i, (cj, vj)) = Ok r) ->
    f (n + List.length before, (c, v)) = Raise e ->
    traverse f (enumerate_from n (zip (cs1 ++ c :: cs2) (before ++ v :: after)))
    = Raise e.
Proof.
  unfold zip.
  induction cs1 as [|c1 cs1 IH]; intros [|b before] n Hlen Hbefore Hfail;
    try discriminate Hlen; simpl.
  - rewrite Nat.add_0_r in Hfail. now rewrite Hfail.
  - destruct (Hbefore 0 c1 b eq_refl eq_refl) as [r Hr]. rewrite Nat.add_0_r in Hr.
    rewrite Hr. simpl. rewrite IH; [reflexivity| | |].
    + simpl in Hlen. now injection Hlen.
    + intros i cj vj Hc Hv. rewrite Nat.add_succ_l, <- Nat.add_succ_r.
      apply Hbefore; assumption.
    + simpl in Hfail. now rewrite Nat.add_succ_l, <- Nat.add_succ_r.
Qed.

Lemma set_comprehension_fail {A : Type} (f : A -> result object)
    (x : A) (after : list A) (e : exn) :
  forall (before : list A) (acc : list object),
    (forall y, In y before -> exists r, f y = Ok r /\ Py.hashable r = true) ->
    f x = Raise e ->
    set_comprehension f (before ++ x :: after) acc = Raise e.
Proof.
  induction before as [|b before IH]; intros acc Hbefore Hfail; simpl.
  - now rewrite Hfail.
  - destruct (Hbefore b (or_introl eq_refl)) as [r [Hr Hh]].
    rewrite Hr. simpl. rewrite Hh. apply IH; [|assumption].
    intros y Hy. apply Hbefore. now right.
Qed.

Lemma dict_comprehension_fail {A : Type} (f : A -> result (object * object))
    (x : A) (after : list A) (e : exn) :
  forall (before : list A) (acc : list (object * object)),
    (forall y, In y before -> exists r, f y = Ok r /\ Py.hashable (fst r) = true) ->
    f x = Raise e ->
    dict_comprehension f (before ++ x :: after) acc = Raise e.
Proof.
  induction before as [|b before IH]; intros acc Hbefore Hfail; simpl.
  - now rewrite Hfail.
  - destruct (Hbefore b (or_introl eq_refl)) as [r [Hr Hh]].
    rewrite Hr. simpl. rewrite Hh. apply IH; [|assumption].
    intros y Hy. apply Hbefore. now right.
Qed.

Lemma convert_fields_app rt nested before rest :
  forall entries not_allowed,
    convert_fields rt nested (before ++ rest)%list entries not_allowed
    = match convert_fields rt nested before entries not_allowed with
      | (entries', Ok not_allowed') => convert_fields rt nested rest entries' not_allowed'
      | failed => failed
      end.
Proof.
  induction before as [|key before IH]; intros entries not_allowed; simpl.
  - reflexivity.
  - destruct (nested_getitem nested key) as [converter|]; [|apply IH].
    destruct (m_bool converter); [|apply IH].
    destruct (Py.lookup key entries) as [item|]; [|reflexivity].
    destruct (m_convert converter item key "Item"); [apply IH | reflexivity].
Qed.

Lemma nested_getitem_map {A B : Type} (f : A -> B) (n : nested_of A) key :
  nested_getitem (nested_map f n) key = option_map f (nested_getitem n key).
Proof.
  destruct n as [|l|d]; destruct key; try reflexivity. simpl.
  induction d as [|[k a] d IH]; simpl; [reflexivity|].
  destruct (String.eqb s k); [reflexivity | exact IH].
Qed.

(** C7, as the code has it.  In every composite converter the failure of
    the first child that fails, in the order of the iteration, is what
    [_convert_items] raises, and nothing is returned.  The failing child is
    converted under its index by the list and tuple converters and under
    its key by the dictionary converter (values) and the record converter
    (fields); the elements of a set and the keys of a dictionary are
    converted without a name. *)
Theorem composite_first_failure
    (rt : Runtime) (type_info : TypeInfo) (cc : option CustomArgumentConverters)
    (languages : option Languages) (ci : option ConverterInfo) :
  (forall c others before v after e,
      (forall i y, nth_error before i = Some y ->
                   exists r, convert rt c y (VStr (PyStr.of_nat i)) "Item" = Ok r) ->
      convert rt c v (VStr (PyStr.of_nat (List.length before))) "Item" = Raise e ->
      list_convert_items rt
        (Converter ListConverter type_info cc languages ci (NestedList (c :: others)))
        (VList (before ++ v :: after))
      = Raise e)
  /\ (forall c others before v after e,
        homogenous type_info = true ->
        (forall i y, nth_error before i = Some y ->
                     exists r, convert rt c y (VStr (PyStr.of_nat i)) "Item" = Ok r) ->
        convert rt c v (VStr (PyStr.of_nat (List.length before))) "Item" = Raise e ->
        tuple_convert_items rt
          (Converter TupleConverter type_info cc languages ci (NestedList (c :: others)))
          (VTuple (before ++ v :: after))
        = Raise e)
  /\ (forall cs1 c cs2 before v after e,
        homogenous type_info = false ->
        List.length cs1 = List.length before ->
        List.length cs2 = List.length after ->
        (forall i cj vj, nth_error cs1 i = Some cj -> nth_error before i = Some vj ->
                         exists r, convert rt cj vj (VStr (PyStr.of_nat i)) "Item" = Ok r) ->
        convert rt c v (VStr (PyStr.of_nat (List.length before))) "Item" = Raise e ->
        tuple_convert_items rt
          (Converter TupleConverter type_info cc languages ci
                     (NestedList (cs1 ++ c :: cs2)))
          (VTuple (before ++ v :: after))
        = Raise e)
  /\ (forall c others before v after e,
        (forall y, In y before -> element_converted rt c y) ->
        convert rt c v VNone "Item" = Raise e ->
        set_convert_items rt
          (Converter SetConverter type_info cc languages ci (NestedList (c :: others)))
          (VSet (before ++ v :: after))
        = Raise e)
  /\ (forall kc vc others before k v after e,
        (forall kv, In kv before -> entry_converted rt kc vc kv) ->
        convert rt kc k VNone "Key" = Raise e ->
        dict_convert_items rt
          (Converter DictionaryConverter type_info cc languages ci
                     (NestedList (kc :: vc :: others)))
          (VDict (before ++ (k, v) :: after))
        = Raise e)
  /\ (forall kc vc others before k v after e converted_key,
        (forall kv, In kv before -> entry_converted rt kc vc kv) ->
        convert rt kc k VNone "Key" = Ok converted_key ->
        convert rt vc v k "Item" = Raise e ->
        dict_convert_items rt
          (Converter DictionaryConverter type_info cc languages ci
                     (NestedList (kc :: vc :: others)))
          (VDict (before ++ (k, v) :: after))
        = Raise e)
  /\ (forall fields entries before key after c item e entries' not_allowed,
        List.map fst entries = (before ++ key :: after)%list ->
        convert_fields rt (nested_map (methods rt) (NestedDict fields)) before entries []
        = (entries', Ok not_allowed) ->
        nested_getitem (NestedDict fields) key = Some c ->
        unresolvable c = false ->
        Py.lookup key entries' = Some item ->
        convert rt c item key "Item" = Raise e ->
        snd (typed_dict_convert_items rt
               (Converter TypedDictConverter type_info cc languages ci
                          (NestedDict fields))
               (VDict entries))
        = Raise e)
  /\ (forall c value name kind args,
        converter_class c <> UnknownConverter ->
        no_conversion_needed rt c value = false ->
        _handles_value c value = Ok true ->
        Py.is_str value = false ->
        _non_string_convert rt c value = Raise (ValueError args) ->
        convert rt c value name kind = Raise (conversion_error rt c value name kind args)).
Proof.
  split; [|split; [|split; [|split; [|split; [|split; [|split]]]]]].
  - intros c others before v after e Hbefore Hfail.
    unfold list_convert_items, ListConverter_convert_items. simpl.
    unfold enumerate. rewrite (traverse_enumerate_fail _ v after e); auto.
  - intros c others before v after e Hhom Hbefore Hfail.
    unfold tuple_convert_items, TupleConverter_convert_items. simpl.
    rewrite Hhom. unfold enumerate.
    rewrite (traverse_enumerate_fail _ v after e); auto.
  - intros cs1 c cs2 before v after e Hfixed Hlen1 Hlen2 Hbefore Hfail.
    rewrite tuple_fixed_items; [|assumption | now destruct cs1].
    simpl. rewrite !length_app. simpl. rewrite Hlen1, Hlen2, Nat.eqb_refl.
    unfold enumerate. rewrite (traverse_zip_fail _ c v cs2 after e); auto.
  - intros c others before v after e Hbefore Hfail.
    unfold set_convert_items, SetConverter_convert_items. simpl.
    rewrite (set_comprehension_fail _ v after e); auto.
  - intros kc vc others before k v after e Hbefore Hfail.
    unfold dict_convert_items, DictionaryConverter_convert_items. simpl.
    rewrite (dict_comprehension_fail _ (k, v) after e); auto.
    + intros kv Hin. destruct (Hbefore kv Hin) as (k' & v' & Hk & Hv & Hh).
      exists (k', v'). split; [|assumption].
      unfold convert_entry. rewrite !methods_convert, Hk. simpl. now rewrite Hv.
    + unfold convert_entry. rewrite methods_convert. simpl. now rewrite Hfail.
  - intros kc vc others before k v after e converted_key Hbefore Hkey Hfail.
    unfold dict_convert_items, DictionaryConverter_convert_items. simpl.
    rewrite (dict_comprehension_fail _ (k, v) after e); auto.
    + intros kv Hin. destruct (Hbefore kv Hin) as (k' & v' & Hk & Hv & Hh).
      exists (k', v'). split; [|assumption].
      unfold convert_entry. rewrite !methods_convert, Hk. simpl. now rewrite Hv.
    + unfold convert_entry. rewrite !methods_convert. simpl.
      rewrite Hkey. simpl. now rewrite Hfail.
  - intros fields entries before key after c item e entries' not_allowed
           Hkeys Hbefore Hc Hu Hitem Hfail.
    unfold typed_dict_convert_items, TypedDictConverter_convert_items.
    cbn [converter_nested converter_type_info Py.items Py.entries].
    rewrite Hkeys, convert_fields_app, Hbefore.
    cbn [convert_fields]. rewrite nested_getitem_map, Hc.
    cbn [option_map]. rewrite methods_bool, Hu, Hitem, methods_convert, Hfail.
    reflexivity.
  - intros c value name kind args Hclass Hneeded Hhandles Hstr Hfail.
    rewrite (convert_unfold rt c value name kind Hclass).
    unfold TypeConverter_convert. rewrite Hneeded, Hhandles. cbn [bind negb].
    rewrite Hstr. cbn [negb]. rewrite Hfail. reflexivity.
Qed.

Lemma composite_first_failure_witness :
  list_convert_items Example.runtime Example.int_list (VList [VStr "1"; VStr "x"; VStr "y"])
  = Raise (ValueError
             (Some "Item '1' got value 'x' that cannot be converted to integer."))
  /\ dict_convert_items Example.runtime Example.int_dict
       (VDict [(VStr "1", VStr "2"); (VStr "3", VStr "b")])
     = Raise (ValueError
                (Some "Item '3' got value 'b' that cannot be converted to integer."))
  /\ snd (typed_dict_convert_items Example.runtime Example.point
            (VDict [(VStr "x", VStr "1"); (VStr "y", VStr "b")]))
     = Raise (ValueError
                (Some "Item 'y' got value 'b' that cannot be converted to integer."))
  /\ convert Example.runtime Example.int_list (VList [VStr "1"; VStr "x"]) VNone "Argument"
     = Raise (ValueError
                (Some "Argument '['1', 'x']' (list) cannot be converted to list[int]: Item '1' got value 'x' that cannot be converted to integer.")).
Proof.
  destruct (composite_first_failure Example.runtime Example.int_info None None None)
    as (Hlist & _ & _ & _ & _ & Hvalue & Hrecord & Hraise).
  split; [|split; [|split]].
  - refine (eq_trans _ (Hlist Example.integer [] [VStr "1"] (VStr "x") [VStr "y"] _ _ _)).
    + reflexivity.
    + intros [|[|i]] y Hy; try discriminate Hy.
      injection Hy as <-. eexists. reflexivity.
    + reflexivity.
  - refine (eq_trans _ (Hvalue Example.integer Example.integer []
                          [(VStr "1", VStr "2")] (VStr "3") (VStr "b") [] _ (VInt 3)
                          _ _ _)).
    + reflexivity.
    + intros kv [<- | []]. exists (VInt 1), (VInt 2). repeat split.
    + reflexivity.
    + reflexivity.
  - refine (eq_trans _ (Hrecord [("x", Example.integer); ("y", Example.integer)]
                          [(VStr "x", VStr "1"); (VStr "y", VStr "b")]
                          [VStr "x"] (VStr "y") [] Example.integer (VStr "b") _
                          [(VStr "x", VInt 1); (VStr "y", VStr "b")] []
                          _ _ _ _ _ _)); reflexivity.
  - refine (eq_trans _ (Hraise Example.int_list (VList [VStr "1"; VStr "x"]) VNone
                          "Argument"
                          (Some "Item '1' got value 'x' that cannot be converted to integer.")
                          _ _ _ _ _)); try reflexivity.
    discriminate.
Defined.

Lemma length_append (a b : string) :
  String.length (a ++ b) = String.length a + String.length b.
Proof. induction a as [|c a IH]; simpl; [reflexivity | now rewrite IH]. Qed.

(** C7 as the specification words it fails: the failure of an element of a
    set, and of a key of a dictionary, carries neither a position nor a
    name. *)
Lemma composite_first_failure_counterexample :
  (set_convert_items Example.runtime Example.int_set (VSet [VStr "a"])
   = Raise (ValueError (Some "Item 'a' cannot be converted to integer."))
   /\ ~ named_child_failure Example.runtime Example.integer (VStr "a") "Item"
         (ValueError (Some "Item 'a' cannot be converted to integer.")))
  /\ (dict_convert_items Example.runtime Example.int_dict (VDict [(VStr "k", VStr "1")])
      = Raise (ValueError (Some "Key 'k' cannot be converted to integer."))
      /\ ~ named_child_failure Example.runtime Example.integer (VStr "k") "Key"
            (ValueError (Some "Key 'k' cannot be converted to integer."))).
Proof.
  split; (split; [reflexivity|]).
  - intros [name [Hname H]].
    assert (Hmsg : convert Example.runtime Example.integer (VStr "a") name "Item"
                   = Raise (ValueError
                              (Some ("Item '" ++ format_name Example.runtime name
                                     ++ "' got value 'a' that cannot be converted to integer.")))).
    { destruct name; try reflexivity. contradiction Hname; reflexivity. }
    rewrite Hmsg in H. injection H as H.
    apply (f_equal String.length) in H. rewrite length_append in H.
    simpl in H. lia.
  - intros [name [Hname H]].
    assert (Hmsg : convert Example.runtime Example.integer (VStr "k") name "Key"
                   = Raise (ValueError
                              (Some ("Key '" ++ format_name Example.runtime name
                                     ++ "' got value 'k' that cannot be converted to integer.")))).
    { destruct name; try reflexivity. contradiction Hname; reflexivity. }
    rewrite Hmsg in H. injection H as H.
    apply (f_equal String.length) in H. rewrite length_append in H.
    simpl in H. lia.
Qed.

(* ===================================================================== *)
(** * Validation of the converter tree *)
(* ===================================================================== *)

(** Induction on a converter with the property at hand for its nested
    converters. *)
Lemma TypeConverter_nested_ind (P : TypeConverter -> Prop) :
  (forall cls type_info cc languages ci nested,
      Forall P (nested_list nested) ->
      P (Converter cls type_info cc languages ci nested)) ->
  forall c, P c.
Proof.
  intros H. fix IH 1. intros [cls type_info cc languages ci nested].
  apply H. destruct nested as [|l|d]; simpl.
  - constructor.
  - induction l as [|x l IHl]; constructor; [apply IH | exact IHl].
  - induction d as [|[k x] d IHd]; simpl; constructor; [apply IH | exact IHd].
Qed.

Lemma removelast_map {A B : Type} (f : A -> B) (l : list A) :
  List.removelast (List.map f l) = List.map f (List.removelast l).
Proof.
  induction l as [|x l IH]; simpl; [reflexivity|].
  destruct l; simpl in *; [reflexivity | now rewrite IH].
Qed.

Lemma In_removelast {A : Type} (x : A) (l : list A) :
  In x (List.removelast l) -> In x l.
Proof.
  induction l as [|y l IH]; simpl; [auto|].
  destruct l; simpl in *; [auto|]. intros [H | H]; auto.
Qed.

Lemma nested_list_map {A B : Type} (f : A -> B) (n : nested_of A) :
  nested_list (nested_map f n) = List.map f (nested_list n).
Proof.
  destruct n as [|l|d]; simpl; [reflexivity | reflexivity|].
  now rewrite !List.map_map.
Qed.

Lemma nested_is_empty_list {A : Type} (n : nested_of A) :
  nested_is_empty n = true -> nested_list n = [].
Proof. destruct n as [|[|x l]|[|x d]]; simpl; congruence. Qed.

(** [validate] over the nested converters that it goes through. *)
Lemma validate_unfold rt c :
  validate rt c
  = if unresolvable c then Raise (unrecognized rt c)
    else TypeConverter_validate (List.map (validate rt) (validated_nested c)).
Proof.
  destruct c as [cls type_info cc languages ci nested].
  unfold validated_nested, unresolvable.
  cbn [converter_class converter_type_info converter_nested].
  destruct cls; cbn [validate conv_class_eqb]; try reflexivity;
    rewrite ?nested_list_map;
    destruct (nested_is_empty nested) eqn:E;
    try (rewrite (nested_is_empty_list _ E); destruct (homogenous type_info));
    try reflexivity.
  unfold TupleConverter_validate.
  destruct (homogenous type_info); [now rewrite removelast_map | reflexivity].
Qed.

Lemma TypeConverter_validate_ok l :
  TypeConverter_validate l = Ok tt <-> Forall (fun r => r = Ok tt) l.
Proof.
  induction l as [|r l IH]; simpl.
  - split; constructor.
  - destruct r as [[]|e]; simpl.
    + rewrite IH. split; [now constructor | now inversion 1].
    + split; [discriminate | inversion 1; discriminate].
Qed.

Lemma TypeConverter_validate_raise l e :
  TypeConverter_validate l = Raise e -> In (Raise e) l.
Proof.
  induction l as [|r l IH]; simpl; [discriminate|].
  destruct r as [[]|e']; simpl; [auto|]. intros H. left. exact H.
Qed.

Lemma validated_nested_sub c n :
  In n (validated_nested c) -> In n (nested_list (converter_nested c)).
Proof.
  unfold validated_nested.
  destruct (converter_class c); try (intros []; fail); auto.
  destruct (homogenous _); [apply In_removelast | auto].
Qed.

(** X1.  The validation of a converter succeeds exactly when no converter
    that it reaches is the unknown-type sentinel: the converter itself, its
    nested converters and theirs, without the last nested converter of a
    homogenous tuple. *)
Theorem validate_succeeds_without_unknown (rt : Runtime) (c : TypeConverter) :
  validate rt c = Ok tt
  <-> forall d, validation_reaches c d -> unresolvable d = false.
Proof.
  induction c as [cls type_info cc languages ci nested IH]
    using TypeConverter_nested_ind.
  set (c := Converter cls type_info cc languages ci nested) in *.
  assert (IH' : forall n, In n (validated_nested c) ->
                          (validate rt n = Ok tt
                           <-> forall d, validation_reaches n d -> unresolvable d = false)).
  { intros n Hn. apply validated_nested_sub in Hn.
    rewrite Forall_forall in IH. exact (IH n Hn). }
  clearbody c. clear IH.
  rewrite validate_unfold. split.
  - destruct (unresolvable c) eqn:Hc; [discriminate|].
    rewrite TypeConverter_validate_ok, Forall_forall.
    intros Hall d Hd. inversion Hd as [|? n ? Hn Hnd]; subst; [exact Hc|].
    apply (proj1 (IH' n Hn)); [|exact Hnd].
    apply Hall. now apply List.in_map.
  - intros H. rewrite (H c (reaches_self c)).
    rewrite TypeConverter_validate_ok, Forall_forall.
    intros r Hr. apply List.in_map_iff in Hr as (n & <- & Hn).
    apply (IH' n Hn). intros d Hd. apply H. now apply (reaches_nested c n d).
Qed.

(** X2.  The validation raises nothing but the [TypeError] of an
    unknown-type sentinel that it reaches, which names the descriptor of
    that sentinel. *)
Theorem validate_raises_unrecognized (rt : Runtime) (c : TypeConverter) (e : exn) :
  validate rt c = Raise e ->
  exists d, validation_reaches c d /\ unresolvable d = true
            /\ e = OtherError "TypeError"
                     ("Unrecognized type '"
                      ++ type_info_str rt (converter_type_info d) ++ "'.").
Proof.
  revert e.
  induction c as [cls type_info cc languages ci nested IH]
    using TypeConverter_nested_ind.
  intros e.
  set (c := Converter cls type_info cc languages ci nested) in *.
  assert (IH' : forall n, In n (validated_nested c) ->
                          forall e, validate rt n = Raise e ->
                          exists d, validation_reaches n d /\ unresolvable d = true
                                    /\ e = OtherError "TypeError"
                                             ("Unrecognized type '"
                                              ++ type_info_str rt (converter_type_info d)
                                              ++ "'.")).
  { intros n Hn. apply validated_nested_sub in Hn.
    rewrite Forall_forall in IH. exact (IH n Hn). }
  assert (Hname : unresolvable c = true ->
                  type_name rt c = type_info_str rt (converter_type_info c)).
  { unfold c, unresolvable. simpl. destruct cls; try discriminate. reflexivity. }
  clearbody c. clear IH.
  rewrite validate_unfold.
  destruct (unresolvable c) eqn:Hc.
  - intros H. injection H as <-. exists c.
    split; [constructor | split; [exact Hc|]].
    unfold unrecognized. now rewrite Hname.
  - intros H. apply TypeConverter_validate_raise in H.
    apply List.in_map_iff in H as (n & Hn & Hin).
    destruct (IH' n Hin e Hn) as (d & Hd & Hu & He).
    exists d. split; [now apply (reaches_nested c n d) | auto].
Qed.

Lemma validate_raises_unrecognized_witness :
  exists d, validation_reaches Example.int_or_unknown d /\ unresolvable d = true
            /\ OtherError "TypeError" "Unrecognized type 'Unknown'."
               = OtherError "TypeError"
                   ("Unrecognized type '"
                    ++ type_info_str Example.runtime (converter_type_info d) ++ "'.").
Proof.
  exact (validate_raises_unrecognized Example.runtime Example.int_or_unknown _ eq_refl).
Defined.

(* ===================================================================== *)
(** * The tree of converters *)
(* ===================================================================== *)

Lemma resolve_unfold type_info custom_converters :
  resolve type_info custom_converters
  = if is_None (info_type type_info) then ToUnknown
    else match custom_entry custom_converters (info_type type_info) with
         | Some info => ToCustom info
         | None =>
             match Py.lookup (info_type type_info) _converters with
             | Some cls => ToBuiltin cls
             | None =>
                 match List.find (fun converter => handles converter type_info)
                                 registered_classes with
                 | Some cls => ToBuiltin cls
                 | None => ToUnknown
                 end
             end
         end.
Proof. unfold resolve. now rewrite registry_lookup. Qed.

(** The nested converters that [__init__] builds for a class. *)
Lemma converter_for_nested type_info custom_converters languages :
  converter_nested (converter_for type_info custom_converters languages)
  = match resolve type_info custom_converters with
    | ToBuiltin TypedDictConverter =>
        NestedDict
          (List.map (fun item => (fst item,
                                  converter_for (snd item) custom_converters languages))
                    (annotations type_info))
    | ToBuiltin LiteralConverter =>
        match info_nested type_info with
        | [] => NoNested
        | nested =>
            NestedList (List.map (fun info => LiteralConverter_converter_for
                                               info custom_converters languages)
                                 nested)
        end
    | ToBuiltin _ =>
        match info_nested type_info with
        | [] => NoNested
        | nested =>
            NestedList (List.map (fun info => converter_for info custom_converters languages)
                                 nested)
        end
    | ToCustom _ =>
        match info_nested type_info with
        | [] => NoNested
        | nested =>
            NestedList (List.map (fun info => converter_for info None languages) nested)
        end
    | ToUnknown =>
        match info_nested type_info with
        | [] => NoNested
        | nested =>
            NestedList (List.map (fun info => converter_for info None None) nested)
        end
    end.
Proof.
  destruct type_info as [name type nested union typed_dict fields required_fields].
  cbn [converter_for info_nested annotations].
  destruct (resolve _ _) as [|info|cls]; cbn [instantiate converter_nested];
    [| |destruct cls]; destruct nested; reflexivity.
Qed.

Lemma converter_for_nested_list type_info custom_converters languages :
  nested_list (converter_nested (converter_for type_info custom_converters languages))
  = match resolve type_info custom_converters with
    | ToBuiltin TypedDictConverter =>
        List.map (fun item => converter_for (snd item) custom_converters languages)
                 (annotations type_info)
    | ToBuiltin LiteralConverter =>
        List.map (fun info => LiteralConverter_converter_for
                                info custom_converters languages)
                 (info_nested type_info)
    | ToBuiltin _ =>
        List.map (fun info => converter_for info custom_converters languages)
                 (info_nested type_info)
    | ToCustom _ =>
        List.map (fun info => converter_for info None languages) (info_nested type_info)
    | ToUnknown =>
        List.map (fun info => converter_for info None None) (info_nested type_info)
    end.
Proof.
  rewrite converter_for_nested.
  destruct (resolve _ _) as [|info|cls]; [| |destruct cls];
    try (destruct (info_nested type_info); reflexivity).
  simpl. now rewrite List.map_map.
Qed.

Lemma resolve_exact type_info custom_converters cls :
  In cls registered_classes ->
  info_type type_info = class_type cls ->
  custom_entry custom_converters (info_type type_info) = None ->
  resolve type_info custom_converters = ToBuiltin cls.
Proof.
  intros Hin Ht Hc. rewrite resolve_unfold, Hc, Ht. simpl in Hin.
  repeat (destruct Hin as [<- | Hin]; [reflexivity|]). contradiction.
Qed.

Lemma removelast_last {A : Type} (l : list A) (x : A) :
  List.removelast (l ++ [x])%list = l.
Proof.
  induction l as [|y l IH]; simpl; [reflexivity|].
  rewrite IH. destruct l; reflexivity.
Qed.

(** X3.  A homogenous tuple is validated by its descriptors before the
    ellipsis: the converter made for the ellipsis, the last nested one, is
    not validated, so [tuple[T, ...]] is valid exactly when [T] is. *)
Theorem validate_homogenous_tuple (rt : Runtime) (type_info : TypeInfo)
    (items : list TypeInfo) (ellipsis : TypeInfo)
    (custom_converters : option CustomArgumentConverters)
    (languages : option Languages) :
  info_type type_info = VType Py.tuple ->
  custom_entry custom_converters (VType Py.tuple) = None ->
  info_nested type_info = (items ++ [ellipsis])%list ->
  info_type ellipsis = VEllipsis ->
  validate rt (converter_for type_info custom_converters languages)
  = TypeConverter_validate
      (List.map (fun info => validate rt (converter_for info custom_converters languages))
                items).
Proof.
  intros Ht Hc Hn He.
  assert (Hr : resolve type_info custom_converters = ToBuiltin TupleConverter).
  { apply resolve_exact; [simpl; tauto | exact Ht | now rewrite Ht]. }
  pose proof (converter_for_class type_info custom_converters languages) as Hcls.
  pose proof (converter_for_nested_list type_info custom_converters languages) as Hnested.
  pose proof (converter_for_attributes type_info custom_converters languages) as [Hti _].
  rewrite Hr in Hcls, Hnested. rewrite Hn in Hnested.
  set (c := converter_for type_info custom_converters languages) in *.
  rewrite validate_unfold.
  unfold unresolvable, validated_nested. rewrite Hcls, Hti, Hnested.
  cbn [conv_class_eqb].
  assert (Hh : homogenous type_info = true).
  { unfold homogenous. rewrite Hn, List.rev_app_distr. simpl. now rewrite He. }
  rewrite Hh, List.map_app. cbn [List.map].
  rewrite removelast_last, List.map_map. reflexivity.
Qed.

Lemma validate_homogenous_tuple_witness :
  validate Example.runtime
    (converter_for (Example.generic "tuple" Py.tuple
                      [Example.int_info; TypeInfo_new "..." VEllipsis]) None None)
  = Ok tt
  /\ validate Example.runtime
       (converter_for (Example.generic "tuple" Py.tuple
                         [Example.unknown_info; TypeInfo_new "..." VEllipsis]) None None)
     = Raise (OtherError "TypeError" "Unrecognized type 'Unknown'.")
  /\ validate Example.runtime
       (converter_for (Example.generic "list" Py.list_
                         [TypeInfo_new "..." VEllipsis]) None None)
     = Raise (OtherError "TypeError" "Unrecognized type '...'.").
Proof.
  split; [|split].
  - refine (eq_trans
              (validate_homogenous_tuple Example.runtime
                 (Example.generic "tuple" Py.tuple
                    [Example.int_info; TypeInfo_new "..." VEllipsis])
                 [Example.int_info]
                 (TypeInfo_new "..." VEllipsis) None None
                 eq_refl eq_refl eq_refl eq_refl) _).
    reflexivity.
  - refine (eq_trans
              (validate_homogenous_tuple Example.runtime
                 (Example.generic "tuple" Py.tuple
                    [Example.unknown_info; TypeInfo_new "..." VEllipsis])
                 [Example.unknown_info]
                 (TypeInfo_new "..." VEllipsis) None None
                 eq_refl eq_refl eq_refl eq_refl) _).
    reflexivity.
  - reflexivity.
Defined.

(** X4.  A descriptor that [converter_for] cannot resolve gives a
    converter that returns every value as it is, whatever the name and the
    kind, counts as false, and fails the validation with a [TypeError]
    that names the descriptor. *)
Theorem unresolved_descriptor_passes_values (rt : Runtime) (type_info : TypeInfo)
    (custom_converters : option CustomArgumentConverters)
    (languages : option Languages) :
  let c := converter_for type_info custom_converters languages in
  converter_class c = UnknownConverter ->
  (forall value name kind, convert rt c value name kind = Ok value)
  /\ converter_bool rt c = false
  /\ validate rt c
     = Raise (OtherError "TypeError"
                ("Unrecognized type '" ++ type_info_str rt type_info ++ "'.")).
Proof.
  cbv zeta.
  pose proof (converter_for_attributes type_info custom_converters languages) as [Hti _].
  set (c := converter_for type_info custom_converters languages) in *.
  clearbody c. destruct c as [cls ti cc l ci nested]. simpl in Hti. subst ti.
  simpl. intros ->. repeat split.
Qed.

Lemma unresolved_descriptor_passes_values_witness :
  convert Example.runtime (converter_for Example.unknown_info None None)
          (VStr "x") VNone "Argument" = Ok (VStr "x")
  /\ validate Example.runtime
       (converter_for (Example.info "Money" Example.Money) None None)
     = Raise (OtherError "TypeError" "Unrecognized type 'Money'.").
Proof.
  split.
  - destruct (unresolved_descriptor_passes_values
                Example.runtime Example.unknown_info None None eq_refl) as (H & _).
    apply H.
  - destruct (unresolved_descriptor_passes_values
                Example.runtime (Example.info "Money" Example.Money) None None eq_refl)
      as (_ & _ & H).
    refine (eq_trans H _). reflexivity.
Defined.

(* ===================================================================== *)
(** * More on the base conversion contract *)
(* ===================================================================== *)

Lemma unresolvable_class c :
  unresolvable c = false -> converter_class c <> UnknownConverter.
Proof. unfold unresolvable. intros H E. rewrite E in H. discriminate. Qed.

Lemma unresolvable_convert rt c value name kind :
  unresolvable c = true -> convert rt c value name kind = Ok value.
Proof.
  destruct c as [cls type_info cc languages ci nested]. unfold unresolvable. simpl.
  destruct cls; try discriminate. reflexivity.
Qed.

(** [_handles_value] raises no [ValueError]. *)
Lemma handles_value_raises c value e :
  _handles_value c value = Raise e -> exists cls msg, e = OtherError cls msg.
Proof.
  destruct c as [cls type_info cc languages ci nested].
  unfold _handles_value, handles_value_of. simpl.
  destruct cls; try discriminate.
  - unfold EnumConverter_handles_value.
    destruct (info_type type_info); try (intros H; injection H as <-; eauto).
    destruct (is_class t); [discriminate|]. intros H; injection H as <-; eauto.
  - unfold CustomConverter_handles_value. destruct ci; [discriminate|].
    intros H; injection H as <-; eauto.
Qed.



(** X6.  Every [ValueError] that leaves [convert] carries the message
    made by [_handle_error] for the value, the name and the kind of this
    very call: no bare [ValueError] and no [ValueError] of a nested step
    gets out as it is. *)
Theorem convert_value_error_is_formatted
    (rt : Runtime) (c : TypeConverter) (value name : object) (kind : string)
    (args : option string) :
  convert rt c value name kind = Raise (ValueError args) ->
  exists error,
    args = Some (_handle_error rt (type_name rt c) value name kind error).
Proof.
  destruct (unresolvable c) eqn:Hc.
  - rewrite (unresolvable_convert rt c value name kind Hc). discriminate.
  - rewrite (convert_unfold rt c value name kind (unresolvable_class c Hc)).
    unfold TypeConverter_convert.
    destruct (no_conversion_needed rt c value); [discriminate|].
    destruct (_handles_value c value) as [handled|e] eqn:Hh; cbn [bind].
    + destruct handled; cbn [negb].
      * destruct (if negb (Py.is_str value)
                  then _non_string_convert rt c value else _convert rt c value)
          as [converted|[error|cls msg]]; [discriminate| |discriminate].
        intros H. injection H as <-. eauto.
      * intros H. injection H as <-. eauto.
    + apply handles_value_raises in Hh as (cls & msg & ->). discriminate.
Qed.

Lemma convert_value_error_is_formatted_witness :
  exists error,
    Some "Argument 'x' cannot be converted to integer."
    = Some (_handle_error Example.runtime (type_name Example.runtime Example.integer)
              (VStr "x") VNone "Argument" error).
Proof.
  exact (convert_value_error_is_formatted
           Example.runtime Example.integer (VStr "x") VNone "Argument" _ eq_refl).
Defined.

(** X7.  A union converter returns a value as it is as soon as one of its
    nested converters needs no conversion for it, wherever that converter
    stands in the union: no converter before it is tried.  So text given
    to [Union[int, str]] stays text. *)
Theorem union_keeps_accepted_value
    (rt : Runtime) (c n : TypeConverter) (value name : object) (kind : string) :
  converter_class c = UnionConverter ->
  In n (nested_list (converter_nested c)) ->
  no_conversion_needed rt n value = true ->
  no_conversion_needed rt c value = true
  /\ convert rt c value name kind = Ok value.
Proof.
  intros Hcls Hin Hn.
  assert (Hno : no_conversion_needed rt c value = true).
  { destruct c as [cls type_info cc languages ci nested]. simpl in Hcls. subst cls.
    unfold no_conversion_needed. simpl.
    unfold UnionConverter_no_conversion_needed.
    apply List.existsb_exists. exists (methods rt n). split; [|exact Hn].
    simpl in Hin. destruct nested as [|l|d]; simpl in *; [contradiction| |].
    - now apply List.in_map.
    - rewrite List.map_map. apply List.in_map_iff in Hin as (item & <- & Hitem).
      apply List.in_map_iff. exists item. split; [reflexivity | exact Hitem]. }
  split; [exact Hno|].
  rewrite convert_unfold by (rewrite Hcls; discriminate).
  unfold TypeConverter_convert. now rewrite Hno.
Qed.

Lemma union_keeps_accepted_value_witness :
  convert Example.runtime
    (converter_for (Example.union [Example.int_info; Example.info "str" Py.str]) None None)
    (VStr "5") VNone "Argument"
  = Ok (VStr "5")
  /\ convert Example.runtime Example.integer (VStr "5") VNone "Argument" = Ok (VInt 5).
Proof.
  split; [|reflexivity].
  apply (union_keeps_accepted_value Example.runtime
           (converter_for (Example.union [Example.int_info; Example.info "str" Py.str])
                          None None)
           (converter_for (Example.info "str" Py.str) None None)).
  - reflexivity.
  - simpl. right. left. reflexivity.
  - reflexivity.
Defined.

(** X8.  The container converters never take text as it is, also when
    the declared type is one that text is an instance of (text is a
    sequence and a container): text always goes to [_convert], and a
    [ValueError] of it comes back formatted. *)
Theorem containers_always_convert_text
    (rt : Runtime) (c : TypeConverter) (text : string) (name : object) (kind : string) :
  evaluates_literals (converter_class c) = true ->
  no_conversion_needed rt c (VStr text) = false
  /\ convert rt c (VStr text) name kind
     = match _convert rt c (VStr text) with
       | Ok converted => Ok converted
       | Raise (ValueError error) =>
           Raise (conversion_error rt c (VStr text) name kind error)
       | Raise e => Raise e
       end.
Proof.
  intros Hcls.
  assert (Hno : no_conversion_needed rt c (VStr text) = false).
  { destruct c as [cls type_info cc languages ci nested]. simpl in Hcls.
    unfold no_conversion_needed. simpl.
    destruct cls; try discriminate; reflexivity. }
  split; [exact Hno|].
  rewrite convert_unfold by (intros E; rewrite E in Hcls; discriminate).
  unfold TypeConverter_convert. rewrite Hno.
  assert (Hh : _handles_value c (VStr text) = Ok true).
  { destruct c as [cls type_info cc languages ci nested]. simpl in Hcls.
    unfold _handles_value. simpl. destruct cls; try discriminate; reflexivity. }
  rewrite Hh. cbn [bind negb Py.is_str]. unfold conversion_error.
  destruct (_convert rt c (VStr text)) as [converted|[error|cls msg]]; reflexivity.
Qed.

Lemma containers_always_convert_text_witness :
  no_conversion_needed Example.runtime
    (converter_for (Example.info "Sequence" Py.Sequence) None None) (VStr "abc")
  = false
  /\ converter_class (converter_for (Example.info "Sequence" Py.Sequence) None None)
     = ListConverter.
Proof.
  split; [|reflexivity].
  apply (containers_always_convert_text Example.runtime
           (converter_for (Example.info "Sequence" Py.Sequence) None None)
           "abc" VNone "Argument" eq_refl).
Defined.

(** X9.  The integer converter for [int] is idempotent: whatever it
    returns is an integer that needs no conversion, so converting the
    result again returns it unchanged. *)
Theorem integer_conversion_is_idempotent
    (rt : Runtime) (c : TypeConverter) (value name : object) (kind : string)
    (converted : object) :
  converter_class c = IntegerConverter ->
  info_type (converter_type_info c) = VType Py.int ->
  convert rt c value name kind = Ok converted ->
  Py.isinstance converted (VType Py.int) = Some true
  /\ forall name' kind', convert rt c converted name' kind' = Ok converted.
Proof.
  intros Hcls Ht Hconv.
  assert (Hno : forall v, no_conversion_needed rt c v
                          = Py.issubclass (Py.type_of v) Py.int).
  { intros v. destruct c as [cls type_info cc languages ci nested].
    simpl in Hcls, Ht. subst cls. unfold no_conversion_needed. simpl.
    unfold TypeConverter_no_conversion_needed. rewrite Ht. reflexivity. }
  assert (Hint : Py.issubclass (Py.type_of converted) Py.int = true).
  { rewrite convert_unfold in Hconv by (rewrite Hcls; discriminate).
    unfold TypeConverter_convert in Hconv. rewrite Hno in Hconv.
    destruct (Py.issubclass (Py.type_of value) Py.int) eqn:Hv.
    { injection Hconv as <-. exact Hv. }
    destruct (_handles_value c value) as [[|]|e]; cbn [bind negb] in Hconv;
      try discriminate.
    destruct (if negb (Py.is_str value)
              then _non_string_convert rt c value else _convert rt c value)
      as [r|[error|ecls msg]] eqn:Hr; try discriminate.
    injection Hconv as ->.
    destruct c as [cls type_info cc languages ci nested]. simpl in Hcls. subst cls.
    unfold _non_string_convert, _convert in Hr.
    cbn [_non_string_convert_of _convert_of] in Hr.
    destruct (Py.is_str value); cbn [negb] in Hr.
    - unfold IntegerConverter_convert in Hr.
      destruct (as_text value) as [text|e]; cbn [bind] in Hr; [|discriminate].
      destruct (_get_base (remove_separators_text text)) as [digits base].
      destruct (PyNum.int_of_text digits base) as [n|].
      + injection Hr as <-. reflexivity.
      + destruct (base =? 10)%Z; [|discriminate].
        destruct (decimal_as_integer_ratio rt digits) as [[numerator denominator]|];
          [|discriminate].
        destruct (negb (denominator =? 1)%Z); [discriminate|].
        injection Hr as <-. reflexivity.
    - unfold IntegerConverter_non_string_convert in Hr.
      destruct value; try discriminate.
      destruct (PyNum.is_integer f); [|discriminate].
      injection Hr as <-. reflexivity. }
  split.
  - unfold Py.isinstance, Py.isinstance_type. simpl. now rewrite Hint.
  - intros name' kind'.
    rewrite convert_unfold by (rewrite Hcls; discriminate).
    unfold TypeConverter_convert. now rewrite Hno, Hint.
Qed.

Lemma integer_conversion_is_idempotent_witness :
  Py.isinstance (VInt 16) (VType Py.int) = Some true
  /\ forall name' kind',
       convert Example.runtime Example.integer (VInt 16) name' kind' = Ok (VInt 16).
Proof.
  exact (integer_conversion_is_idempotent Example.runtime Example.integer
           (VStr "0x10") VNone "Argument" (VInt 16) eq_refl eq_refl eq_refl).
Defined.

(* ===================================================================== *)
(** * The tree of nested converters *)
(* ===================================================================== *)

Lemma instantiate_type_info r type_info custom_converters languages get_nested :
  converter_type_info (instantiate r type_info custom_converters languages get_nested)
  = type_info.
Proof. destruct r; reflexivity. Qed.

Lemma map_type_info_converter_for (infos : list TypeInfo) custom_converters languages :
  List.map (fun info => converter_type_info (converter_for info custom_converters languages))
           infos
  = infos.
Proof.
  induction infos as [|info infos IH]; simpl; [reflexivity|].
  rewrite IH.
  now rewrite (proj1 (converter_for_attributes info custom_converters languages)).
Qed.

(** X10.  The tree of converters mirrors the tree of descriptors: the
    nested converters of a converter stand, in order, for the nested
    descriptors of its descriptor; those of a record converter for the
    fields in declaration order, under their names; and those of a literal
    converter for descriptors that keep the name of each constant and
    have the type of the constant as their type. *)
Theorem nested_converters_mirror_descriptor (type_info : TypeInfo)
    (custom_converters : option CustomArgumentConverters)
    (languages : option Languages) :
  let c := converter_for type_info custom_converters languages in
  let nested := nested_list (converter_nested c) in
  match converter_class c with
  | TypedDictConverter =>
      nested_keys (converter_nested c) = List.map fst (annotations type_info)
      /\ List.map converter_type_info nested = List.map snd (annotations type_info)
  | LiteralConverter =>
      List.map converter_type_info nested
      = List.map (fun info => TypeInfo_new (info_name info)
                                           (VType (Py.type_of (info_type info))))
                 (info_nested type_info)
  | _ => List.map converter_type_info nested = info_nested type_info
  end.
Proof.
  cbv zeta.
  rewrite converter_for_nested_list, converter_for_class.
  pose proof (converter_for_nested type_info custom_converters languages) as Hn.
  destruct (resolve type_info custom_converters) as [|info|cls];
    [| |destruct cls]; rewrite ?List.map_map;
    try apply map_type_info_converter_for.
  - rewrite Hn. simpl. rewrite !List.map_map. simpl. split; [reflexivity|].
    rewrite <- (List.map_map snd
                  (fun info => converter_type_info
                                 (converter_for info custom_converters languages))).
    apply map_type_info_converter_for.
  - apply List.map_ext. intros info. unfold LiteralConverter_converter_for.
    apply instantiate_type_info.
Qed.

Lemma lookup_In {A : Type} (k : object) (d : list (object * A)) (a : A) :
  Py.lookup k d = Some a -> In a (List.map snd d).
Proof.
  induction d as [|[k' a'] d IH]; simpl; [discriminate|].
  destruct (Py.eq k k'); [intros H; injection H as <-; now left | auto].
Qed.

(** Without a registry the resolution gives a registered class or the
    sentinel. *)
Lemma resolve_without_registry type_info :
  match resolve type_info None with
  | ToCustom _ => False
  | ToBuiltin cls => In cls registered_classes
  | ToUnknown => True
  end.
Proof.
  rewrite resolve_unfold. cbn [custom_entry].
  destruct (is_None (info_type type_info)); [exact I|].
  destruct (Py.lookup (info_type type_info) _converters) as [cls|] eqn:E.
  - apply lookup_In in E. exact E.
  - destruct (List.find _ registered_classes) as [cls|] eqn:F; [|exact I].
    now apply List.find_some in F.
Qed.

Lemma converter_for_without_registry type_info languages :
  converter_class (converter_for type_info None languages) <> CustomConverter.
Proof.
  rewrite converter_for_class.
  pose proof (resolve_without_registry type_info) as H.
  destruct (resolve type_info None) as [|info|cls]; [discriminate | contradiction|].
  intros ->. simpl in H. repeat (destruct H as [H | H]; [discriminate|]). exact H.
Qed.

(** X11.  The custom converters do not reach below a custom converter:
    the nested descriptors of a descriptor that resolves to a custom
    converter are resolved without the registry, so none of its nested
    converters is a custom converter, whatever the registry holds. *)
Theorem custom_converter_drops_registry (type_info : TypeInfo)
    (custom_converters : option CustomArgumentConverters)
    (languages : option Languages) (info : ConverterInfo) :
  info_type type_info <> VNone ->
  custom_entry custom_converters (info_type type_info) = Some info ->
  let c := converter_for type_info custom_converters languages in
  nested_list (converter_nested c)
  = List.map (fun nested => converter_for nested None languages) (info_nested type_info)
  /\ forall n, In n (nested_list (converter_nested c)) ->
               converter_class n <> CustomConverter
               /\ converter_custom_converters n = None.
Proof.
  intros Hn Hc. cbv zeta.
  assert (Hr : resolve type_info custom_converters = ToCustom info).
  { now rewrite resolve_unfold, (is_None_false _ Hn), Hc. }
  rewrite converter_for_nested_list, Hr.
  split; [reflexivity|].
  intros n Hin. apply List.in_map_iff in Hin as (nested & <- & _).
  split; [apply converter_for_without_registry|].
  pose proof (converter_for_attributes nested None languages) as [_ H].
  pose proof (resolve_without_registry nested) as Hw.
  destruct (resolve nested None); [apply H | contradiction | apply H].
Qed.

Lemma custom_converter_drops_registry_witness :
  List.map converter_class
    (nested_list
       (converter_nested
          (converter_for (Example.generic "MyList" Example.MyList [Example.int_info])
                         (Some Example.lists_and_ints) None)))
  = [IntegerConverter]
  /\ List.map converter_class
       (nested_list
          (converter_nested
             (converter_for (Example.generic "list" Py.list_ [Example.int_info])
                            (Some Example.lists_and_ints) None)))
     = [CustomConverter].
Proof.
  split; [|reflexivity].
  destruct (custom_converter_drops_registry
              (Example.generic "MyList" Example.MyList [Example.int_info])
              (Some Example.lists_and_ints) None Example.my_list
              ltac:(discriminate) eq_refl) as [H _].
  refine (eq_trans (f_equal (List.map converter_class) H) _). reflexivity.
Defined.

(** X12.  A class that is an enumeration resolves to the enumeration
    converter whatever else it is a subclass of, since [EnumConverter] is
    the first class registered: an enumeration that is also an [int] is
    not given to the integer converter. *)
Theorem enumerations_resolve_to_enum_converter (type_info : TypeInfo) (enum : pytype)
    (custom_converters : option CustomArgumentConverters)
    (languages : option Languages) :
  info_type type_info = VType enum ->
  is_class enum = true ->
  Py.issubclass enum Py.Enum = true ->
  custom_entry custom_converters (VType enum) = None ->
  Py.lookup (VType enum) _converters = None ->
  converter_class (converter_for type_info custom_converters languages) = EnumConverter.
Proof.
  intros Ht Hclass Hsub Hc Hl.
  rewrite converter_for_class, resolve_unfold, Ht, Hc, Hl.
  cbn [is_None registered_classes List.find].
  assert (Hh : handles EnumConverter type_info = true).
  { unfold handles. rewrite Ht. cbn [class_type]. now rewrite Hclass, Hsub. }
  now rewrite Hh.
Qed.

Lemma enumerations_resolve_to_enum_converter_witness :
  converter_class Example.level = EnumConverter
  /\ handles IntegerConverter (Example.info "Level" Example.Level) = true.
Proof.
  split; [|reflexivity].
  exact (enumerations_resolve_to_enum_converter
           (Example.info "Level" Example.Level) Example.Level None None
           eq_refl eq_refl eq_refl eq_refl eq_refl).
Defined.

(* ===================================================================== *)
(** * Sequences converted item by item *)
(* ===================================================================== *)

Lemma traverse_enumerate_nth {A B : Type} (f : nat * A -> result B) (l : list A)
    (n : nat) (rs : list B) :
  traverse f (enumerate_from n l) = Ok rs ->
  List.length rs = List.length l
  /\ forall i x, List.nth_error l i = Some x ->
                 exists y, List.nth_error rs i = Some y /\ f (n + i, x) = Ok y.
Proof.
  revert n rs. induction l as [|a l IH]; intros n rs; simpl.
  - intros H. injection H as <-. split; [reflexivity|].
    intros [|i] x; discriminate.
  - destruct (f (n, a)) as [y|e] eqn:Hy; simpl; [|discriminate].
    destruct (traverse f (enumerate_from (S n) l)) as [ys|e] eqn:Hl; simpl;
      [|discriminate].
    intros H. injection H as <-.
    destruct (IH (S n) ys Hl) as [Hlen Hnth].
    split; [simpl; now rewrite Hlen|].
    intros [|i] x; simpl.
    + intros H. injection H as <-. exists y. now rewrite Nat.add_0_r.
    + intros H. destruct (Hnth i x H) as (z & Hz & Hf).
      exists z. split; [exact Hz|]. now rewrite Nat.add_succ_r.
Qed.

Lemma traverse_enumerate_all {A B : Type} (f : nat * A -> result B) (l : list A)
    (n : nat) :
  (forall i x, List.nth_error l i = Some x -> exists y, f (n + i, x) = Ok y) ->
  exists rs, traverse f (enumerate_from n l) = Ok rs.
Proof.
  revert n. induction l as [|a l IH]; intros n H; simpl.
  - eauto.
  - destruct (H 0 a eq_refl) as [y Hy]. rewrite Nat.add_0_r in Hy. rewrite Hy. simpl.
    destruct (IH (S n)) as [ys Hys].
    { intros i x Hx. destruct (H (S i) x Hx) as [z Hz].
      exists z. now rewrite Nat.add_succ_r in Hz. }
    rewrite Hys. simpl. eauto.
Qed.

(** The comprehension of the list converter and of the homogenous tuple
    converter, in terms of the items and of their positions. *)
Lemma items_converted_in_order rt (converter : TypeConverter) (items : list object) :
  (forall converted,
      traverse (convert_item (methods rt converter)) (enumerate items) = Ok converted ->
      List.length converted = List.length items
      /\ forall i v, List.nth_error items i = Some v ->
                     exists y, List.nth_error converted i = Some y
                               /\ convert rt converter v (VStr (PyStr.of_nat i)) "Item"
                                  = Ok y)
  /\ ((forall i v, List.nth_error items i = Some v ->
                   exists y, convert rt converter v (VStr (PyStr.of_nat i)) "Item"
                             = Ok y) ->
      exists converted,
        traverse (convert_item (methods rt converter)) (enumerate items) = Ok converted).
Proof.
  split.
  - intros converted H. apply traverse_enumerate_nth in H. exact H.
  - intros H. apply traverse_enumerate_all. exact H.
Qed.

(** X13.  The list converter with a nested converter converts the items
    in place: on success the result is a list of the same length whose
    item at each position is the item of the value at that position
    converted by the first nested converter under the position as its
    name; and it succeeds as soon as every item converts so. *)
Theorem list_items_converted_in_order
    (rt : Runtime) (c converter : TypeConverter) (others : list TypeConverter)
    (value : object) :
  converter_nested c = NestedList (converter :: others) ->
  (forall r, list_convert_items rt c value = Ok r ->
     exists items,
       r = VList items
       /\ List.length items = List.length (Py.items value)
       /\ forall i v, List.nth_error (Py.items value) i = Some v ->
                      exists y, List.nth_error items i = Some y
                                /\ convert rt converter v (VStr (PyStr.of_nat i)) "Item"
                                   = Ok y)
  /\ ((forall i v, List.nth_error (Py.items value) i = Some v ->
                   exists y, convert rt converter v (VStr (PyStr.of_nat i)) "Item"
                             = Ok y) ->
      exists items, list_convert_items rt c value = Ok (VList items)).
Proof.
  intros Hn. unfold list_convert_items, ListConverter_convert_items. rewrite Hn.
  cbn [nested_map nested_is_empty nested_list List.map].
  destruct (items_converted_in_order rt converter (Py.items value)) as [Hsound Hall].
  split.
  - intros r.
    destruct (traverse _ _) as [items|e]; cbn [bind]; [|discriminate].
    intros H. injection H as <-. exists items. split; [reflexivity|].
    apply Hsound. reflexivity.
  - intros H. destruct (Hall H) as [items Hitems]. rewrite Hitems. cbn [bind]. eauto.
Qed.

Lemma list_items_converted_in_order_witness :
  exists items,
    VList [VInt 1; VInt 16] = VList items
    /\ List.length items = 2
    /\ forall i v, List.nth_error [VStr "1"; VStr "0x10"] i = Some v ->
                   exists y, List.nth_error items i = Some y
                             /\ convert Example.runtime Example.integer v
                                        (VStr (PyStr.of_nat i)) "Item" = Ok y.
Proof.
  destruct (list_items_converted_in_order Example.runtime Example.int_list
              Example.integer [] (VList [VStr "1"; VStr "0x10"]) eq_refl) as [H _].
  exact (H (VList [VInt 1; VInt 16]) eq_refl).
Defined.

(** X14.  A homogenous tuple converter takes a value of any length, the
    empty one included, and converts every item by its first nested
    converter under the position of the item; the converter made for the
    ellipsis is never used, and the result is a tuple of the same
    length. *)
Theorem homogenous_tuple_items_converted
    (rt : Runtime) (c converter : TypeConverter) (others : list TypeConverter)
    (value : object) :
  converter_nested c = NestedList (converter :: others) ->
  homogenous (converter_type_info c) = true ->
  (forall r, tuple_convert_items rt c value = Ok r ->
     exists items,
       r = VTuple items
       /\ List.length items = List.length (Py.items value)
       /\ forall i v, List.nth_error (Py.items value) i = Some v ->
                      exists y, List.nth_error items i = Some y
                                /\ convert rt converter v (VStr (PyStr.of_nat i)) "Item"
                                   = Ok y)
  /\ ((forall i v, List.nth_error (Py.items value) i = Some v ->
                   exists y, convert rt converter v (VStr (PyStr.of_nat i)) "Item"
                             = Ok y) ->
      exists items, tuple_convert_items rt c value = Ok (VTuple items)).
Proof.
  intros Hn Hh. unfold tuple_convert_items, TupleConverter_convert_items.
  rewrite Hn, Hh.
  cbn [nested_map nested_is_empty nested_list List.map].
  destruct (items_converted_in_order rt converter (Py.items value)) as [Hsound Hall].
  split.
  - intros r.
    destruct (traverse _ _) as [items|e]; cbn [bind]; [|discriminate].
    intros H. injection H as <-. exists items. split; [reflexivity|].
    apply Hsound. reflexivity.
  - intros H. destruct (Hall H) as [items Hitems]. rewrite Hitems. cbn [bind]. eauto.
Qed.

Lemma homogenous_tuple_items_converted_witness :
  (exists items,
     tuple_convert_items Example.runtime Example.int_tuple (VTuple []) = Ok (VTuple items))
  /\ exists items,
       VTuple [VInt 1; VInt 2; VInt 3] = VTuple items
       /\ List.length items = 3
       /\ forall i v, List.nth_error [VStr "1"; VStr "2"; VStr "3"] i = Some v ->
                      exists y, List.nth_error items i = Some y
                                /\ convert Example.runtime Example.integer v
                                           (VStr (PyStr.of_nat i)) "Item" = Ok y.
Proof.
  split.
  - destruct (homogenous_tuple_items_converted Example.runtime Example.int_tuple
                Example.integer [converter_for Example.ellipsis_info None None]
                (VTuple []) eq_refl eq_refl) as [_ H].
    apply H. intros [|i] v; discriminate.
  - destruct (homogenous_tuple_items_converted Example.runtime Example.int_tuple
                Example.integer [converter_for Example.ellipsis_info None None]
                (VTuple [VStr "1"; VStr "2"; VStr "3"]) eq_refl eq_refl) as [H _].
    exact (H (VTuple [VInt 1; VInt 2; VInt 3]) eq_refl).
Defined.

(** X15.  For a value that is not text, the list, tuple, set and
    frozenset converters return a container of their own kind, whatever
    sequence or container they were given and whether or not they have
    nested converters: a list given to the tuple converter comes back as a
    tuple. *)
Theorem non_string_convert_builds_own_container
    (rt : Runtime) (c : TypeConverter) (value r : object) :
  _non_string_convert rt c value = Ok r ->
  built_container (converter_class c) r.
Proof.
  destruct c as [cls type_info cc languages ci nested].
  unfold _non_string_convert. cbn [converter_class].
  destruct cls; try exact (fun _ => I); cbn [_non_string_convert_of built_container].
  - unfold ListConverter_non_string_convert, ListConverter_convert_items.
    destruct (nested_is_empty _); [intros H; injection H as <-; eauto|].
    destruct (nested_list _) as [|converter others];
      [intros H; injection H as <-; eauto|].
    destruct (traverse _ _) as [items|e]; cbn [bind]; [|discriminate].
    intros H; injection H as <-; eauto.
  - unfold TupleConverter_non_string_convert, TupleConverter_convert_items.
    destruct (nested_is_empty _); [intros H; injection H as <-; eauto|].
    destruct (homogenous type_info).
    + destruct (nested_list _) as [|converter others];
        [intros H; injection H as <-; eauto|].
      destruct (traverse _ _) as [items|e]; cbn [bind]; [|discriminate].
      intros H; injection H as <-; eauto.
    + destruct (negb _); [discriminate|].
      destruct (traverse _ _) as [items|e]; cbn [bind]; [|discriminate].
      intros H; injection H as <-; eauto.
  - unfold SetConverter_non_string_convert, py_set, SetConverter_convert_items.
    destruct (List.forallb _ _); cbn [bind]; [|discriminate].
    destruct (nested_is_empty _); [intros H; injection H as <-; eauto|].
    destruct (nested_list _) as [|converter others];
      [intros H; injection H as <-; eauto|].
    destruct (set_comprehension _ _ _) as [items|e]; cbn [bind]; [|discriminate].
    intros H; injection H as <-; eauto.
  - unfold FrozenSetConverter_non_string_convert.
    destruct (SetConverter_non_string_convert _ _) as [converted|e]; cbn [bind];
      [|discriminate].
    intros H; injection H as <-. unfold py_frozenset. destruct converted; eauto.
Qed.

Lemma non_string_convert_builds_own_container_witness :
  exists items, VTuple [VInt 1; VInt 2] = VTuple items.
Proof.
  exact (non_string_convert_builds_own_container Example.runtime
           (converter_for (Example.info "tuple" Py.tuple) None None)
           (VList [VInt 1; VInt 2]) (VTuple [VInt 1; VInt 2]) eq_refl).
Defined.

(* ===================================================================== *)
(** * The record converter *)
(* ===================================================================== *)

Lemma setitem_keys {A : Type} (k : object) (a x : A) (d : list (object * A)) :
  Py.lookup k d = Some x ->
  List.map fst (Py.setitem k a d) = List.map fst d.
Proof.
  induction d as [|[k' a'] d IH]; simpl; [discriminate|].
  destruct (Py.eq k k'); simpl; [reflexivity|].
  intros H. now rewrite IH.
Qed.

Lemma convert_fields_keys rt nested keys entries not_allowed :
  List.map fst (fst (convert_fields rt nested keys entries not_allowed))
  = List.map fst entries.
Proof.
  revert entries not_allowed.
  induction keys as [|key keys IH]; intros entries not_allowed; simpl; [reflexivity|].
  destruct (nested_getitem nested key) as [converter|]; [|apply IH].
  destruct (m_bool converter); [|apply IH].
  destruct (Py.lookup key entries) as [item|] eqn:Hitem; [|reflexivity].
  destruct (m_convert converter item key "Item") as [converted|e]; [|reflexivity].
  rewrite IH. now apply (setitem_keys key converted item).
Qed.

(** The keys that the loop of the record converter collects are the keys
    without a nested converter, in the order of the iteration. *)
Lemma convert_fields_not_allowed rt nested keys entries not_allowed entries' collected :
  convert_fields rt nested keys entries not_allowed = (entries', Ok collected) ->
  collected
  = (not_allowed
     ++ List.filter (fun key => match nested_getitem nested key with
                                | None => true
                                | Some _ => false
                                end) keys)%list.
Proof.
  revert entries not_allowed.
  induction keys as [|key keys IH]; intros entries not_allowed; simpl.
  - intros H. injection H as _ <-. now rewrite List.app_nil_r.
  - destruct (nested_getitem nested key) as [converter|].
    + destruct (m_bool converter); [|apply IH].
      destruct (Py.lookup key entries) as [item|]; [|discriminate].
      destruct (m_convert converter item key "Item") as [converted|e]; [|discriminate].
      apply IH.
    + intros H. apply IH in H. now rewrite <- List.app_assoc in H.
Qed.

Lemma filter_none {A : Type} (p : A -> bool) (l : list A) :
  List.filter p l = [] -> forall x, In x l -> p x = false.
Proof.
  induction l as [|y l IH]; simpl; [intros _ x []|].
  destruct (p y) eqn:Hy; [discriminate|].
  intros H x [<- | Hin]; auto.
Qed.

(** X16.  The record converter converts the values of a mapping in
    place without touching its keys: whether the conversion succeeds or
    fails, the mapping is left with the keys it had, in their order. *)
Theorem typed_dict_keeps_keys (rt : Runtime) (c : TypeConverter) (value : object) :
  List.map fst (fst (typed_dict_convert_items rt c value))
  = List.map fst (Py.entries value).
Proof.
  unfold typed_dict_convert_items, TypedDictConverter_convert_items.
  pose proof (convert_fields_keys rt (nested_map (methods rt) (converter_nested c))
                (Py.items value) (Py.entries value) []) as H.
  destruct (convert_fields _ _ _ _ _) as [entries [not_allowed|e]]; exact H.
Qed.

(** X17.  A conversion by the record converter that succeeds vouches for
    the mapping: every key of the mapping is a declared field, every
    required field is among the keys, and the result is the mapping
    itself with the values it was left with. *)
Theorem typed_dict_success_is_sound
    (rt : Runtime) (c : TypeConverter) (d : list (object * object)) (r : object) :
  snd (typed_dict_convert_items rt c (VDict d)) = Ok r ->
  r = VDict (fst (typed_dict_convert_items rt c (VDict d)))
  /\ (forall key, In key (List.map fst d) ->
                  exists converter, nested_getitem (converter_nested c) key = Some converter)
  /\ (forall name, In name (required (converter_type_info c)) ->
                   Py.mem (VStr name) (List.map fst d) = true).
Proof.
  pose proof (convert_fields_keys rt (nested_map (methods rt) (converter_nested c))
                (List.map fst d) d []) as Hkeys.
  unfold typed_dict_convert_items, TypedDictConverter_convert_items.
  cbn [Py.items Py.entries].
  destruct (convert_fields _ _ _ _ _) as [entries [not_allowed|e]] eqn:Hcf;
    cbn [fst snd] in *; [|discriminate].
  apply convert_fields_not_allowed in Hcf. cbn [List.app] in Hcf.
  destruct not_allowed as [|key not_allowed].
  - destruct (List.filter _ (required (converter_type_info c))) eqn:Hmissing;
      [|discriminate].
    intros H. injection H as <-. split; [reflexivity|]. split.
    + intros key Hkey.
      pose proof (filter_none _ _ (eq_sym Hcf) key Hkey) as Hdeclared.
      cbn beta in Hdeclared. rewrite nested_getitem_map in Hdeclared.
      destruct (nested_getitem (converter_nested c) key) as [converter|];
        [eauto | discriminate].
    + intros name Hname.
      pose proof (filter_none _ _ Hmissing name Hname) as Hpresent.
      cbn beta in Hpresent. rewrite Hkeys in Hpresent.
      now destruct (Py.mem (VStr name) (List.map fst d)).
  - destruct (py_sorted rt (key :: not_allowed)) as [sorted_keys|e]; cbn [bind];
      discriminate.
Qed.

Lemma typed_dict_success_is_sound_witness :
  VDict [(VStr "x", VInt 1)]
  = VDict (fst (typed_dict_convert_items Example.runtime Example.point
                  (VDict [(VStr "x", VStr "1")])))
  /\ (forall key, In key [VStr "x"] ->
                  exists converter,
                    nested_getitem (converter_nested Example.point) key = Some converter)
  /\ (forall name, In name ["x"] -> Py.mem (VStr name) [VStr "x"] = true).
Proof.
  exact (typed_dict_success_is_sound Example.runtime Example.point
           [(VStr "x", VStr "1")] (VDict [(VStr "x", VInt 1)]) eq_refl).
Defined.

(* ===================================================================== *)
(** * Evaluated literals and enumeration members *)
(* ===================================================================== *)

(** X18.  What [_literal_eval] returns is an instance of the expected
    type, and every [ValueError] it raises carries a message: that the
    expression is invalid, that its evaluation failed, or that the value
    is of another type than the expected one. *)
Theorem literal_eval_result_is_expected
    (rt : Runtime) (text : string) (expected : pytype) :
  (forall v, _literal_eval rt text expected = Ok v ->
             Py.issubclass (Py.type_of v) expected = true)
  /\ (forall args, _literal_eval rt text expected = Raise (ValueError args) ->
        args = Some "Invalid expression."
        \/ (exists err, literal_eval rt text = Raise (OtherError "TypeError" err)
                        /\ args = Some ("Evaluating expression failed: " ++ err))
        \/ (exists v, literal_eval rt text = Ok v
                      /\ Py.issubclass (Py.type_of v) expected = false
                      /\ args = Some ("Value is " ++ rt_type_name rt v ++ ", not "
                                      ++ tname expected ++ "."))).
Proof.
  unfold _literal_eval. split.
  - intros v.
    destruct (Py.type_is expected Py.set_ && String.eqb text "set()") eqn:Hset.
    + intros H. injection H as <-.
      apply andb_true_iff in Hset as [Hset _]. unfold Py.type_is in Hset.
      unfold Py.issubclass. simpl in Hset |- *. rewrite Hset. apply orb_true_r.
    + destruct (literal_eval rt text) as [w|[args|cls err]].
      * destruct (Py.issubclass (Py.type_of w) expected) eqn:Hw; [|discriminate].
        intros H. injection H as <-. exact Hw.
      * discriminate.
      * destruct (String.eqb cls "SyntaxError"); [discriminate|].
        destruct (String.eqb cls "TypeError"); discriminate.
  - intros args.
    destruct (Py.type_is expected Py.set_ && String.eqb text "set()"); [discriminate|].
    destruct (literal_eval rt text) as [w|[args'|cls err]].
    + destruct (Py.issubclass (Py.type_of w) expected) eqn:Hw; [discriminate|].
      intros H. injection H as <-. right. right. eauto.
    + intros H. injection H as <-. now left.
    + destruct (String.eqb cls "SyntaxError"); [intros H; injection H as <-; now left|].
      destruct (String.eqb cls "TypeError") eqn:Hcls; [|discriminate].
      apply String.eqb_eq in Hcls. subst cls.
      intros H. injection H as <-. right. left. eauto.
Qed.

Lemma enum_member_In enum name member :
  enum_member enum name = Some member ->
  exists canonical val,
    In (name, (canonical, val)) (members enum) /\ member = VEnum enum canonical val.
Proof.
  unfold enum_member.
  destruct (List.find _ (members enum)) as [[n [canonical val]]|] eqn:E; [|discriminate].
  intros H. injection H as <-.
  apply List.find_some in E as [Hin Hn]. cbn [fst] in Hn.
  apply String.eqb_eq in Hn. subst n. eauto.
Qed.

Lemma find_by_int_value_In name enum value member :
  _find_by_int_value name enum value = Ok member ->
  exists canonical val,
    In (canonical, (canonical, val)) (members enum) /\ member = VEnum enum canonical val.
Proof.
  unfold _find_by_int_value.
  destruct (py_int value) as [z|e]; cbn [bind]; [|discriminate].
  destruct (List.find _ (enum_iter enum)) as [[canonical val]|] eqn:E; [|discriminate].
  intros H. injection H as <-.
  apply List.find_some in E as [Hin _].
  unfold enum_iter in Hin. apply List.in_map_iff in Hin as ([n [canonical' v]] & Hsnd & Hin).
  apply List.filter_In in Hin as [Hin Hcanonical].
  cbn [fst snd] in *. injection Hsnd as -> ->.
  apply String.eqb_eq in Hcanonical. subst n. eauto.
Qed.

(** X19.  Whatever the enumeration converter makes of a value, by the
    exact name, by a normalized name or by the integer value, is a member
    of the declared enumeration: a member listed in its [__members__],
    under its canonical name. *)
Theorem enum_convert_returns_member
    (rt : Runtime) (c : TypeConverter) (enum : pytype) (value r : object) :
  converter_class c = EnumConverter ->
  info_type (converter_type_info c) = VType enum ->
  _convert rt c value = Ok r ->
  exists name canonical val,
    In (name, (canonical, val)) (members enum) /\ r = VEnum enum canonical val.
Proof.
  destruct c as [cls type_info cc languages ci nested]. cbn [converter_class converter_type_info].
  intros -> Ht. unfold _convert. cbn [_convert_of]. unfold EnumConverter_convert.
  rewrite Ht.
  set (name := type_name rt _). clearbody name.
  destruct (Py.issubclass (Py.type_of value) Py.int).
  { intros H. apply find_by_int_value_In in H as (n & val & Hin & ->). eauto. }
  destruct (as_text value) as [text|e]; cbn [bind]; [|discriminate].
  destruct (enum_member enum text) as [member|] eqn:Hexact.
  { intros H. injection H as <-.
    apply enum_member_In in Hexact as (canonical & val & Hin & ->). eauto. }
  unfold _find_by_normalized_name_or_int_value.
  destruct (List.filter _ _) as [|m [|m' matches]]; [| |discriminate].
  - destruct (int_backed enum); [|discriminate].
    destruct (_find_by_int_value name enum (VStr text)) as [member|[args|ecls msg]] eqn:Hint;
      [|discriminate|discriminate].
    intros H. injection H as <-.
    apply find_by_int_value_In in Hint as (n & val & Hin & ->). eauto.
  - destruct (enum_member enum m) as [member|] eqn:Hm; [|discriminate].
    intros H. injection H as <-.
    apply enum_member_In in Hm as (canonical & val & Hin & ->). eauto.
Qed.

Lemma enum_convert_returns_member_witness :
  exists name canonical val,
    In (name, (canonical, val)) (members Example.Color)
    /\ VEnum Example.Color "GREEN" (EInt 2) = VEnum Example.Color canonical val.
Proof.
  exact (enum_convert_returns_member Example.runtime Example.color Example.Color
           (VStr "green") (VEnum Example.Color "GREEN" (EInt 2))
           eq_refl eq_refl eq_refl).
Defined.

(* ===================================================================== *)
(** * Decimal numerals read back *)
(* ===================================================================== *)

Lemma numeral_char_plain c :
  is_numeral_char c = true ->
  PyStr.is_space c = false /\ PyStr.is_upper c = false
  /\ Ascii.eqb c " " = false /\ Ascii.eqb c "_" = false
  /\ Ascii.eqb "x" c = false /\ Ascii.eqb "o" c = false /\ Ascii.eqb "b" c = false.
Proof.
  destruct c as [[] [] [] [] [] [] [] []]; intros H; try discriminate H;
    repeat split; reflexivity.
Qed.

Lemma is_numeral_cons c s :
  is_numeral (String c s) = true <-> is_numeral_char c = true /\ is_numeral s = true.
Proof.
  unfold is_numeral. simpl. rewrite negb_orb, negb_involutive. apply andb_true_iff.
Qed.

Lemma numeral_without_separators s :
  is_numeral s = true -> remove_separators_text s = s.
Proof.
  rewrite remove_separators_filter.
  induction s as [|c s IH]; [reflexivity|].
  rewrite is_numeral_cons. intros [Hc Hs]. simpl.
  destruct (numeral_char_plain c Hc) as (_ & _ & -> & -> & _). simpl.
  now rewrite IH.
Qed.

Lemma numeral_lower s : is_numeral s = true -> PyStr.lower s = s.
Proof.
  induction s as [|c s IH]; [reflexivity|].
  rewrite is_numeral_cons. intros [Hc Hs]. unfold PyStr.lower in *. simpl.
  rewrite (IH Hs). unfold PyStr.to_lower.
  now destruct (numeral_char_plain c Hc) as (_ & -> & _).
Qed.

Lemma numeral_without_prefix (a b : ascii) s :
  (forall c, is_numeral_char c = true -> Ascii.eqb b c = false) ->
  is_numeral s = true ->
  PyStr.contains (String a (String b "")) s = false.
Proof.
  intros Hb. unfold PyStr.contains.
  assert (H : is_numeral s = true -> PyStr.partition (String a (String b "")) s = None).
  { induction s as [|c s IH]; [reflexivity|].
    rewrite is_numeral_cons. intros [Hc Hs].
    cbn [PyStr.partition PyStr.startswith].
    assert (Hstart : (Ascii.eqb a c
                      && match s with
                         | "" => false
                         | String b0 s' => Ascii.eqb b b0 && true
                         end) = false).
    { destruct s as [|c' s']; [apply andb_false_r|].
      apply is_numeral_cons in Hs as [Hc' _]. rewrite (Hb c' Hc').
      apply andb_false_r. }
    rewrite Hstart. now rewrite (IH Hs). }
  intros Hs. now rewrite (H Hs).
Qed.

Lemma numeral_strip s : is_numeral s = true -> PyStr.strip s = s.
Proof.
  intros Hs. unfold PyStr.strip.
  assert (Hl : PyStr.lstrip s = s).
  { destruct s as [|c s]; [reflexivity|]. simpl.
    apply is_numeral_cons in Hs as [Hc _].
    now destruct (numeral_char_plain c Hc) as (-> & _). }
  rewrite Hl. clear Hl.
  induction s as [|c s IH]; [reflexivity|].
  apply is_numeral_cons in Hs as [Hc Hs]. simpl. rewrite (IH Hs).
  destruct (numeral_char_plain c Hc) as (-> & _).
  destruct s; reflexivity.
Qed.

Lemma digits_of_uint_acc (d : Decimal.uint) (acc : positive) :
  PyNum.digits 10 PyNum.AfterDigit (Z.pos acc) (NilEmpty.string_of_uint d)
  = Some (Z.pos (Pos.of_uint_acc d acc)).
Proof.
  revert acc. induction d; intros acc; cbn [NilEmpty.string_of_uint Pos.of_uint_acc];
    [reflexivity|..];
    match goal with
    | |- PyNum.digits 10 _ ?a (String ?c ?s) = Some (Z.pos (Pos.of_uint_acc _ ?b)) =>
        let k := eval vm_compute in (Z.of_nat (nat_of_ascii c) - 48)%Z in
        change (PyNum.digits 10 PyNum.AfterDigit (a * 10 + k) s
                = Some (Z.pos (Pos.of_uint_acc d b)));
        replace (a * 10 + k)%Z with (Z.pos b) by lia;
        apply IHd
    end.
Qed.

Lemma digits_of_uint (d : Decimal.uint) (st : PyNum.digits_state) :
  (d = Decimal.Nil -> st = PyNum.AfterDigit) ->
  PyNum.digits 10 st 0 (NilEmpty.string_of_uint d) = Some (Z.of_N (Pos.of_uint d)).
Proof.
  revert st. induction d; intros st Hst; cbn [NilEmpty.string_of_uint Pos.of_uint].
  - now rewrite (Hst eq_refl).
  - change (PyNum.digits 10 PyNum.AfterDigit 0 (NilEmpty.string_of_uint d)
            = Some (Z.of_N (Pos.of_uint d))).
    now apply IHd.
  - exact (digits_of_uint_acc d 1).
  - exact (digits_of_uint_acc d 2).
  - exact (digits_of_uint_acc d 3).
  - exact (digits_of_uint_acc d 4).
  - exact (digits_of_uint_acc d 5).
  - exact (digits_of_uint_acc d 6).
  - exact (digits_of_uint_acc d 7).
  - exact (digits_of_uint_acc d 8).
  - exact (digits_of_uint_acc d 9).
Qed.

Lemma uint_is_numeral (d : Decimal.uint) :
  is_numeral (NilEmpty.string_of_uint d) = true.
Proof.
  induction d; cbn [NilEmpty.string_of_uint]; [reflexivity|..];
    apply is_numeral_cons; (split; [reflexivity | exact IHd]).
Qed.

Lemma string_of_uint_nonnil (d : Decimal.uint) :
  d <> Decimal.Nil -> NilZero.string_of_uint d = NilEmpty.string_of_uint d.
Proof. destruct d; [contradiction | reflexivity ..]. Qed.

Lemma of_Z_is_numeral (z : Z) : is_numeral (PyStr.of_Z z) = true.
Proof.
  unfold PyStr.of_Z. destruct z as [|p|p]; cbn [Z.to_int NilZero.string_of_int].
  - reflexivity.
  - rewrite string_of_uint_nonnil by apply DecimalPos.Unsigned.to_uint_nonnil.
    apply uint_is_numeral.
  - apply is_numeral_cons. split; [reflexivity|].
    rewrite string_of_uint_nonnil by apply DecimalPos.Unsigned.to_uint_nonnil.
    apply uint_is_numeral.
Qed.

Lemma unsigned_of_uint (d : Decimal.uint) :
  d <> Decimal.Nil ->
  PyNum.unsigned 10 (NilEmpty.string_of_uint d) = Some (Z.of_N (Pos.of_uint d)).
Proof.
  intros Hd. change (PyNum.unsigned 10 (NilEmpty.string_of_uint d))
    with (PyNum.digits 10 PyNum.AtStart 0 (NilEmpty.string_of_uint d)).
  apply digits_of_uint. intros H. contradiction.
Qed.

(** [int(str(z))] is [z]. *)
Lemma int_of_text_of_Z (z : Z) : PyNum.int_of_text (PyStr.of_Z z) 10 = Some z.
Proof.
  unfold PyNum.int_of_text. rewrite (numeral_strip _ (of_Z_is_numeral z)).
  unfold PyStr.of_Z. destruct z as [|p|p]; cbn [Z.to_int NilZero.string_of_int].
  - reflexivity.
  - pose proof (DecimalPos.Unsigned.to_uint_nonnil p) as Hd.
    pose proof (DecimalPos.Unsigned.of_to p) as Hp.
    rewrite (string_of_uint_nonnil _ Hd).
    pose proof (unsigned_of_uint _ Hd) as Hu. rewrite Hp in Hu.
    destruct (Pos.to_uint p); [contradiction | exact Hu ..].
  - pose proof (DecimalPos.Unsigned.to_uint_nonnil p) as Hd.
    pose proof (DecimalPos.Unsigned.of_to p) as Hp.
    rewrite (string_of_uint_nonnil _ Hd).
    cbv beta iota. rewrite (unsigned_of_uint _ Hd), Hp. reflexivity.
Qed.

Lemma integer_convert_of_Z rt (z : Z) :
  IntegerConverter_convert rt (VStr (PyStr.of_Z z)) = Ok (VInt z).
Proof.
  pose proof (of_Z_is_numeral z) as Hz.
  unfold IntegerConverter_convert. cbn [as_text bind].
  rewrite (numeral_without_separators _ Hz).
  rewrite get_base_decimal; rewrite (numeral_lower _ Hz);
    try (apply numeral_without_prefix; [|exact Hz];
         intros c Hc; now destruct (numeral_char_plain c Hc) as (_ & _ & _ & _ & ? & ? & ?)).
  now rewrite int_of_text_of_Z.
Qed.

(** X20.  The integer converter reads the decimal text of every integer
    back as that integer, negative ones included: removing separators,
    looking for a base prefix and parsing leave a plain numeral as it is
    and give its value. *)
Theorem integer_reads_back_decimal_text
    (rt : Runtime) (c : TypeConverter) (z : Z) (name : object) (kind : string) :
  converter_class c = IntegerConverter ->
  info_type (converter_type_info c) = VType Py.int ->
  _convert rt c (VStr (PyStr.of_Z z)) = Ok (VInt z)
  /\ convert rt c (VStr (PyStr.of_Z z)) name kind = Ok (VInt z).
Proof.
  intros Hcls Ht.
  assert (Hconv : _convert rt c (VStr (PyStr.of_Z z)) = Ok (VInt z)).
  { destruct c as [cls type_info cc languages ci nested]. simpl in Hcls. subst cls.
    unfold _convert. cbn [_convert_of]. apply integer_convert_of_Z. }
  split; [exact Hconv|].
  rewrite convert_unfold by (rewrite Hcls; discriminate).
  unfold TypeConverter_convert.
  assert (Hno : no_conversion_needed rt c (VStr (PyStr.of_Z z)) = false).
  { destruct c as [cls type_info cc languages ci nested]. simpl in Hcls, Ht. subst cls.
    unfold no_conversion_needed. simpl.
    unfold TypeConverter_no_conversion_needed. rewrite Ht. reflexivity. }
  assert (Hh : _handles_value c (VStr (PyStr.of_Z z)) = Ok true).
  { destruct c as [cls type_info cc languages ci nested]. simpl in Hcls. subst cls.
    reflexivity. }
  rewrite Hno, Hh. cbn [bind negb Py.is_str]. now rewrite Hconv.
Qed.

Lemma integer_reads_back_decimal_text_witness :
  _convert Example.runtime Example.integer (VStr "-1204") = Ok (VInt (-1204))
  /\ convert Example.runtime Example.integer (VStr "-1204") VNone "Argument"
     = Ok (VInt (-1204)).
Proof.
  exact (integer_reads_back_decimal_text Example.runtime Example.integer (-1204)
           VNone "Argument" eq_refl eq_refl).
Defined.

(* ===================================================================== *)
(** * The [None] converter *)
(* ===================================================================== *)

Lemma to_upper_O c : PyStr.to_upper c = "O"%char -> c = "o"%char \/ c = "O"%char.
Proof. destruct c as [[] [] [] [] [] [] [] []]; intros H; try discriminate H; auto. Qed.

Lemma to_upper_E c : PyStr.to_upper c = "E"%char -> c = "e"%char \/ c = "E"%char.
Proof. destruct c as [[] [] [] [] [] [] [] []]; intros H; try discriminate H; auto. Qed.

Lemma upper_none text : PyStr.upper text = "NONE" <-> PyStr.lower text = "none".
Proof.
  split.
  - destruct text as [|c1 [|c2 [|c3 [|c4 [|c5 text]]]]]; try discriminate.
    unfold PyStr.upper. cbn [PyStr.map]. intros H.
    injection H as H1 H2 H3 H4.
    apply to_upper_N in H1. apply to_upper_O in H2.
    apply to_upper_N in H3. apply to_upper_E in H4.
    destruct H1 as [-> | ->], H2 as [-> | ->], H3 as [-> | ->], H4 as [-> | ->];
      reflexivity.
  - destruct text as [|c1 [|c2 [|c3 [|c4 [|c5 text]]]]]; try discriminate.
    unfold PyStr.lower. cbn [PyStr.map]. intros H.
    injection H as H1 H2 H3 H4.
    apply to_lower_n in H1. apply to_lower_o in H2.
    apply to_lower_n in H3. apply to_lower_e in H4.
    destruct H1 as [-> | ->], H2 as [-> | ->], H3 as [-> | ->], H4 as [-> | ->];
      reflexivity.
Qed.

(** X21.  The converter of [None] takes the text that reads "none" in any
    letter case, and nothing else, to [None]: no white space around it is
    ignored and the empty text is refused; any other text fails with the
    conversion error that has no detail. *)
Theorem none_converter_is_caseless
    (rt : Runtime) (c : TypeConverter) (text : string) (name : object) (kind : string) :
  converter_class c = NoneConverter ->
  info_type (converter_type_info c) = VType Py.NoneType ->
  convert rt c (VStr text) name kind
  = if String.eqb (PyStr.lower text) "none" then Ok VNone
    else Raise (conversion_error rt c (VStr text) name kind None).
Proof.
  intros Hcls Ht.
  rewrite convert_unfold by (rewrite Hcls; discriminate).
  unfold TypeConverter_convert.
  assert (Hno : no_conversion_needed rt c (VStr text) = false).
  { destruct c as [cls type_info cc languages ci nested]. simpl in Hcls, Ht. subst cls.
    unfold no_conversion_needed. simpl.
    unfold TypeConverter_no_conversion_needed. rewrite Ht. reflexivity. }
  assert (Hh : _handles_value c (VStr text) = Ok true).
  { destruct c as [cls type_info cc languages ci nested]. simpl in Hcls. subst cls.
    reflexivity. }
  assert (Hconv : _convert rt c (VStr text)
                  = if String.eqb (PyStr.lower text) "none" then Ok VNone
                    else Raise (ValueError None)).
  { destruct c as [cls type_info cc languages ci nested]. simpl in Hcls. subst cls.
    unfold _convert. cbn [_convert_of]. unfold NoneConverter_convert. cbn [as_text bind].
    destruct (String.eqb (PyStr.upper text) "NONE") eqn:Hu;
      destruct (String.eqb (PyStr.lower text) "none") eqn:Hl; try reflexivity;
      exfalso.
    - apply String.eqb_eq in Hu. apply upper_none in Hu.
      apply String.eqb_neq in Hl. contradiction.
    - apply String.eqb_eq in Hl. apply upper_none in Hl.
      apply String.eqb_neq in Hu. contradiction. }
  rewrite Hno, Hh. cbn [bind negb Py.is_str]. rewrite Hconv.
  destruct (String.eqb (PyStr.lower text) "none"); reflexivity.
Qed.

Lemma none_converter_is_caseless_witness :
  convert Example.runtime Example.none (VStr "NoNe") VNone "Argument" = Ok VNone
  /\ convert Example.runtime Example.none (VStr " none") VNone "Argument"
     = Raise (ValueError (Some "Argument ' none' cannot be converted to None.")).
Proof.
  split.
  - exact (none_converter_is_caseless Example.runtime Example.none "NoNe"
             VNone "Argument" eq_refl eq_refl).
  - refine (eq_trans (none_converter_is_caseless Example.runtime Example.none " none"
                        VNone "Argument" eq_refl eq_refl) _).
    reflexivity.
Defined.

(* ===================================================================== *)
(** * Dictionaries and sets built from converted items *)
(* ===================================================================== *)

Lemma dict_comprehension_ok {A : Type} (f : A -> result (object * object))
    (l : list A) (acc r : list (object * object)) :
  dict_comprehension f l acc = Ok r
  <-> exists pairs,
        traverse f l = Ok pairs
        /\ List.forallb (fun kv => Py.hashable (fst kv)) pairs = true
        /\ r = List.fold_left (fun acc kv => Py.setitem (fst kv) (snd kv) acc) pairs acc.
Proof.
  revert acc. induction l as [|x l IH]; intros acc; simpl.
  - split.
    + intros H. injection H as <-. exists []. auto.
    + intros (pairs & H & _ & ->). injection H as <-. reflexivity.
  - destruct (f x) as [kv|e]; simpl.
    + destruct (Py.hashable (fst kv)) eqn:Hh.
      * rewrite IH. split.
        -- intros (pairs & Ht & Hall & ->). exists (kv :: pairs).
           rewrite Ht. simpl. rewrite Hh. auto.
        -- intros (pairs & Ht & Hall & ->).
           destruct (traverse f l) as [ps|e]; simpl in Ht; [|discriminate].
           injection Ht as <-. simpl in Hall. rewrite Hh in Hall.
           exists ps. auto.
      * split; [discriminate|].
        intros (pairs & Ht & Hall & _).
        destruct (traverse f l) as [ps|e]; simpl in Ht; [|discriminate].
        injection Ht as <-. simpl in Hall. rewrite Hh in Hall. discriminate.
    + split; [discriminate|]. intros (pairs & Ht & _). discriminate.
Qed.

Lemma set_comprehension_ok {A : Type} (f : A -> result object)
    (l : list A) (acc r : list object) :
  set_comprehension f l acc = Ok r
  <-> exists items,
        traverse f l = Ok items
        /\ List.forallb Py.hashable items = true
        /\ r = List.fold_left
                 (fun acc x => if Py.mem x acc then acc else (acc ++ [x])%list) items acc.
Proof.
  revert acc. induction l as [|x l IH]; intros acc; simpl.
  - split.
    + intros H. injection H as <-. exists []. auto.
    + intros (items & H & _ & ->). injection H as <-. reflexivity.
  - destruct (f x) as [y|e]; simpl.
    + destruct (Py.hashable y) eqn:Hh.
      * rewrite IH. split.
        -- intros (items & Ht & Hall & ->). exists (y :: items).
           rewrite Ht. simpl. rewrite Hh. auto.
        -- intros (items & Ht & Hall & ->).
           destruct (traverse f l) as [ys|e]; simpl in Ht; [|discriminate].
           injection Ht as <-. simpl in Hall. rewrite Hh in Hall.
           exists ys. auto.
      * split; [discriminate|].
        intros (items & Ht & Hall & _).
        destruct (traverse f l) as [ys|e]; simpl in Ht; [|discriminate].
        injection Ht as <-. simpl in Hall. rewrite Hh in Hall. discriminate.
    + split; [discriminate|]. intros (items & Ht & _). discriminate.
Qed.

Lemma convert_entry_ok rt key_converter value_converter kv kv' :
  convert_entry (methods rt key_converter) (methods rt value_converter) kv = Ok kv'
  <-> convert rt key_converter (fst kv) VNone "Key" = Ok (fst kv')
      /\ convert rt value_converter (snd kv) (fst kv) "Item" = Ok (snd kv').
Proof.
  unfold convert_entry. rewrite !methods_convert.
  destruct (convert rt key_converter (fst kv) VNone "Key") as [k|e]; cbn [bind].
  - destruct (convert rt value_converter (snd kv) (fst kv) "Item") as [v|e]; cbn [bind].
    + destruct kv' as [k' v']. cbn [fst snd]. split.
      * intros H. injection H as <- <-. auto.
      * intros [H1 H2]. injection H1 as <-. injection H2 as <-. reflexivity.
    + split; [discriminate | intros [_ H]; discriminate].
  - split; [discriminate | intros [H _]; discriminate].
Qed.

Lemma Forall2_iff {A B : Type} (P Q : A -> B -> Prop) (l : list A) (m : list B) :
  (forall x y, P x y <-> Q x y) -> Forall2 P l m <-> Forall2 Q l m.
Proof.
  intros H. split; induction 1; constructor; auto; now apply H.
Qed.

(** X22.  The dictionary converter with nested converters succeeds
    exactly when every key converts (without a name, as a "Key"), every
    value converts under its original key as its name, and the converted
    keys can be stored; the result is the dictionary built from the
    converted pairs in their order, a later pair with an equal key taking
    the place of an earlier one. *)
Theorem dictionary_entries_converted
    (rt : Runtime) (c key_converter value_converter : TypeConverter)
    (others : list TypeConverter) (value r : object) :
  converter_nested c = NestedList (key_converter :: value_converter :: others) ->
  dict_convert_items rt c value = Ok r
  <-> exists pairs,
        Forall2 (fun kv kv' =>
                   convert rt key_converter (fst kv) VNone "Key" = Ok (fst kv')
                   /\ convert rt value_converter (snd kv) (fst kv) "Item" = Ok (snd kv'))
                (Py.entries value) pairs
        /\ List.forallb (fun kv => Py.hashable (fst kv)) pairs = true
        /\ r = VDict (Py.dict_of pairs).
Proof.
  intros Hn. unfold dict_convert_items, DictionaryConverter_convert_items. rewrite Hn.
  cbn [nested_map nested_is_empty nested_list List.map].
  split.
  - destruct (dict_comprehension _ _ _) as [entries|e] eqn:Hd; cbn [bind]; [|discriminate].
    intros H. injection H as <-.
    apply dict_comprehension_ok in Hd as (pairs & Ht & Hall & ->).
    exists pairs. split; [|auto].
    apply traverse_ok in Ht.
    revert Ht. apply Forall2_iff.
    intros kv kv'. split; intros H; apply convert_entry_ok; exact H.
  - intros (pairs & Hpairs & Hall & ->).
    assert (Hd : dict_comprehension
                   (convert_entry (methods rt key_converter) (methods rt value_converter))
                   (Py.entries value) []
                 = Ok (Py.dict_of pairs)).
    { apply dict_comprehension_ok. exists pairs. split; [|auto].
      apply traverse_ok. revert Hpairs. apply Forall2_iff.
      intros kv kv'. split; intros H; apply convert_entry_ok; exact H. }
    now rewrite Hd.
Qed.

Lemma dictionary_entries_converted_witness :
  exists pairs,
    Forall2 (fun kv kv' =>
               convert Example.runtime Example.integer (fst kv) VNone "Key"
               = Ok (fst kv')
               /\ convert Example.runtime Example.integer (snd kv) (fst kv) "Item"
                  = Ok (snd kv'))
            [(VStr "1", VStr "10"); (VStr "01", VStr "20")] pairs
    /\ List.forallb (fun kv => Py.hashable (fst kv)) pairs = true
    /\ VDict [(VInt 1, VInt 20)] = VDict (Py.dict_of pairs).
Proof.
  exact (proj1 (dictionary_entries_converted Example.runtime Example.int_dict
                  Example.integer Example.integer []
                  (VDict [(VStr "1", VStr "10"); (VStr "01", VStr "20")])
                  (VDict [(VInt 1, VInt 20)]) eq_refl)
               eq_refl).
Defined.

(** X23.  The set converter with a nested converter succeeds exactly
    when every element converts (without a name, as an "Item") and the
    converted elements can be stored; the result is the set of the
    converted elements, so elements that convert to equal values become
    one. *)
Theorem set_elements_converted
    (rt : Runtime) (c converter : TypeConverter) (others : list TypeConverter)
    (value r : object) :
  converter_nested c = NestedList (converter :: others) ->
  set_convert_items rt c value = Ok r
  <-> exists items,
        Forall2 (fun v y => convert rt converter v VNone "Item" = Ok y)
                (Py.items value) items
        /\ List.forallb Py.hashable items = true
        /\ r = VSet (Py.set_of items).
Proof.
  intros Hn. unfold set_convert_items, SetConverter_convert_items. rewrite Hn.
  cbn [nested_map nested_is_empty nested_list List.map].
  split.
  - destruct (set_comprehension _ _ _) as [elements|e] eqn:Hs; cbn [bind]; [|discriminate].
    intros H. injection H as <-.
    apply set_comprehension_ok in Hs as (items & Ht & Hall & ->).
    exists items. split; [|auto]. apply traverse_ok in Ht. exact Ht.
  - intros (items & Hitems & Hall & ->).
    assert (Hs : set_comprehension (convert_element (methods rt converter))
                                   (Py.items value) []
                 = Ok (Py.set_of items)).
    { apply set_comprehension_ok. exists items. split; [|auto].
      apply traverse_ok. exact Hitems. }
    now rewrite Hs.
Qed.

Lemma set_elements_converted_witness :
  exists items,
    Forall2 (fun v y => convert Example.runtime Example.integer v VNone "Item" = Ok y)
            [VStr "1"; VStr "0x1"; VStr "2"] items
    /\ List.forallb Py.hashable items = true
    /\ VSet [VInt 1; VInt 2] = VSet (Py.set_of items).
Proof.
  exact (proj1 (set_elements_converted Example.runtime Example.int_set
                  Example.integer []
                  (VSet [VStr "1"; VStr "0x1"; VStr "2"])
                  (VSet [VInt 1; VInt 2]) eq_refl)
               eq_refl).
Defined.

(* ===================================================================== *)
(** * Containers read from text, and values taken as they are *)
(* ===================================================================== *)

Lemma literal_eval_instance rt text expected v :
  _literal_eval rt text expected = Ok v ->
  Py.issubclass (Py.type_of v) expected = true.
Proof.
  unfold _literal_eval.
  destruct (Py.type_is expected Py.set_ && String.eqb text "set()") eqn:Hset.
  - intros H. injection H as <-.
    apply andb_true_iff in Hset as [Hset _]. unfold Py.type_is in Hset.
    unfold Py.issubclass. simpl in Hset |- *. rewrite Hset. apply orb_true_r.
  - destruct (literal_eval rt text) as [w|[args|cls err]].
    + destruct (Py.issubclass (Py.type_of w) expected) eqn:Hw; [|discriminate].
      intros H. injection H as <-. exact Hw.
    + discriminate.
    + destruct (String.eqb cls "SyntaxError"); [discriminate|].
      destruct (String.eqb cls "TypeError"); discriminate.
Qed.

(** X24.  Text that a container converter converts comes out as a
    container of the declared kind: what [_convert] returns for the list,
    tuple, record, dictionary, set and frozenset converters is an instance
    of [list], [tuple], [dict], [dict], [set] and [frozenset], so the text
    of a tuple given to the list converter is refused and not passed
    on. *)
Theorem text_converts_to_declared_container
    (rt : Runtime) (c : TypeConverter) (value r : object) :
  _convert rt c value = Ok r ->
  match declared_container (converter_class c) with
  | Some container => Py.issubclass (Py.type_of r) container = true
  | None => True
  end.
Proof.
  destruct c as [cls type_info cc languages ci nested].
  unfold _convert. cbn [converter_class].
  destruct cls; try exact (fun _ => I); cbn [_convert_of declared_container].
  - unfold ListConverter_convert.
    destruct (as_text value) as [text|e]; cbn [bind]; [|discriminate].
    destruct (_literal_eval rt text Py.list_) as [v|e] eqn:Hv; cbn [bind]; [|discriminate].
    apply literal_eval_instance in Hv.
    unfold ListConverter_convert_items.
    destruct (nested_is_empty _); [intros H; injection H as <-; exact Hv|].
    destruct (nested_list _) as [|converter others];
      [intros H; injection H as <-; exact Hv|].
    destruct (traverse _ _) as [items|e]; cbn [bind]; [|discriminate].
    intros H; injection H as <-; reflexivity.
  - unfold TupleConverter_convert.
    destruct (as_text value) as [text|e]; cbn [bind]; [|discriminate].
    destruct (_literal_eval rt text Py.tuple) as [v|e] eqn:Hv; cbn [bind]; [|discriminate].
    apply literal_eval_instance in Hv.
    unfold TupleConverter_convert_items.
    destruct (nested_is_empty _); [intros H; injection H as <-; exact Hv|].
    destruct (homogenous type_info).
    + destruct (nested_list _) as [|converter others];
        [intros H; injection H as <-; exact Hv|].
      destruct (traverse _ _) as [items|e]; cbn [bind]; [|discriminate].
      intros H; injection H as <-; reflexivity.
    + destruct (negb _); [discriminate|].
      destruct (traverse _ _) as [items|e]; cbn [bind]; [|discriminate].
      intros H; injection H as <-; reflexivity.
  - unfold TypedDictConverter_convert.
    destruct (as_text value) as [text|e]; cbn [bind]; [|discriminate].
    destruct (_literal_eval rt text Py.dict) as [v|e] eqn:Hv; cbn [bind]; [|discriminate].
    apply literal_eval_instance in Hv.
    unfold TypedDictConverter_convert_items.
    destruct (convert_fields _ _ _ _ _) as [entries [not_allowed|e]]; cbn [snd];
      [|discriminate].
    destruct not_allowed as [|key not_allowed].
    + destruct (List.filter _ (required type_info)); [|discriminate].
      intros H. injection H as <-. destruct v; exact Hv.
    + destruct (py_sorted rt (key :: not_allowed)); cbn [bind]; discriminate.
  - unfold DictionaryConverter_convert.
    destruct (as_text value) as [text|e]; cbn [bind]; [|discriminate].
    destruct (_literal_eval rt text Py.dict) as [v|e] eqn:Hv; cbn [bind]; [|discriminate].
    apply literal_eval_instance in Hv.
    unfold DictionaryConverter_convert_items.
    destruct (nested_is_empty _); [intros H; injection H as <-; exact Hv|].
    destruct (nested_list _) as [|key_converter [|value_converter others]];
      [discriminate | discriminate |].
    destruct (dict_comprehension _ _ _) as [entries|e]; cbn [bind]; [|discriminate].
    intros H; injection H as <-; reflexivity.
  - unfold SetConverter_convert.
    destruct (as_text value) as [text|e]; cbn [bind]; [|discriminate].
    destruct (_literal_eval rt text Py.set_) as [v|e] eqn:Hv; cbn [bind]; [|discriminate].
    apply literal_eval_instance in Hv.
    unfold SetConverter_convert_items.
    destruct (nested_is_empty _); [intros H; injection H as <-; exact Hv|].
    destruct (nested_list _) as [|converter others];
      [intros H; injection H as <-; exact Hv|].
    destruct (set_comprehension _ _ _) as [items|e]; cbn [bind]; [|discriminate].
    intros H; injection H as <-; reflexivity.
  - unfold FrozenSetConverter_convert.
    destruct (Py.eq value (VStr "frozenset()")); [intros H; injection H as <-; reflexivity|].
    destruct (SetConverter_convert rt _ value) as [converted|e]; cbn [bind];
      [|discriminate].
    intros H. injection H as <-. unfold py_frozenset. destruct converted; reflexivity.
Qed.

Lemma text_converts_to_declared_container_witness :
  Py.issubclass (Py.type_of (VFrozenSet [])) Py.frozenset = true
  /\ Py.issubclass (Py.type_of (VSet [])) Py.set_ = true.
Proof.
  split.
  - exact (text_converts_to_declared_container Example.runtime
             (converter_for (Example.info "frozenset" Py.frozenset) None None)
             (VStr "frozenset()") (VFrozenSet []) eq_refl).
  - exact (text_converts_to_declared_container Example.runtime
             (converter_for (Example.info "set" Py.set_) None None)
             (VStr "set()") (VSet []) eq_refl).
Defined.

Lemma convert_identity rt c value name kind :
  no_conversion_needed rt c value = true -> convert rt c value name kind = Ok value.
Proof.
  intros Hno. destruct (unresolvable c) eqn:Hc.
  - now apply unresolvable_convert.
  - rewrite (convert_unfold rt c value name kind (unresolvable_class c Hc)).
    unfold TypeConverter_convert. now rewrite Hno.
Qed.

Lemma traverse_items_identity rt (converter : TypeConverter) (items : list object) n :
  List.forallb (no_conversion_needed rt converter) items = true ->
  traverse (convert_item (methods rt converter)) (enumerate_from n items) = Ok items.
Proof.
  revert n. induction items as [|v items IH]; intros n; simpl; [reflexivity|].
  intros H. apply andb_true_iff in H as [Hv Hitems].
  unfold convert_item at 1. cbn [fst snd]. rewrite methods_convert.
  rewrite (convert_identity rt converter v _ _ Hv). cbn [bind].
  now rewrite (IH (S n) Hitems).
Qed.

Lemma traverse_pairs_identity rt (converters : list TypeConverter) (items : list object) n :
  List.length items = List.length converters ->
  List.forallb (fun cv => m_no_conversion_needed (fst cv) (snd cv))
               (zip (List.map (methods rt) converters) items) = true ->
  traverse convert_pair (enumerate_from n (zip (List.map (methods rt) converters) items))
  = Ok items.
Proof.
  revert items n.
  induction converters as [|converter converters IH]; intros [|v items] n Hlen;
    simpl in *; try discriminate; [reflexivity|].
  intros H. apply andb_true_iff in H as [Hv Hitems].
  unfold convert_pair at 1. cbn [fst snd]. rewrite methods_convert.
  rewrite (convert_identity rt converter v _ _ Hv). cbn [bind].
  injection Hlen as Hlen. fold (zip (List.map (methods rt) converters) items).
  now rewrite (IH items (S n) Hlen Hitems).
Qed.

(** X25.  The shortcut of the list and of the tuple converter is sound:
    when [no_conversion_needed] holds for a value, converting it all the
    same would give back its very items, as a list or as a tuple, so
    nothing is lost by returning the value as it is. *)
Theorem sequence_shortcut_is_sound (rt : Runtime) (c : TypeConverter) (value : object) :
  converter_class c = ListConverter \/ converter_class c = TupleConverter ->
  no_conversion_needed rt c value = true ->
  _non_string_convert rt c value = Ok (own_sequence (converter_class c) value).
Proof.
  destruct c as [cls type_info cc languages ci nested].
  unfold no_conversion_needed, _non_string_convert.
  cbn [converter_class methods m_no_conversion_needed].
  intros [-> | ->]; cbn [no_conversion_needed_of _non_string_convert_of own_sequence].
  - unfold ListConverter_no_conversion_needed, ListConverter_non_string_convert,
      ListConverter_convert_items, all_items_need_no_conversion.
    destruct (Py.is_str value || _); [discriminate|].
    destruct (nested_is_empty _); [reflexivity|].
    rewrite nested_list_map.
    destruct (nested_list nested) as [|converter others]; [reflexivity|].
    cbn [List.map Py.items]. intros H.
    unfold enumerate. now rewrite (traverse_items_identity rt converter _ 0 H).
  - unfold TupleConverter_no_conversion_needed, TupleConverter_non_string_convert,
      TupleConverter_convert_items, all_items_need_no_conversion.
    destruct (Py.is_str value || _); [discriminate|].
    destruct (nested_is_empty _); [reflexivity|].
    rewrite nested_list_map. cbn [Py.items].
    destruct (homogenous type_info).
    + destruct (nested_list nested) as [|converter others]; [reflexivity|].
      cbn [List.map]. intros H.
      unfold enumerate. now rewrite (traverse_items_identity rt converter _ 0 H).
    + destruct (Nat.eqb (List.length (Py.items value))
                        (List.length (List.map (methods rt) (nested_list nested))))
        eqn:Hlen; cbn [negb]; [|discriminate].
      intros H. apply Nat.eqb_eq in Hlen. rewrite List.length_map in Hlen.
      unfold enumerate.
      now rewrite (traverse_pairs_identity rt (nested_list nested) _ 0 Hlen H).
Qed.

Lemma sequence_shortcut_is_sound_witness :
  _non_string_convert Example.runtime Example.int_pair (VTuple [VInt 1; VBool true])
  = Ok (VTuple [VInt 1; VBool true])
  /\ _non_string_convert Example.runtime Example.int_list (VList [VInt 1; VInt 2])
     = Ok (VList [VInt 1; VInt 2]).
Proof.
  split.
  - exact (sequence_shortcut_is_sound Example.runtime Example.int_pair
             (VTuple [VInt 1; VBool true]) (or_intror eq_refl) eq_refl).
  - exact (sequence_shortcut_is_sound Example.runtime Example.int_list
             (VList [VInt 1; VInt 2]) (or_introl eq_refl) eq_refl).
Defined.

(* ===================================================================== *)
(** * Records taken as they are *)
(* ===================================================================== *)

Lemma setitem_same {A : Type} (k : object) (a : A) (d : list (object * A)) :
  Py.lookup k d = Some a -> Py.setitem k a d = d.
Proof.
  induction d as [|[k' a'] d IH]; simpl; [discriminate|].
  destruct (Py.eq k k').
  - intros H. injection H as ->. reflexivity.
  - intros H. now rewrite IH.
Qed.

Lemma lookup_text_In {A : Type} (k : string) (d : list (object * A)) (a : A) :
  Py.lookup (VStr k) d = Some a -> In (VStr k, a) d.
Proof.
  induction d as [|[k' a'] d IH]; cbn [Py.lookup]; [discriminate|].
  destruct (Py.eq (VStr k) k') eqn:E.
  - intros H. injection H as ->. left.
    destruct k'; try discriminate. simpl in E. apply String.eqb_eq in E. now subst.
  - intros H. right. now apply IH.
Qed.

(** The loop of the record converter over entries that need no
    conversion leaves them as they are and collects no key. *)
Lemma convert_fields_identity rt (nested : nested_of TypeConverter) keys entries :
  (forall kv, In kv entries ->
              exists converter,
                nested_getitem nested (fst kv) = Some converter
                /\ no_conversion_needed rt converter (snd kv) = true) ->
  (forall key, In key keys -> In key (List.map fst entries)) ->
  convert_fields rt (nested_map (methods rt) nested) keys entries [] = (entries, Ok []).
Proof.
  intros Hentries.
  induction keys as [|key keys IH]; intros Hkeys; simpl; [reflexivity|].
  assert (Hkey : In key (List.map fst entries)) by (apply Hkeys; now left).
  apply List.in_map_iff in Hkey as ([k v] & Hk & Hin). cbn [fst] in Hk. subst k.
  destruct (Hentries _ Hin) as (converter & Hget & _). cbn [fst] in Hget.
  rewrite nested_getitem_map, Hget. cbn [option_map].
  assert (Htext : exists name, key = VStr name).
  { destruct nested as [|l|d]; destruct key; try discriminate; eauto. }
  destruct Htext as [name ->].
  assert (IH' : convert_fields rt (nested_map (methods rt) nested) keys entries []
                = (entries, Ok [])).
  { apply IH. intros k Hk. apply Hkeys. now right. }
  destruct (m_bool (methods rt converter)); [|exact IH'].
  destruct (Py.lookup (VStr name) entries) as [item|] eqn:Hitem.
  - pose proof (lookup_text_In _ _ _ Hitem) as Hin'.
    destruct (Hentries _ Hin') as (converter' & Hget' & Hno). cbn [fst snd] in *.
    rewrite Hget in Hget'. injection Hget' as <-.
    rewrite methods_convert.
    rewrite (convert_identity rt converter item _ _ Hno).
    rewrite (setitem_same _ _ _ Hitem). exact IH'.
  - exfalso. clear -Hin Hitem.
    induction entries as [|[k' v'] entries IHe]; [contradiction|].
    cbn [Py.lookup] in Hitem. destruct (Py.eq (VStr name) k') eqn:E; [discriminate|].
    destruct Hin as [Heq | Hin]; [|now apply IHe].
    injection Heq as -> _. simpl in E. now rewrite String.eqb_refl in E.
Qed.

Lemma filter_negb_all {A : Type} (p : A -> bool) (l : list A) :
  List.forallb p l = true -> List.filter (fun x => negb (p x)) l = [].
Proof.
  induction l as [|x l IH]; simpl; [reflexivity|].
  intros H. apply andb_true_iff in H as [Hx Hl]. rewrite Hx. simpl. now apply IH.
Qed.

(** X26.  The shortcut of the record converter is sound: when
    [no_conversion_needed] holds for a mapping, converting its items all
    the same would succeed, leave every entry as it is and return the
    mapping. *)
Theorem record_shortcut_is_sound (rt : Runtime) (c : TypeConverter) (value : object) :
  converter_class c = TypedDictConverter ->
  no_conversion_needed rt c value = true ->
  typed_dict_convert_items rt c value = (Py.entries value, Ok value).
Proof.
  destruct c as [cls type_info cc languages ci nested].
  unfold no_conversion_needed, typed_dict_convert_items.
  cbn [converter_class converter_type_info converter_nested methods m_no_conversion_needed].
  intros ->. cbn [no_conversion_needed_of].
  unfold TypedDictConverter_no_conversion_needed, TypedDictConverter_convert_items.
  destruct (Py.issubclass (Py.type_of value) Py.Mapping) eqn:Hmapping; cbn [negb];
    [|discriminate].
  intros H. apply andb_true_iff in H as [Hentries Hrequired].
  assert (Hkeys : Py.items value = List.map fst (Py.entries value)).
  { destruct value; try discriminate Hmapping; reflexivity. }
  assert (Hfields : convert_fields rt (nested_map (methods rt) nested)
                      (Py.items value) (Py.entries value) []
                    = (Py.entries value, Ok [])).
  { apply convert_fields_identity.
    - intros kv Hin. rewrite List.forallb_forall in Hentries.
      specialize (Hentries kv Hin). rewrite nested_getitem_map in Hentries.
      destruct (nested_getitem nested (fst kv)) as [converter|]; [|discriminate].
      exists converter. split; [reflexivity | exact Hentries].
    - intros key Hkey. now rewrite <- Hkeys. }
  rewrite Hfields. rewrite <- Hkeys.
  rewrite (filter_negb_all (fun key => Py.mem (VStr key) (Py.items value)) _ Hrequired).
  destruct value; reflexivity.
Qed.

Lemma record_shortcut_is_sound_witness :
  typed_dict_convert_items Example.runtime Example.point
    (VDict [(VStr "x", VInt 1); (VStr "y", VInt 2)])
  = ([(VStr "x", VInt 1); (VStr "y", VInt 2)],
     Ok (VDict [(VStr "x", VInt 1); (VStr "y", VInt 2)])).
Proof.
  exact (record_shortcut_is_sound Example.runtime Example.point
           (VDict [(VStr "x", VInt 1); (VStr "y", VInt 2)]) eq_refl eq_refl).
Defined.

(* ===================================================================== *)
(** * Separators in numbers *)
(* ===================================================================== *)

(** X27.  The integer, float and decimal converters do not see the
    spaces and underscores of a text: two texts that are the same once
    these are taken out, wherever and however many they are, are converted
    to the same result, a failure included. *)
Theorem number_separators_are_ignored
    (rt : Runtime) (c : TypeConverter) (s t : string) :
  removes_separators (converter_class c) = true ->
  without_separators s = without_separators t ->
  _convert rt c (VStr s) = _convert rt c (VStr t).
Proof.
  destruct c as [cls type_info cc languages ci nested]. cbn [converter_class].
  intros Hcls H.
  assert (Hs : remove_separators_text s = remove_separators_text t).
  { rewrite !remove_separators_filter. exact H. }
  unfold _convert.
  destruct cls; try discriminate; cbn [_convert_of].
  - unfold IntegerConverter_convert. cbn [as_text bind]. now rewrite Hs.
  - unfold FloatConverter_convert, _remove_number_separators. now rewrite Hs.
  - unfold DecimalConverter_convert, _remove_number_separators. now rewrite Hs.
Qed.

Lemma number_separators_are_ignored_witness :
  _convert Example.runtime Example.integer (VStr "1 000_000")
  = _convert Example.runtime Example.integer (VStr "1000000")
  /\ _convert Example.runtime Example.integer (VStr "1000000") = Ok (VInt 1000000).
Proof.
  split; [|reflexivity].
  exact (number_separators_are_ignored Example.runtime Example.integer
           "1 000_000" "1000000" eq_refl eq_refl).
Defined.
